(** * remote_provisioners: launch confirmation, tunnels and signal delivery

    A shallow embedding of [remote_provisioners/remote_provisioner.py]
    (class [RemoteProvisionerBase]) and [remote_provisioners/container.py]
    (class [ContainerProvisioner]).

    - Python [str] is [string], the string in UTF-8; Python [int] is [Z];
      dictionaries are [gmap string _]; [Optional] is [option].
    - A method is a function of the provisioner object and of the world
      (clock, sockets, child processes, collaborators) that returns an
      outcome (a value or a raised exception) with the updated object and
      world.  An exception keeps the mutations made before it, as in Python.
    - Collaborators that are not part of the two source files (the operating
      system, the response manager, the abstract container methods) answer
      through an environment that is universally quantified in every
      theorem. *)

From Stdlib Require Import ZArith List String Ascii Bool Lia.
From stdpp Require Import base gmap strings list.

Local Open Scope string_scope.
Local Open Scope Z_scope.

(** ** Python strings: [str.split] and [int] *)

Module Py.

Fixpoint split_aux (sep : string) (skip : nat) (cur : string) (s : string)
  : list string :=
  match s with
  | EmptyString => [cur]
  | String c s' =>
      match skip with
      | S k => split_aux sep k cur s'
      | O =>
          if String.prefix sep s
          then cur :: split_aux sep (String.length sep - 1) EmptyString s'
          else split_aux sep O (cur ++ String c EmptyString) s'
      end
  end.

(** [s.split(sep)] for a non-empty separator: non-overlapping occurrences,
    scanned from the left. *)
Definition split (s sep : string) : list string :=
  split_aux sep O EmptyString s.

(** The characters that [int] strips around a literal: those of C's
    [isspace] (the separators 28 to 31 are not among them). *)
Definition is_space (c : ascii) : bool :=
  let n := nat_of_ascii c in
  ((9 <=? n)%nat && (n <=? 13)%nat) || (n =? 32)%nat.

Definition digit_val (c : ascii) : option Z :=
  let n := nat_of_ascii c in
  if ((48 <=? n)%nat && (n <=? 57)%nat) then Some (Z.of_nat (n - 48)) else None.

Fixpoint lstrip (l : list ascii) : list ascii :=
  match l with
  | c :: l' => if is_space c then lstrip l' else l
  | [] => []
  end.

Definition strip (l : list ascii) : list ascii :=
  rev (lstrip (rev (lstrip l))).

(** Decimal digits, single underscores allowed between two digits. *)
Fixpoint digits (acc : Z) (after_underscore : bool) (l : list ascii)
  : option Z :=
  match l with
  | [] => if after_underscore then None else Some acc
  | c :: l' =>
      match digit_val c with
      | Some d => digits (10 * acc + d) false l'
      | None =>
          if (Ascii.eqb c "_" && negb after_underscore)%bool
          then digits acc true l'
          else None
      end
  end.

Definition unsigned_literal (l : list ascii) : option Z :=
  match l with
  | c :: _ => match digit_val c with
              | Some _ => digits 0 false l
              | None => None
              end
  | [] => None
  end.

(** A literal that every interpreter reads in the same way: ASCII
    characters only, and no more of them than the least limit that can be
    set on the digits of a literal
    ([sys.int_info.str_digits_check_threshold]). *)
Definition is_plain (s : string) : bool :=
  forallb (fun c => (nat_of_ascii c <? 128)%nat) (list_ascii_of_string s)
  && (String.length s <=? 640)%nat.

(** [int(s)] in base ten for a plain literal. *)
Definition plain_int (s : string) : option Z :=
  match strip (list_ascii_of_string s) with
  | "+"%char :: l => unsigned_literal l
  | "-"%char :: l => Z.opp <$> unsigned_literal l
  | l => unsigned_literal l
  end.

(** [int(s)] in base ten; [None] stands for [ValueError: invalid literal].
    Beyond the plain literals the answer is that of the interpreter, which
    depends on its Unicode tables (decimal digits and white space of other
    scripts) and on its limit on the digits of a literal: [int_beyond]
    stands for it. *)
Definition int_of_str (int_beyond : string -> option Z) (s : string)
  : option Z :=
  if is_plain s then plain_int s else int_beyond s.

End Py.

(** ** Exceptions and outcomes *)

Inductive exn : Type :=
| ValueError_invalid_literal      (* int() of a malformed literal *)
| ValueError_range_size           (* "Range size must be at least ..." *)
| ValueError_invalid_port         (* "Range for valid port numbers is (1024, 65535)." *)
| ValueError_empty_randrange      (* random.randint(a, b) with a > b *)
| IndexError_list_index
| KeyError_key (k : string)
| TypeError_operand
| OverflowError_port              (* bind(): port must be 0-65535 *)
| OSError_errno (errno : Z)
| Timeout_wait                    (* socket.timeout / TimeoutError / asyncio TimeoutError *)
| Exception_other                 (* any other exception of a collaborator *)
| RuntimeError_port_range_format  (* "Port range validation failed for range" *)
| RuntimeError_port_range_exhausted (* "Failed to locate port within range" *)
| RuntimeError_ssh_tunnel (channel : string) (* "Could not open SSH tunnel" *)
| RuntimeError_connection_wait    (* "Exception occurred waiting for connection file response" *)
| RuntimeError_connection_null    (* "connection information is null!" *)
| RuntimeError_launch_failure     (* "Error occurred during launch of KernelID" *)
| PermissionError_passwordless_ssh (* "Must use password-less scheme" *)
| TimeoutError_launch.            (* "launch timeout due to: Waited too long" *)

Inductive outcome (A : Type) : Type :=
| Return (a : A)
| Raise (e : exn)
| OutOfFuel.

Arguments Return {A} a.
Arguments Raise {A} e.
Arguments OutOfFuel {A}.

(** [errno] values used by the source. *)
Definition ECONNREFUSED : Z := 111.
Definition ENOTCONN : Z := 107.
Definition EADDRINUSE : Z := 98.

(** ** Module-level settings (defaults of the environment variables) *)

(** [RP_MIN_PORT_RANGE_SIZE], default ['1000']. *)
Definition min_port_range_size : Z := 1000.
(** [RP_MAX_PORT_RANGE_RETRIES], default ['5']. *)
Definition max_port_range_retries : Z := 5.
(** [RP_POLL_INTERVAL], default ['0.5'] seconds, in milliseconds. *)
Definition poll_interval : Z := 500.
(** [RP_SSH_PORT], default ['22']. *)
Definition ssh_port : Z := 22.
(** [signal.SIGKILL]. *)
Definition SIGKILL : Z := 9.

(** ** Port-range validation *)

Definition validate_port (port : Z) : outcome unit :=
  if (port <? 1024) || (port >? 65535)
  then Raise ValueError_invalid_port
  else Return tt.

(** [RemoteProvisionerBase._validate_port_range], as a function of
    [self.port_range].  [int] raises [ValueError], which the [except
    IndexError] clause lets through; a missing second bound raises
    [IndexError], which is re-raised as a [RuntimeError]. *)
Definition _validate_port_range (int_beyond : string -> option Z)
  (port_range : string) : outcome (Z * Z) :=
  let port_ranges := Py.split port_range ".." in
  match port_ranges !! 0%nat with
  | None => Raise RuntimeError_port_range_format
  | Some s0 =>
      match Py.int_of_str int_beyond s0 with
      | None => Raise ValueError_invalid_literal
      | Some lower_port =>
          match port_ranges !! 1%nat with
          | None => Raise RuntimeError_port_range_format
          | Some s1 =>
              match Py.int_of_str int_beyond s1 with
              | None => Raise ValueError_invalid_literal
              | Some upper_port =>
                  let port_range_size := upper_port - lower_port in
                  if negb (port_range_size =? 0) then
                    if port_range_size <? min_port_range_size
                    then Raise ValueError_range_size
                    else
                      match validate_port lower_port with
                      | Return _ =>
                          match validate_port upper_port with
                          | Return _ => Return (lower_port, upper_port)
                          | Raise e => Raise e
                          | OutOfFuel => OutOfFuel
                          end
                      | Raise e => Raise e
                      | OutOfFuel => OutOfFuel
                      end
                  else Return (lower_port, upper_port)
              end
          end
      end
  end.

(** ** Data model *)

(** Values of the connection payload (decoded JSON) and of a few results. *)
Inductive pyval : Type :=
| PNone
| PBool (b : bool)
| PInt (z : Z)
| PStr (s : string).

#[global] Instance pyval_eq_dec : EqDecision pyval.
Proof. solve_decision. Defined.

(** Python truth value. *)
Definition truthy (v : pyval) : bool :=
  match v with
  | PNone => false
  | PBool b => b
  | PInt z => negb (z =? 0)
  | PStr s => negb (String.eqb s EmptyString)
  end.

Definition of_opt_str (o : option string) : pyval :=
  match o with Some s => PStr s | None => PNone end.

(** Handle of a child process ([Popen], [pexpect.spawn]). *)
Definition proc : Type := nat.

(** [class KernelChannel(Enum)]. *)
Inductive KernelChannel : Type :=
| SHELL | IOPUB | STDIN | HEARTBEAT | CONTROL | COMMUNICATION.

Definition channel_value (kc : KernelChannel) : string :=
  match kc with
  | SHELL => "SHELL"
  | IOPUB => "IOPUB"
  | STDIN => "STDIN"
  | HEARTBEAT => "HB"
  | CONTROL => "CONTROL"
  | COMMUNICATION => "EG_COMM"
  end.

(** Request sent to the in-band listener: [{"signum": n}] or
    [{"shutdown": 1}]. *)
Inductive request : Type :=
| ReqSignum (signum : Z)
| ReqShutdown.

(** What the provisioner does to the outside, newest event first. *)
Inductive event : Type :=
| EvBind (port : Z)
| EvClose (port : Z)
| EvSpawnTunnel (h : proc) (local_port : Z) (remote_ip remote_port : pyval)
    (server : option string) (port : Z)
| EvTerminateProc (h : proc)
| EvListenerRequest (ip : pyval) (port : Z) (req : request)
    (shutdown_socket delivered : bool)
| EvKillpg (pgid signum : Z)
| EvProcSignal (h : proc) (signum : Z)
| EvProcWait (h : proc)
| EvSleep (ms : Z)
| EvContainerStatus (iteration : option Z)
| EvTerminateResources (restart : bool)
| EvKill (restart : bool).        (* entry of kill() *)

#[global] Instance request_eq_dec : EqDecision request.
Proof. solve_decision. Defined.
#[global] Instance event_eq_dec : EqDecision event.
Proof. solve_decision. Defined.

(** Answer of the abstract [get_container_status]: the status string, and
    the host and ip it records on the provisioner once the container is
    scheduled. *)
Record status_reply : Type := {
  cs_status : option string;
  cs_assigned : option (string * option string)
}.

(** What [os.killpg] does: it returns, it raises an [OSError], or it raises
    an exception that is not an [OSError] (an [OverflowError] for a signal
    number out of range, for one). *)
Inductive killpg_answer : Type :=
| Killpg_returns
| Killpg_OSError
| Killpg_raises (e : exn).

(** The collaborators.  Every answer is indexed by the number of answers
    given so far, so an environment can answer each call differently. *)
Record Env : Type := {
  e_tunneling_enabled : bool;            (* EG_ENABLE_TUNNELING *)
  e_entropy : nat -> Z;                  (* source of random.randint *)
  e_port_busy : nat -> Z -> bool;        (* ports held by other processes *)
  e_ephemeral : nat -> Z;                (* the port the OS picks for bind to 0 *)
  e_passwordless_ssh : nat -> bool;      (* tunnel.try_passwordless_ssh *)
  e_spawn : nat -> bool;                 (* _spawn_ssh_tunnel succeeds *)
  e_listener : nat -> option exn;        (* connect+send: None when delivered *)
  e_has_killpg : bool;                   (* hasattr(os, "killpg") *)
  e_killpg : nat -> killpg_answer;       (* os.killpg *)
  e_proc_signal : nat -> option exn;     (* Popen.send_signal: None when it returns *)
  e_int_beyond : string -> option Z;     (* int() beyond the plain literals *)
  e_proc_poll : nat -> proc -> option Z; (* Popen.poll() *)
  e_container_status : nat -> status_reply;
  e_initial_states : list string;        (* get_initial_states() *)
  e_connection_info : nat -> gmap string pyval + exn;
                                         (* response_manager.get_connection_info *)
  e_terminate_resources : nat -> pyval;  (* terminate_container_resources *)
  e_ip_is_local : option string -> bool; (* localinterfaces *)
  e_elapsed : nat -> nat                 (* ms taken by the answer *)
}.

Record World : Type := {
  w_env : Env;
  w_tick : nat;          (* answers consumed so far *)
  w_now : Z;             (* time.time(), in ms *)
  w_open : list Z;       (* ports of the sockets this process holds bound *)
  w_next_proc : proc;    (* next fresh process handle *)
  w_trace : list event
}.

(** [self]: the attributes of [RemoteProvisionerBase] and
    [ContainerProvisioner] that the modelled methods read or write. *)
Record Provisioner : Type := {
  port_range : string;
  launch_timeout : Z;                       (* ms *)
  start_time : option Z;
  assigned_ip : option string;
  assigned_host : string;
  comm_ip : pyval;
  comm_port : Z;
  tunneled_connect_info : option (gmap string pyval);
  tunnel_processes : gmap string proc;
  local_proc : option proc;
  ip : option string;
  pid : Z;
  pgid : Z;
  lower_port : Z;
  upper_port : Z;
  connection_info : gmap string pyval;
  container_name : option string
}.

Definition set_start_time (v : option Z) (s : Provisioner) : Provisioner :=
  {| port_range := port_range s; launch_timeout := launch_timeout s;
     start_time := v; assigned_ip := assigned_ip s;
     assigned_host := assigned_host s; comm_ip := comm_ip s;
     comm_port := comm_port s;
     tunneled_connect_info := tunneled_connect_info s;
     tunnel_processes := tunnel_processes s; local_proc := local_proc s;
     ip := ip s; pid := pid s; pgid := pgid s; lower_port := lower_port s;
     upper_port := upper_port s; connection_info := connection_info s;
     container_name := container_name s |}.

Definition set_assigned (host : string) (aip : option string) (s : Provisioner)
  : Provisioner :=
  {| port_range := port_range s; launch_timeout := launch_timeout s;
     start_time := start_time s; assigned_ip := aip;
     assigned_host := host; comm_ip := comm_ip s;
     comm_port := comm_port s;
     tunneled_connect_info := tunneled_connect_info s;
     tunnel_processes := tunnel_processes s; local_proc := local_proc s;
     ip := ip s; pid := pid s; pgid := pgid s; lower_port := lower_port s;
     upper_port := upper_port s; connection_info := connection_info s;
     container_name := container_name s |}.

Definition set_comm_ip (v : pyval) (s : Provisioner) : Provisioner :=
  {| port_range := port_range s; launch_timeout := launch_timeout s;
     start_time := start_time s; assigned_ip := assigned_ip s;
     assigned_host := assigned_host s; comm_ip := v;
     comm_port := comm_port s;
     tunneled_connect_info := tunneled_connect_info s;
     tunnel_processes := tunnel_processes s; local_proc := local_proc s;
     ip := ip s; pid := pid s; pgid := pgid s; lower_port := lower_port s;
     upper_port := upper_port s; connection_info := connection_info s;
     container_name := container_name s |}.

Definition set_comm_port (v : Z) (s : Provisioner) : Provisioner :=
  {| port_range := port_range s; launch_timeout := launch_timeout s;
     start_time := start_time s; assigned_ip := assigned_ip s;
     assigned_host := assigned_host s; comm_ip := comm_ip s;
     comm_port := v;
     tunneled_connect_info := tunneled_connect_info s;
     tunnel_processes := tunnel_processes s; local_proc := local_proc s;
     ip := ip s; pid := pid s; pgid := pgid s; lower_port := lower_port s;
     upper_port := upper_port s; connection_info := connection_info s;
     container_name := container_name s |}.

Definition set_tunneled_connect_info (v : option (gmap string pyval))
  (s : Provisioner) : Provisioner :=
  {| port_range := port_range s; launch_timeout := launch_timeout s;
     start_time := start_time s; assigned_ip := assigned_ip s;
     assigned_host := assigned_host s; comm_ip := comm_ip s;
     comm_port := comm_port s;
     tunneled_connect_info := v;
     tunnel_processes := tunnel_processes s; local_proc := local_proc s;
     ip := ip s; pid := pid s; pgid := pgid s; lower_port := lower_port s;
     upper_port := upper_port s; connection_info := connection_info s;
     container_name := container_name s |}.

Definition set_tunnel_processes (v : gmap string proc) (s : Provisioner)
  : Provisioner :=
  {| port_range := port_range s; launch_timeout := launch_timeout s;
     start_time := start_time s; assigned_ip := assigned_ip s;
     assigned_host := assigned_host s; comm_ip := comm_ip s;
     comm_port := comm_port s;
     tunneled_connect_info := tunneled_connect_info s;
     tunnel_processes := v; local_proc := local_proc s;
     ip := ip s; pid := pid s; pgid := pgid s; lower_port := lower_port s;
     upper_port := upper_port s; connection_info := connection_info s;
     container_name := container_name s |}.

Definition set_local_proc (v : option proc) (s : Provisioner) : Provisioner :=
  {| port_range := port_range s; launch_timeout := launch_timeout s;
     start_time := start_time s; assigned_ip := assigned_ip s;
     assigned_host := assigned_host s; comm_ip := comm_ip s;
     comm_port := comm_port s;
     tunneled_connect_info := tunneled_connect_info s;
     tunnel_processes := tunnel_processes s; local_proc := v;
     ip := ip s; pid := pid s; pgid := pgid s; lower_port := lower_port s;
     upper_port := upper_port s; connection_info := connection_info s;
     container_name := container_name s |}.

Definition set_ip (v : option string) (s : Provisioner) : Provisioner :=
  {| port_range := port_range s; launch_timeout := launch_timeout s;
     start_time := start_time s; assigned_ip := assigned_ip s;
     assigned_host := assigned_host s; comm_ip := comm_ip s;
     comm_port := comm_port s;
     tunneled_connect_info := tunneled_connect_info s;
     tunnel_processes := tunnel_processes s; local_proc := local_proc s;
     ip := v; pid := pid s; pgid := pgid s; lower_port := lower_port s;
     upper_port := upper_port s; connection_info := connection_info s;
     container_name := container_name s |}.

Definition set_pid (v : Z) (s : Provisioner) : Provisioner :=
  {| port_range := port_range s; launch_timeout := launch_timeout s;
     start_time := start_time s; assigned_ip := assigned_ip s;
     assigned_host := assigned_host s; comm_ip := comm_ip s;
     comm_port := comm_port s;
     tunneled_connect_info := tunneled_connect_info s;
     tunnel_processes := tunnel_processes s; local_proc := local_proc s;
     ip := ip s; pid := v; pgid := pgid s; lower_port := lower_port s;
     upper_port := upper_port s; connection_info := connection_info s;
     container_name := container_name s |}.

Definition set_pgid (v : Z) (s : Provisioner) : Provisioner :=
  {| port_range := port_range s; launch_timeout := launch_timeout s;
     start_time := start_time s; assigned_ip := assigned_ip s;
     assigned_host := assigned_host s; comm_ip := comm_ip s;
     comm_port := comm_port s;
     tunneled_connect_info := tunneled_connect_info s;
     tunnel_processes := tunnel_processes s; local_proc := local_proc s;
     ip := ip s; pid := pid s; pgid := v; lower_port := lower_port s;
     upper_port := upper_port s; connection_info := connection_info s;
     container_name := container_name s |}.

Definition set_connection_info (v : gmap string pyval) (s : Provisioner)
  : Provisioner :=
  {| port_range := port_range s; launch_timeout := launch_timeout s;
     start_time := start_time s; assigned_ip := assigned_ip s;
     assigned_host := assigned_host s; comm_ip := comm_ip s;
     comm_port := comm_port s;
     tunneled_connect_info := tunneled_connect_info s;
     tunnel_processes := tunnel_processes s; local_proc := local_proc s;
     ip := ip s; pid := pid s; pgid := pgid s; lower_port := lower_port s;
     upper_port := upper_port s; connection_info := v;
     container_name := container_name s |}.

(** ** The monad of methods *)

Definition M (A : Type) : Type :=
  Provisioner -> World -> outcome A * Provisioner * World.

Definition ret {A} (a : A) : M A := fun s w => (Return a, s, w).

Definition raise {A} (e : exn) : M A := fun s w => (Raise e, s, w).

Definition out_of_fuel {A} : M A := fun s w => (OutOfFuel, s, w).

Definition bind {A B} (m : M A) (k : A -> M B) : M B :=
  fun s w =>
    match m s w with
    | (Return a, s', w') => k a s' w'
    | (Raise e, s', w') => (Raise e, s', w')
    | (OutOfFuel, s', w') => (OutOfFuel, s', w')
    end.

Declare Scope meth_scope.
Delimit Scope meth_scope with meth.
Notation "x <~ m ;; k" := (bind m (fun x => k))
  (at level 100, m at next level, right associativity) : meth_scope.
Notation "m ;;; k" := (bind m (fun _ => k))
  (at level 100, right associativity) : meth_scope.
Local Open Scope meth_scope.

(** [try: m  except Exception as e: h e]. *)
Definition try_except {A} (m : M A) (h : exn -> M A) : M A :=
  fun s w =>
    match m s w with
    | (Raise e, s', w') => h e s' w'
    | r => r
    end.

Definition self : M Provisioner := fun s w => (Return s, s, w).
Definition update (f : Provisioner -> Provisioner) : M unit :=
  fun s w => (Return tt, f s, w).
Definition world : M World := fun s w => (Return w, s, w).
Definition env : M Env := fun s w => (Return (w_env w), s, w).

Definition emit (e : event) : M unit :=
  fun s w =>
    (Return tt, s,
     {| w_env := w_env w; w_tick := w_tick w; w_now := w_now w;
        w_open := w_open w; w_next_proc := w_next_proc w;
        w_trace := e :: w_trace w |}).

(** Consult the environment: the index of the answer; the clock advances
    by the time the answer took. *)
Definition ask : M nat :=
  fun s w =>
    (Return (w_tick w), s,
     {| w_env := w_env w; w_tick := S (w_tick w);
        w_now := w_now w + Z.of_nat (e_elapsed (w_env w) (w_tick w));
        w_open := w_open w; w_next_proc := w_next_proc w;
        w_trace := w_trace w |}).

Definition set_open (l : list Z) : M unit :=
  fun s w =>
    (Return tt, s,
     {| w_env := w_env w; w_tick := w_tick w; w_now := w_now w;
        w_open := l; w_next_proc := w_next_proc w;
        w_trace := w_trace w |}).

Definition fresh_proc : M proc :=
  fun s w =>
    (Return (w_next_proc w), s,
     {| w_env := w_env w; w_tick := w_tick w; w_now := w_now w;
        w_open := w_open w; w_next_proc := S (w_next_proc w);
        w_trace := w_trace w |}).

(** [asyncio.sleep(seconds)]: at least the requested time passes. *)
Definition sleep (ms : Z) : M unit :=
  fun s w =>
    (Return tt, s,
     {| w_env := w_env w; w_tick := S (w_tick w);
        w_now := w_now w + ms + Z.of_nat (e_elapsed (w_env w) (w_tick w));
        w_open := w_open w; w_next_proc := w_next_proc w;
        w_trace := EvSleep ms :: w_trace w |}).

(** [RemoteProvisionerBase.get_current_time]. *)
Definition get_current_time : M Z := fun s w => (Return (w_now w), s, w).

(** [RemoteProvisionerBase.get_time_diff], in ms. *)
Definition get_time_diff (start_time_ms : option Z) : M Z :=
  end_time_ms <~ get_current_time ;;
  match start_time_ms with
  | Some t => ret (end_time_ms - t)
  | None => raise TypeError_operand
  end.

(** ** PortAllocator *)

(** [random.randint(a, b)]: a value in [[a, b]]; [ValueError] when the
    range is empty. *)
Definition randint (a b : Z) : M Z :=
  k <~ ask ;;
  e <~ env ;;
  if b <? a then raise ValueError_empty_randrange
  else ret (a + e_entropy e k mod (b - a + 1)).

(** [sock.bind((ip, port))] followed by [sock.getsockname()[1]]: the
    socket is identified with the port it is bound to.  The operating
    system refuses a port that another socket holds (no address reuse is
    requested), and picks the port itself when asked for port 0. *)
Definition sock_bind (port : Z) : M Z :=
  if (port <? 0) || (port >? 65535) then raise OverflowError_port
  else
    k <~ ask ;;
    e <~ env ;;
    w <~ world ;;
    let assigned := if port =? 0 then e_ephemeral e k else port in
    if (1 <=? assigned) && (assigned <=? 65535)
       && negb (e_port_busy e k assigned)
       && negb (bool_decide (assigned ∈ w_open w))
    then set_open (assigned :: w_open w) ;;;
         emit (EvBind assigned) ;;;
         ret assigned
    else raise (OSError_errno EADDRINUSE).

(** [sock.close()]. *)
Definition sock_close (port : Z) : M unit :=
  w <~ world ;;
  set_open (filter (fun p => p ≠ port) (w_open w)) ;;;
  emit (EvClose port).

Fixpoint close_all (sockets : list Z) : M unit :=
  match sockets with
  | [] => ret tt
  | sock :: rest => sock_close sock ;;; close_all rest
  end.

(** [RemoteProvisionerBase._get_candidate_port]. *)
Definition _get_candidate_port : M Z :=
  s <~ self ;;
  let range_size := upper_port s - lower_port s in
  if range_size =? 0 then ret 0
  else randint (lower_port s) (upper_port s).

(** The [try] block of [select_socket]: [None] when the [except Exception]
    clause is entered. *)
Definition try_bind_candidate : M (option Z) :=
  try_except
    (port <~ _get_candidate_port ;;
     sock <~ sock_bind port ;;
     ret (Some sock))
    (fun _ => ret None).

(** The [while not found_port] loop of [select_socket].  [retries] is the
    local counter; [fuel] bounds the number of iterations of the model. *)
Fixpoint select_socket_loop (fuel : nat) (retries : Z) : M Z :=
  match fuel with
  | O => out_of_fuel
  | S fuel' =>
      found <~ try_bind_candidate ;;
      match found with
      | Some sock => ret sock
      | None =>
          let retries := retries + 1 in
          if retries >? max_port_range_retries
          then raise RuntimeError_port_range_exhausted
          else select_socket_loop fuel' retries
      end
  end.

(** [RemoteProvisionerBase.select_socket]: the loop, with the number of
    iterations it can make at most ([select_socket_loop_fuel] below). *)
Definition select_socket : M Z :=
  select_socket_loop (S (Z.to_nat max_port_range_retries)) 0.

Fixpoint select_ports_loop (count : nat) (ports : list Z) : M (list Z) :=
  match count with
  | O => ret ports
  | S count' =>
      sock <~ select_socket ;;
      select_ports_loop count' (ports ++ [sock])
  end.

(** [RemoteProvisionerBase.select_ports]: the sockets stay bound until all
    [count] ports are chosen, then all are closed. *)
Definition select_ports (count : Z) : M (list Z) :=
  ports <~ select_ports_loop (Z.to_nat count) [] ;;
  close_all ports ;;;
  ret ports.

(** ** Small Python operations *)

(** [d[key]]. *)
Definition getitem (d : gmap string pyval) (key : string) : M pyval :=
  match d !! key with
  | Some v => ret v
  | None => raise (KeyError_key key)
  end.

(** [l[i]]. *)
Definition index {A} (l : list A) (i : nat) : M A :=
  match l !! i with
  | Some v => ret v
  | None => raise IndexError_list_index
  end.

(** [int(v)]. *)
Definition py_int (v : pyval) : M Z :=
  match v with
  | PInt z => ret z
  | PBool b => ret (if b then 1 else 0)
  | PStr s =>
      e <~ env ;;
      match Py.int_of_str (e_int_beyond e) s with
      | Some z => ret z
      | None => raise ValueError_invalid_literal
      end
  | PNone => raise TypeError_operand
  end.

(** The exception types that [receive_connection_info] treats as a wait
    that timed out: [socket.timeout], [TimeoutError],
    [asyncio.exceptions.TimeoutError]. *)
Definition is_timeout (e : exn) : bool :=
  match e with
  | Timeout_wait | TimeoutError_launch => true
  | _ => false
  end.

Definition is_ValueError (e : exn) : bool :=
  match e with
  | ValueError_invalid_literal | ValueError_range_size
  | ValueError_invalid_port | ValueError_empty_randrange => true
  | _ => false
  end.

(** ** Child processes *)

(** [tunnel.try_passwordless_ssh(server + ":" + str(port), key)]. *)
Definition try_passwordless_ssh (server : string) (port : Z) : M bool :=
  k <~ ask ;;
  e <~ env ;;
  ret (e_passwordless_ssh e k).

(** [RemoteProvisionerBase._spawn_ssh_tunnel]: the spawned child, or the
    exception of [pexpect.spawn] / [paramiko_tunnel]. *)
Definition _spawn_ssh_tunnel (local_port : Z) (remote_port remote_ip : pyval)
  (server : option string) (port : Z) : M proc :=
  k <~ ask ;;
  e <~ env ;;
  if e_spawn e k then
    h <~ fresh_proc ;;
    emit (EvSpawnTunnel h local_port remote_ip remote_port server port) ;;;
    ret h
  else raise Exception_other.

(** [process.terminate()]. *)
Definition proc_terminate (h : proc) : M unit := emit (EvTerminateProc h).

(** [self.local_proc.poll()]. *)
Definition proc_poll (h : proc) : M (option Z) :=
  k <~ ask ;;
  e <~ env ;;
  ret (e_proc_poll e k h).

(** [self.local_proc.wait()] on a process that has exited. *)
Definition proc_wait (h : proc) : M unit := emit (EvProcWait h).

(** [self.local_proc.send_signal(signum)]; it raises what the operating
    system refuses (an [OSError] for a signal number that is not valid, for
    one). *)
Definition proc_send_signal (h : proc) (signum : Z) : M unit :=
  k <~ ask ;;
  e <~ env ;;
  emit (EvProcSignal h signum) ;;;
  match e_proc_signal e k with
  | None => ret tt
  | Some ex => raise ex
  end.

(** [os.killpg(pgid, signum)] under [try: ... except OSError: pass]:
    [false] stands for the [OSError] that is caught; every other exception
    is raised. *)
Definition os_killpg (pgid signum : Z) : M bool :=
  k <~ ask ;;
  e <~ env ;;
  emit (EvKillpg pgid signum) ;;;
  match e_killpg e k with
  | Killpg_returns => ret true
  | Killpg_OSError => ret false
  | Killpg_raises ex => raise ex
  end.

(** ** TunnelManager *)

(** [RemoteProvisionerBase._create_ssh_tunnel]. *)
Definition _create_ssh_tunnel (kernel_channel : KernelChannel)
  (local_port : Z) (remote_port remote_ip : pyval) (server : option string)
  (port : Z) : M unit :=
  let channel_name := channel_value kernel_channel in
  try_except
    (process <~ _spawn_ssh_tunnel local_port remote_port remote_ip server port ;;
     update (fun s =>
       set_tunnel_processes (<[channel_name := process]> (tunnel_processes s)) s))
    (fun _ => raise (RuntimeError_ssh_tunnel channel_name)).

(** The [for lp, rp, kc in zip(lports, rports, channels)] loop. *)
Fixpoint create_tunnels (l : list (Z * (pyval * KernelChannel)))
  (remote_ip : pyval) (server : option string) (port : Z) : M unit :=
  match l with
  | [] => ret tt
  | (lp, (rp, kc)) :: rest =>
      _create_ssh_tunnel kc lp rp remote_ip server port ;;;
      create_tunnels rest remote_ip server port
  end.

(** [RemoteProvisionerBase._tunnel_to_kernel]. *)
Definition _tunnel_to_kernel (connection_info : gmap string pyval)
  (server : option string) (port : Z) : M (list Z) :=
  let cf := connection_info in
  lports <~ select_ports 5 ;;
  shell_port <~ getitem cf "shell_port" ;;
  iopub_port <~ getitem cf "iopub_port" ;;
  stdin_port <~ getitem cf "stdin_port" ;;
  hb_port <~ getitem cf "hb_port" ;;
  control_port <~ getitem cf "control_port" ;;
  let rports := [shell_port; iopub_port; stdin_port; hb_port; control_port] in
  let channels := [SHELL; IOPUB; STDIN; HEARTBEAT; CONTROL] in
  remote_ip <~ getitem cf "ip" ;;
  server_name <~ match server with
                 | Some srv => ret srv
                 | None => raise TypeError_operand   (* None + ":" *)
                 end ;;
  ok <~ try_passwordless_ssh server_name port ;;
  (if negb ok then raise PermissionError_passwordless_ssh else ret tt) ;;;
  create_tunnels (combine lports (combine rports channels))
    remote_ip server port ;;;
  ret lports.

(** [RemoteProvisionerBase._tunnel_to_port]. *)
Definition _tunnel_to_port (kernel_channel : KernelChannel)
  (remote_ip : option string) (remote_port : Z) (server : option string)
  (port : Z) : M Z :=
  ports <~ select_ports 1 ;;
  local_port <~ index ports 0 ;;
  _create_ssh_tunnel kernel_channel local_port (PInt remote_port)
    (of_opt_str remote_ip) server port ;;;
  ret local_port.

(** ** Connection information *)

(** [RemoteProvisionerBase._extract_pid_info]; returns the dictionary after
    the two [pop]s (the caller goes on with the same object). *)
Definition _extract_pid_info (connect_info : gmap string pyval)
  : M (gmap string pyval) :=
  let pid_v := default PNone (connect_info !! "pid") in
  let connect_info := delete "pid" connect_info in
  pid_v <~ (if truthy pid_v then
              try_except
                (v <~ py_int pid_v ;; update (set_pid v) ;;; ret pid_v)
                (fun e => if is_ValueError e then ret PNone else raise e)
            else ret pid_v) ;;
  let pgid_v := default PNone (connect_info !! "pgid") in
  let connect_info := delete "pgid" connect_info in
  pgid_v <~ (if truthy pgid_v then
               try_except
                 (v <~ py_int pgid_v ;; update (set_pgid v) ;;; ret pgid_v)
                 (fun e => if is_ValueError e then ret PNone else raise e)
             else ret pgid_v) ;;
  (if truthy pid_v || truthy pgid_v then
     s <~ self ;;
     update (set_ip (assigned_ip s)) ;;;
     e <~ env ;;
     if negb (e_ip_is_local e (assigned_ip s))
     then update (set_local_proc None)
     else ret tt
   else ret tt) ;;;
  ret connect_info.

(** [RemoteProvisionerBase._update_connection]. *)
Definition _update_connection (connect_info : gmap string pyval) : M unit :=
  (if bool_decide (connect_info = ∅)
   then raise RuntimeError_connection_null else ret tt) ;;;
  connect_info <~ _extract_pid_info connect_info ;;
  update (fun s => set_connection_info (connect_info ∪ connection_info s) s).

(** [RemoteProvisionerBase._setup_connection_info]. *)
Definition _setup_connection_info (connect_info : gmap string pyval) : M unit :=
  s <~ self ;;
  e <~ env ;;
  let connect_info := <["ip" := of_opt_str (assigned_ip s)]> connect_info in
  connect_info <~
    (if e_tunneling_enabled e then
       update (set_tunneled_connect_info (Some connect_info)) ;;;
       tunnel_ports <~ _tunnel_to_kernel connect_info (assigned_ip s) ssh_port ;;
       let connect_info := <["ip" := PStr "127.0.0.1"]> connect_info in
       p0 <~ index tunnel_ports 0 ;;
       let connect_info := <["shell_port" := PInt p0]> connect_info in
       p1 <~ index tunnel_ports 1 ;;
       let connect_info := <["iopub_port" := PInt p1]> connect_info in
       p2 <~ index tunnel_ports 2 ;;
       let connect_info := <["stdin_port" := PInt p2]> connect_info in
       p3 <~ index tunnel_ports 3 ;;
       let connect_info := <["hb_port" := PInt p3]> connect_info in
       p4 <~ index tunnel_ports 4 ;;
       let connect_info := <["control_port" := PInt p4]> connect_info in
       match connect_info !! "comm_port" with
       | Some cp =>
           ip_v <~ getitem connect_info "ip" ;;
           update (set_comm_ip ip_v) ;;;
           tunneled_comm_port <~ py_int cp ;;
           local_port <~ _tunnel_to_port COMMUNICATION (assigned_ip s)
                           tunneled_comm_port (assigned_ip s) ssh_port ;;
           update (set_comm_port local_port) ;;;
           ret (<["comm_port" := PInt local_port]> connect_info)
       | None => ret connect_info
       end
     else
       match connect_info !! "comm_port" with
       | Some cp =>
           ip_v <~ getitem connect_info "ip" ;;
           update (set_comm_ip ip_v) ;;;
           v <~ py_int cp ;;
           update (set_comm_port v) ;;;
           ret connect_info
       | None => ret connect_info
       end) ;;
  _update_connection connect_info.

(** ** SignalDispatcher *)

(** [RemoteProvisionerBase._send_listener_request]: connect to
    [(comm_ip, comm_port)], send the request, close.  What [sock.shutdown]
    raises in the [finally] block is swallowed by the source. *)
Definition _send_listener_request (req : request) (shutdown_socket : bool)
  : M unit :=
  s <~ self ;;
  if comm_port s >? 0 then
    k <~ ask ;;
    e <~ env ;;
    match e_listener e k with
    | None =>
        emit (EvListenerRequest (comm_ip s) (comm_port s) req shutdown_socket true)
    | Some ex =>
        emit (EvListenerRequest (comm_ip s) (comm_port s) req shutdown_socket false) ;;;
        raise ex
    end
  else ret tt.

(** [RemoteProvisionerBase._send_signal_via_listener]. *)
Definition _send_signal_via_listener (signum : Z) : M bool :=
  s <~ self ;;
  if comm_port s >? 0 then
    try_except
      (_send_listener_request (ReqSignum signum) false ;;; ret true)
      (fun ex =>
         match ex with
         | OSError_errno n => if n =? ECONNREFUSED then ret true else ret false
         | _ => ret false
         end)
  else ret false.

(** [RemoteProvisionerBase.send_signal]. *)
Definition send_signal (signum : Z) : M pyval :=
  signal_delivered <~ _send_signal_via_listener signum ;;
  if negb signal_delivered then
    s <~ self ;;
    match local_proc s with
    | Some lp =>
        e <~ env ;;
        if (pgid s >? 0) && e_has_killpg e then
          ok <~ os_killpg (pgid s) signum ;;
          if ok then ret PNone
          else proc_send_signal lp signum ;;; ret PNone
        else proc_send_signal lp signum ;;; ret PNone
    | None => ret PNone
    end
  else ret PNone.

(** [RemoteProvisionerBase.shutdown_listener]. *)
Definition shutdown_listener : M unit :=
  s <~ self ;;
  if comm_port s >? 0 then
    try_except (_send_listener_request ReqShutdown true) (fun _ => ret tt) ;;;
    let comm_port_name := channel_value COMMUNICATION in
    s <~ self ;;
    match tunnel_processes s !! comm_port_name with
    | Some comm_port_tunnel =>
        proc_terminate comm_port_tunnel ;;;
        update (fun s =>
          set_tunnel_processes (delete comm_port_name (tunnel_processes s)) s)
    | None => ret tt
    end
  else ret tt.

(** The attribute reset at the top of [RemoteProvisionerBase.pre_launch]
    (also the initial values of [__init__]). *)
Definition reset_launch_state (s : Provisioner) : Provisioner :=
  {| port_range := port_range s; launch_timeout := launch_timeout s;
     start_time := None; assigned_ip := None; assigned_host := EmptyString;
     comm_ip := PNone; comm_port := 0; tunneled_connect_info := None;
     tunnel_processes := ∅; local_proc := None; ip := None; pid := 0;
     pgid := 0; lower_port := lower_port s; upper_port := upper_port s;
     connection_info := connection_info s;
     container_name := container_name s |}.

(** [RemoteProvisionerBase.__init__]: the attributes, with the port range
    validated; the configured values are the arguments. *)
Definition __init__ (int_beyond : string -> option Z)
  (configured_port_range : string) (configured_timeout : Z)
  : outcome Provisioner :=
  match _validate_port_range int_beyond configured_port_range with
  | Return (lower, upper) =>
      Return {| port_range := configured_port_range;
                launch_timeout := configured_timeout;
                start_time := None; assigned_ip := None; assigned_host := EmptyString;
                comm_ip := PNone; comm_port := 0;
                tunneled_connect_info := None; tunnel_processes := ∅;
                local_proc := None; ip := None; pid := 0; pgid := 0;
                lower_port := lower; upper_port := upper;
                connection_info := ∅; container_name := None |}
  | Raise e => Raise e
  | OutOfFuel => OutOfFuel
  end.

(** ** ConnectionConfirmationEngine *)

Section Abstract_kill.

(** [kill] is abstract in [RemoteProvisionerBase]. *)
Variable kill : bool -> M pyval.

(** [RemoteProvisionerBase.handle_launch_timeout]. *)
Definition handle_launch_timeout : M unit :=
  sleep poll_interval ;;;
  s <~ self ;;
  time_interval <~ get_time_diff (start_time s) ;;
  if time_interval >? launch_timeout s then
    kill false ;;;
    raise TimeoutError_launch
  else ret tt.

(** [RemoteProvisionerBase.receive_connection_info]. *)
Definition receive_connection_info : M bool :=
  try_except
    (k <~ ask ;;
     e <~ env ;;
     match e_connection_info e k with
     | inl connect_info =>
         _setup_connection_info connect_info ;;;
         ret true
     | inr ex => raise ex
     end)
    (fun ex =>
       if is_timeout ex then ret false
       else kill false ;;; raise RuntimeError_connection_wait).

End Abstract_kill.

(** [RemoteProvisionerBase.detect_launch_failure]. *)
Definition detect_launch_failure : M unit :=
  s <~ self ;;
  match local_proc s with
  | Some lp =>
      poll_result <~ proc_poll lp ;;
      match poll_result with
      | Some rc =>
          if negb (rc =? 0) && (rc >? 0) then
            proc_wait lp ;;;
            update (set_local_proc None) ;;;
            raise RuntimeError_launch_failure
          else ret tt
      | None => ret tt
      end
  | None => ret tt
  end.

(** ** ContainerProvisioner *)

Module Container.

(** The abstract [get_container_status(iteration)], answered by the
    environment (it returns; it may record the assigned host); [str(i)] is
    written [i]. *)
Definition get_container_status (iteration : option Z) : M (option string) :=
  k <~ ask ;;
  e <~ env ;;
  emit (EvContainerStatus iteration) ;;;
  let reply := e_container_status e k in
  match cs_assigned reply with
  | Some (host, aip) => update (set_assigned host aip)
  | None => ret tt
  end ;;;
  ret (cs_status reply).

(** The abstract [terminate_container_resources(restart)], answered by the
    environment (it returns a value). *)
Definition terminate_container_resources (restart : bool) : M pyval :=
  k <~ ask ;;
  e <~ env ;;
  emit (EvTerminateResources restart) ;;;
  ret (e_terminate_resources e k).

(** [ContainerProvisioner.has_process]. *)
Definition has_process (s : Provisioner) : bool :=
  match container_name s with Some _ => true | None => false end.

(** [ContainerProvisioner.poll]. *)
Definition poll : M pyval :=
  container_status <~ get_container_status None ;;
  e <~ env ;;
  match container_status with
  | None => ret PNone
  | Some status =>
      if bool_decide (status ∈ e_initial_states e) then ret PNone
      else ret (PInt 0)
  end.

(** [ContainerProvisioner.kill]. *)
Definition kill (restart : bool) : M pyval :=
  emit (EvKill restart) ;;;
  s <~ self ;;
  if truthy (of_opt_str (container_name s))
  then terminate_container_resources restart
  else ret PNone.

(** [ContainerProvisioner.terminate]. *)
Definition terminate (restart : bool) : M pyval := kill restart.

(** [ContainerProvisioner.send_signal]. *)
Definition send_signal (signum : Z) : M pyval :=
  if signum =? 0 then poll
  else if signum =? SIGKILL then kill false
  else send_signal signum.

(** The body of the [while not ready_to_connect] loop of
    [confirm_remote_startup], for the iteration counter [i] already
    incremented; returns [ready_to_connect]. *)
Definition confirm_iteration (i : Z) : M bool :=
  handle_launch_timeout kill ;;;
  container_status <~ get_container_status (Some i) ;;
  if truthy (of_opt_str container_status) then
    s <~ self ;;
    if negb (String.eqb (assigned_host s) EmptyString) then
      ready_to_connect <~ receive_connection_info kill ;;
      update (set_pid 0) ;;;
      update (set_pgid 0) ;;;
      ret ready_to_connect
    else ret false
  else
    detect_launch_failure ;;;
    ret false.

Fixpoint confirm_loop (fuel : nat) (i : Z) : M unit :=
  match fuel with
  | O => out_of_fuel
  | S fuel' =>
      let i := i + 1 in
      ready_to_connect <~ confirm_iteration i ;;
      if ready_to_connect then ret tt else confirm_loop fuel' i
  end.

(** [ContainerProvisioner.confirm_remote_startup]; [fuel] bounds the number
    of iterations of the model. *)
Definition confirm_remote_startup (fuel : nat) : M unit :=
  now <~ get_current_time ;;
  update (set_start_time (Some now)) ;;;
  confirm_loop fuel 0.

End Container.


(** * Vocabulary of the properties *)

(** The world after [n] consecutive passes through the [try] block of
    [select_socket] that all end in the [except] clause, if they do. *)
Fixpoint after_failures (n : nat) (s : Provisioner) (w : World)
  : option World :=
  match n with
  | O => Some w
  | S n' =>
      match try_bind_candidate s w with
      | (Return None, _, w') => after_failures n' s w'
      | _ => None
      end
  end.

(** A configured range that passed validation with a non-zero width. *)
Definition valid_range (L U : Z) : Prop :=
  1024 <= L /\ L <= U /\ U <= 65535 /\ U - L >= 1000.

(** What [select_ports] guarantees of one port: a real port, inside the
    configured range when the range has a non-zero width. *)
Definition port_ok (s : Provisioner) (p : Z) : Prop :=
  1 <= p <= 65535 /\
  (upper_port s - lower_port s <> 0 -> 1 <= lower_port s ->
   lower_port s <= p <= upper_port s).

(** [send_signal] in the words of the specification: signal 0 is a liveness
    probe ([poll]), the kill signal is a forced kill ([kill]), and only the
    other signals are forwarded. *)
Definition send_signal_as_specified (poll : M pyval) (kill : bool -> M pyval)
  (forward : Z -> M pyval) (signum : Z) : M pyval :=
  if signum =? 0 then poll
  else if signum =? SIGKILL then kill false
  else forward signum.

(** An event that forwards a signal number as it is: through the listener,
    to the process group, or to the local process. *)
Definition is_raw_signal (ev : event) : bool :=
  match ev with
  | EvListenerRequest _ _ (ReqSignum _) _ _ => true
  | EvKillpg _ _ => true
  | EvProcSignal _ _ => true
  | _ => false
  end.

(** The tunnel of the communication channel is tracked only when tunneling
    is enabled and a communication port is established. *)
Definition comm_tunnel_inv (e : Env) (s : Provisioner) : Prop :=
  is_Some (tunnel_processes s !! channel_value COMMUNICATION) ->
  e_tunneling_enabled e = true /\ comm_port s > 0.

(** The number of times [kill] was entered. *)
Fixpoint count_kills (tr : list event) : nat :=
  match tr with
  | [] => 0
  | EvKill _ :: tr' => S (count_kills tr')
  | _ :: tr' => count_kills tr'
  end.

(** Connection information never arrives: every wait on the response
    channel ends with one of the timeout exceptions. *)
Definition never_arrives (e : Env) : Prop :=
  forall k, exists ex, e_connection_info e k = inr ex /\ is_timeout ex = true.

(** The local process is never seen with a positive exit code. *)
Definition no_launch_fault (e : Env) : Prop :=
  forall k lp rc, e_proc_poll e k lp = Some rc -> rc <= 0.

(** Only [asyncio.sleep] takes time, and exactly the time asked for. *)
Definition only_sleep_takes_time (e : Env) : Prop :=
  forall k, e_elapsed e k = 0%nat.

(** What a step of the loop may do to the world: the environment stays,
    no [kill] is entered, and time does not go back; it moves by [d] when
    only sleeping takes time. *)
Definition quiet_step (d : Z) (w w' : World) : Prop :=
  w_env w' = w_env w /\
  count_kills (w_trace w') = count_kills (w_trace w) /\
  w_now w + d <= w_now w' /\
  (only_sleep_takes_time (w_env w) -> w_now w' = w_now w + d).

(** What a step of the loop may do to the provisioner. *)
Definition same_launch (s s' : Provisioner) : Prop :=
  start_time s' = start_time s /\ launch_timeout s' = launch_timeout s /\
  container_name s' = container_name s /\ local_proc s' = local_proc s.

(** Weakest precondition of a method: [Q] for a returned value, [E] for a
    raised exception ([Some e]) or for fuel that ran out ([None]). *)
Definition wp {A} (m : M A) (Q : A -> Provisioner -> World -> Prop)
  (E : option exn -> Provisioner -> World -> Prop)
  (s : Provisioner) (w : World) : Prop :=
  match m s w with
  | (Return a, s', w') => Q a s' w'
  | (Raise e, s', w') => E (Some e) s' w'
  | (OutOfFuel, s', w') => E None s' w'
  end.

(** A method that leaves alone what [comm_tunnel_inv] looks at. *)
Definition frame (s : Provisioner) (w : World)
  (s' : Provisioner) (w' : World) : Prop :=
  w_env w' = w_env w /\ comm_port s' = comm_port s /\
  tunnel_processes s' !! channel_value COMMUNICATION
  = tunnel_processes s !! channel_value COMMUNICATION.

Definition framed {A} (m : M A) : Prop :=
  forall s w, wp m (fun _ => frame s w) (fun _ => frame s w) s w.

(** A method that keeps [comm_tunnel_inv], however it ends. *)
Definition keeps_inv (s : Provisioner) (w : World)
  (s' : Provisioner) (w' : World) : Prop :=
  w_env w' = w_env w /\
  (comm_tunnel_inv (w_env w) s -> comm_tunnel_inv (w_env w) s').

Definition safe (P : Env -> Prop) {A} (m : M A) : Prop :=
  forall s w, P (w_env w) ->
    wp m (fun _ => keeps_inv s w) (fun _ => keeps_inv s w) s w.

(** * Concrete environments and provisioners for the examples *)

Module Examples.

(** An interpreter that reads no literal beyond the plain ones. *)
Definition no_int : string -> option Z := fun _ => None.

(** A quiet environment: free ports, working ssh, a listener that answers,
    no container status yet, and a response channel that times out. *)
Definition quiet (tunneling : bool) : Env :=
  {| e_tunneling_enabled := tunneling;
     e_entropy := fun k => 7 * Z.of_nat k;
     e_port_busy := fun _ _ => false;
     e_ephemeral := fun k => 49152 + Z.of_nat k;
     e_passwordless_ssh := fun _ => true;
     e_spawn := fun _ => true;
     e_listener := fun _ => None;
     e_has_killpg := true;
     e_killpg := fun _ => Killpg_returns;
     e_proc_signal := fun _ => None;
     e_int_beyond := no_int;
     e_proc_poll := fun _ _ => None;
     e_container_status := fun _ => {| cs_status := None; cs_assigned := None |};
     e_initial_states := ["pending"; "running"];
     e_connection_info := fun _ => inr Timeout_wait;
     e_terminate_resources := fun _ => PNone;
     e_ip_is_local := fun _ => false;
     e_elapsed := fun _ => 0%nat |}.

Definition with_port_busy (busy : nat -> Z -> bool) (e : Env) : Env :=
  {| e_tunneling_enabled := e_tunneling_enabled e;
     e_entropy := e_entropy e;
     e_port_busy := busy;
     e_ephemeral := e_ephemeral e;
     e_passwordless_ssh := e_passwordless_ssh e;
     e_spawn := e_spawn e;
     e_listener := e_listener e;
     e_has_killpg := e_has_killpg e;
     e_killpg := e_killpg e;
     e_proc_signal := e_proc_signal e;
     e_int_beyond := e_int_beyond e;
     e_proc_poll := e_proc_poll e;
     e_container_status := e_container_status e;
     e_initial_states := e_initial_states e;
     e_connection_info := e_connection_info e;
     e_terminate_resources := e_terminate_resources e;
     e_ip_is_local := e_ip_is_local e;
     e_elapsed := e_elapsed e |}.

Definition with_listener (listener : nat -> option exn) (e : Env) : Env :=
  {| e_tunneling_enabled := e_tunneling_enabled e;
     e_entropy := e_entropy e;
     e_port_busy := e_port_busy e;
     e_ephemeral := e_ephemeral e;
     e_passwordless_ssh := e_passwordless_ssh e;
     e_spawn := e_spawn e;
     e_listener := listener;
     e_has_killpg := e_has_killpg e;
     e_killpg := e_killpg e;
     e_proc_signal := e_proc_signal e;
     e_int_beyond := e_int_beyond e;
     e_proc_poll := e_proc_poll e;
     e_container_status := e_container_status e;
     e_initial_states := e_initial_states e;
     e_connection_info := e_connection_info e;
     e_terminate_resources := e_terminate_resources e;
     e_ip_is_local := e_ip_is_local e;
     e_elapsed := e_elapsed e |}.

Definition with_proc_poll (poll : nat -> proc -> option Z) (e : Env) : Env :=
  {| e_tunneling_enabled := e_tunneling_enabled e;
     e_entropy := e_entropy e;
     e_port_busy := e_port_busy e;
     e_ephemeral := e_ephemeral e;
     e_passwordless_ssh := e_passwordless_ssh e;
     e_spawn := e_spawn e;
     e_listener := e_listener e;
     e_has_killpg := e_has_killpg e;
     e_killpg := e_killpg e;
     e_proc_signal := e_proc_signal e;
     e_int_beyond := e_int_beyond e;
     e_proc_poll := poll;
     e_container_status := e_container_status e;
     e_initial_states := e_initial_states e;
     e_connection_info := e_connection_info e;
     e_terminate_resources := e_terminate_resources e;
     e_ip_is_local := e_ip_is_local e;
     e_elapsed := e_elapsed e |}.

Definition with_container_status (status : nat -> status_reply) (e : Env)
  : Env :=
  {| e_tunneling_enabled := e_tunneling_enabled e;
     e_entropy := e_entropy e;
     e_port_busy := e_port_busy e;
     e_ephemeral := e_ephemeral e;
     e_passwordless_ssh := e_passwordless_ssh e;
     e_spawn := e_spawn e;
     e_listener := e_listener e;
     e_has_killpg := e_has_killpg e;
     e_killpg := e_killpg e;
     e_proc_signal := e_proc_signal e;
     e_int_beyond := e_int_beyond e;
     e_proc_poll := e_proc_poll e;
     e_container_status := status;
     e_initial_states := e_initial_states e;
     e_connection_info := e_connection_info e;
     e_terminate_resources := e_terminate_resources e;
     e_ip_is_local := e_ip_is_local e;
     e_elapsed := e_elapsed e |}.

Definition with_connection_info
  (info : nat -> gmap string pyval + exn) (e : Env) : Env :=
  {| e_tunneling_enabled := e_tunneling_enabled e;
     e_entropy := e_entropy e;
     e_port_busy := e_port_busy e;
     e_ephemeral := e_ephemeral e;
     e_passwordless_ssh := e_passwordless_ssh e;
     e_spawn := e_spawn e;
     e_listener := e_listener e;
     e_has_killpg := e_has_killpg e;
     e_killpg := e_killpg e;
     e_proc_signal := e_proc_signal e;
     e_int_beyond := e_int_beyond e;
     e_proc_poll := e_proc_poll e;
     e_container_status := e_container_status e;
     e_initial_states := e_initial_states e;
     e_connection_info := info;
     e_terminate_resources := e_terminate_resources e;
     e_ip_is_local := e_ip_is_local e;
     e_elapsed := e_elapsed e |}.

Definition with_elapsed (elapsed : nat -> nat) (e : Env) : Env :=
  {| e_tunneling_enabled := e_tunneling_enabled e;
     e_entropy := e_entropy e;
     e_port_busy := e_port_busy e;
     e_ephemeral := e_ephemeral e;
     e_passwordless_ssh := e_passwordless_ssh e;
     e_spawn := e_spawn e;
     e_listener := e_listener e;
     e_has_killpg := e_has_killpg e;
     e_killpg := e_killpg e;
     e_proc_signal := e_proc_signal e;
     e_int_beyond := e_int_beyond e;
     e_proc_poll := e_proc_poll e;
     e_container_status := e_container_status e;
     e_initial_states := e_initial_states e;
     e_connection_info := e_connection_info e;
     e_terminate_resources := e_terminate_resources e;
     e_ip_is_local := e_ip_is_local e;
     e_elapsed := elapsed |}.

(** What [os.killpg] and the [send_signal] of the local process answer. *)
Definition with_signals (killpg : nat -> killpg_answer)
  (proc_signal : nat -> option exn) (e : Env) : Env :=
  {| e_tunneling_enabled := e_tunneling_enabled e;
     e_entropy := e_entropy e;
     e_port_busy := e_port_busy e;
     e_ephemeral := e_ephemeral e;
     e_passwordless_ssh := e_passwordless_ssh e;
     e_spawn := e_spawn e;
     e_listener := e_listener e;
     e_has_killpg := e_has_killpg e;
     e_killpg := killpg;
     e_proc_signal := proc_signal;
     e_int_beyond := e_int_beyond e;
     e_proc_poll := e_proc_poll e;
     e_container_status := e_container_status e;
     e_initial_states := e_initial_states e;
     e_connection_info := e_connection_info e;
     e_terminate_resources := e_terminate_resources e;
     e_ip_is_local := e_ip_is_local e;
     e_elapsed := e_elapsed e |}.

(** The world at time 0, nothing bound, nothing spawned. *)
Definition world_of (e : Env) : World :=
  {| w_env := e; w_tick := 0%nat; w_now := 0; w_open := []; w_next_proc := 0%nat;
     w_trace := [] |}.

(** The provisioner constructed for a port range, with a launch timeout
    of 30 s. *)
Definition blank : Provisioner :=
  {| port_range := "0..0";
     launch_timeout := 30000;
     start_time := None; assigned_ip := None; assigned_host := EmptyString;
     comm_ip := PNone; comm_port := 0; tunneled_connect_info := None;
     tunnel_processes := ∅; local_proc := None; ip := None; pid := 0;
     pgid := 0; lower_port := 0; upper_port := 0;
     connection_info := ∅; container_name := None |}.

Definition constructed (port_range : string) : Provisioner :=
  match __init__ no_int port_range 30000 with
  | Return p => p
  | _ => blank
  end.

(** A provisioner that has established the communication port
    [10.0.0.5:8888]. *)
Definition with_comm (s : Provisioner) : Provisioner :=
  set_comm_port 8888 (set_comm_ip (PStr "10.0.0.5") s).

(** The same, with the tunnel of the communication channel tracked as
    process 5. *)
Definition with_comm_tunnel (s : Provisioner) : Provisioner :=
  set_tunnel_processes
    (<[channel_value COMMUNICATION := 5%nat]> (tunnel_processes s))
    (with_comm s).

(** A payload of the response channel: the five channel ports. *)
Definition payload : gmap string pyval :=
  <["shell_port" := PInt 1]>
    (<["iopub_port" := PInt 2]>
       (<["stdin_port" := PInt 3]>
          (<["hb_port" := PInt 4]>
             (<["control_port" := PInt 5]>
                (<["ip" := PStr "0.0.0.0"]> ∅))))).

(** A provisioner whose kernel was assigned the host [10.0.0.5]. *)
Definition assigned : Provisioner :=
  set_assigned "node-5" (Some "10.0.0.5") (constructed "0..0").

(** Every port of the machine is held by some other process. *)
Definition saturated : World :=
  world_of (with_port_busy (fun _ _ => true) (quiet false)).

End Examples.

(** * Further methods of the two classes *)

(** [RP_MAX_POLL_ATTEMPTS], default ['10']. *)
Definition max_poll_attempts : Z := 10.

(** The [for kernel_channel, process in self.tunnel_processes.items()]
    loop of [cleanup]. *)
Fixpoint terminate_each (items : list (string * proc)) : M unit :=
  match items with
  | [] => ret tt
  | (_, process) :: rest => proc_terminate process ;;; terminate_each rest
  end.

(** [RemoteProvisionerBase.cleanup].  The dictionary is iterated in the
    order of [map_to_list]; the properties below do not depend on the
    order. *)
Definition cleanup (restart : bool) : M unit :=
  update (fun s => set_assigned (assigned_host s) None s) ;;;
  s <~ self ;;
  terminate_each (map_to_list (tunnel_processes s)) ;;;
  update (set_tunnel_processes ∅).

(** [RemoteProvisionerBase.shutdown_requested]. *)
Definition shutdown_requested (restart : bool) : M unit := shutdown_listener.

Section Abstract_poll.

(** [poll] is abstract in [RemoteProvisionerBase]. *)
Variable poll : M pyval.
(** What [self.local_proc.wait()] returns: the return code of the process. *)
Variable returncode : proc -> Z.

(** The [for i in range(max_poll_attempts)] loop of [wait], with the
    iterations that are left and the current [poll_val]. *)
Fixpoint wait_loop (attempts : nat) (poll_val : pyval) : M pyval :=
  match attempts with
  | O => ret poll_val
  | S attempts' =>
      poll_val <~ poll ;;
      match poll_val with
      | PNone => sleep poll_interval ;;; wait_loop attempts' poll_val
      | _ => ret poll_val
      end
  end.

(** [RemoteProvisionerBase.wait]. *)
Definition wait : M pyval :=
  s <~ self ;;
  match local_proc s with
  | Some lp => proc_wait lp ;;; ret (PInt (returncode lp))
  | None => wait_loop (Z.to_nat max_poll_attempts) (PInt 0)
  end.

End Abstract_poll.

Module ContainerProvisioner.

(** [ContainerProvisioner.cleanup]. *)
Definition cleanup (restart : bool) : M unit :=
  Container.kill false ;;;
  cleanup restart.

(** [wait], inherited, over the [poll] of the class. *)
Definition wait (returncode : proc -> Z) : M pyval :=
  wait Container.poll returncode.

End ContainerProvisioner.

(** * Vocabulary of the further properties *)

(** A relation between the state before and after a method that composes:
    it holds of a method that does nothing, and of one method after
    another. *)
Class Preorder4 (R : Provisioner -> World -> Provisioner -> World -> Prop)
  : Prop := {
  rel_refl : forall s w, R s w s w;
  rel_trans : forall s1 w1 s2 w2 s3 w3,
    R s1 w1 s2 w2 -> R s2 w2 s3 w3 -> R s1 w1 s3 w3
}.

(** [m] relates the state it starts from to the state it ends in by [R],
    however it ends, and ends abnormally only as [Ex] allows ([Some e]
    for a raised [e], [None] for fuel that ran out). *)
Definition respects (R : Provisioner -> World -> Provisioner -> World -> Prop)
  (Ex : option exn -> Prop) {A} (m : M A) : Prop :=
  forall s w,
    wp m (fun _ s' w' => R s w s' w')
      (fun oe s' w' => R s w s' w' /\ Ex oe) s w.

(** Any abnormal end. *)
Definition any_end : option exn -> Prop := fun _ => True.

(** Any raised exception; fuel does not run out. *)
Definition any_exception : option exn -> Prop := fun oe => oe <> None.

(** Raised exceptions that are not one of the timeouts; fuel does not run
    out. *)
Definition no_timeout : option exn -> Prop :=
  fun oe =>
    match oe with
    | Some e => is_timeout e = false
    | None => False
    end.

(** The number of events of a kind. *)
Fixpoint count_events (kind : event -> bool) (tr : list event) : nat :=
  match tr with
  | [] => 0
  | ev :: tr' => if kind ev then S (count_events kind tr')
                 else count_events kind tr'
  end.

Definition is_spawn (ev : event) : bool :=
  match ev with EvSpawnTunnel _ _ _ _ _ _ => true | _ => false end.
Definition is_terminate (ev : event) : bool :=
  match ev with EvTerminateProc _ => true | _ => false end.

(** What the confirmation of a launch leaves alone, apart from the
    connection: the launch settings, the assignment, and the count of
    [kill]s. *)
Definition steady (s : Provisioner) (w : World)
  (s' : Provisioner) (w' : World) : Prop :=
  w_env w' = w_env w /\
  count_kills (w_trace w') = count_kills (w_trace w) /\
  assigned_host s' = assigned_host s /\
  assigned_ip s' = assigned_ip s /\
  start_time s' = start_time s /\
  launch_timeout s' = launch_timeout s /\
  container_name s' = container_name s /\
  lower_port s' = lower_port s /\ upper_port s' = upper_port s.

(** Nothing of the provisioner changes, no process is created. *)
Definition untouched (s : Provisioner) (w : World)
  (s' : Provisioner) (w' : World) : Prop :=
  s' = s /\ w_env w' = w_env w /\ w_next_proc w' = w_next_proc w /\
  count_kills (w_trace w') = count_kills (w_trace w) /\
  count_events is_spawn (w_trace w') = count_events is_spawn (w_trace w).

(** [select_socket] ends by returning or with the exhausted error. *)
Definition only_exhausted : option exn -> Prop :=
  fun oe => oe = Some RuntimeError_port_range_exhausted.


(** The [terminate] events of the tunnels tracked in a dictionary, one for
    each channel. *)
Definition terminations (tunnels : gmap string proc) : list event :=
  (fun item => EvTerminateProc item.2) <$> map_to_list tunnels.

(** What [cleanup] leaves of the provisioner. *)
Definition cleaned (s : Provisioner) : Provisioner :=
  set_tunnel_processes ∅ (set_assigned (assigned_host s) None s).

(** An event by which [send_signal signum] of the provisioner [s] passes
    the signal on: a request to the listener at the communication port, a
    signal to the process group [pgid], or to the local process. *)
Definition signal_route (signum : Z) (s : Provisioner) (ev : event) : Prop :=
  match ev with
  | EvListenerRequest ip port (ReqSignum sg) false _ =>
      ip = comm_ip s /\ port = comm_port s /\ 0 < port /\ sg = signum
  | EvKillpg pg sg =>
      pg = pgid s /\ 0 < pg /\ local_proc s <> None /\ sg = signum
  | EvProcSignal h sg => local_proc s = Some h /\ sg = signum
  | _ => False
  end.

(** No condition on an abnormal end. *)
Definition anyhow : option exn -> Provisioner -> World -> Prop :=
  fun _ _ _ => True.

(** The [ip] that [_setup_connection_info] records in [connection_info]:
    the loopback address of the tunnels, or the assigned ip. *)
Definition connection_ip (e : Env) (s : Provisioner) : pyval :=
  if e_tunneling_enabled e then PStr "127.0.0.1"
  else of_opt_str (assigned_ip s).

Definition is_shutdown_request (ev : event) : bool :=
  match ev with EvListenerRequest _ _ ReqShutdown _ _ => true | _ => false end.

(** * Preparation of a launch *)

Module Launch.

(** The [env] dictionary of the launch arguments. *)
Definition env_dict : Type := gmap string pyval.

(** What the preparation of a launch raises. *)
Inductive error : Type :=
| PermissionError (message : string)
| KeyError (key : string)
| TypeError_item_assignment   (* None[key] = value *)
| TypeError_expected_str.     (* re.sub: the replacement is not a string *)

Inductive result (A : Type) : Type :=
| Ok (a : A)
| Fail (e : error).
Arguments Ok {A} a.
Arguments Fail {A} e.

(** The attributes of the provisioner that the preparation reads: those of
    the configuration, of the kernel specification and of the response
    manager. *)
Record Attributes : Type := {
  kernel_id : option string;
  response_address : option string;
  public_key : option string;
  kernel_username : pyval;
  impersonation_enabled : bool;
  unauthorized_users : gset string;
  authorized_users : gset string;
  display_name : option string;       (* kernel_spec.display_name *)
  language : string;                  (* kernel_spec.language *)
  image_name : option string;
  executor_image_name : option string;
  assigned_node_ip : pyval
}.

Definition set_kernel_username (v : pyval) (self : Attributes) : Attributes :=
  {| kernel_id := kernel_id self; response_address := response_address self;
     public_key := public_key self; kernel_username := v;
     impersonation_enabled := impersonation_enabled self;
     unauthorized_users := unauthorized_users self;
     authorized_users := authorized_users self;
     display_name := display_name self; language := language self;
     image_name := image_name self;
     executor_image_name := executor_image_name self;
     assigned_node_ip := assigned_node_ip self |}.

Definition set_assigned_node_ip (v : pyval) (self : Attributes) : Attributes :=
  {| kernel_id := kernel_id self; response_address := response_address self;
     public_key := public_key self; kernel_username := kernel_username self;
     impersonation_enabled := impersonation_enabled self;
     unauthorized_users := unauthorized_users self;
     authorized_users := authorized_users self;
     display_name := display_name self; language := language self;
     image_name := image_name self;
     executor_image_name := executor_image_name self;
     assigned_node_ip := v |}.

(** [str(v)]. *)
Definition py_str (v : pyval) : string :=
  match v with
  | PNone => "None"
  | PBool true => "True"
  | PBool false => "False"
  | PInt z => stdpp.pretty.pretty z
  | PStr s => s
  end.

(** [v in users] for a set of strings: a value that is not a string is
    equal to none of them. *)
Definition in_users (v : pyval) (users : gset string) : bool :=
  match v with
  | PStr u => bool_decide (u ∈ users)
  | _ => false
  end.

(** [v in ids] for a list of strings. *)
Definition in_ids (v : pyval) (ids : list string) : bool :=
  match v with
  | PStr u => bool_decide (u ∈ ids)
  | _ => false
  end.

(** ** Authorization *)

(** [RemoteProvisionerBase._raise_authorization_error]: the exception it
    raises. *)
Definition _raise_authorization_error (self : Attributes)
  (differentiator_clause : string) : error :=
  let kernel_clause :=
    match display_name self with
    | Some kernel_name => " '" ++ kernel_name ++ "'."
    | None => "s."
    end in
  PermissionError
    ("User '" ++ py_str (kernel_username self) ++ "' is "
     ++ differentiator_clause ++ " to start kernel" ++ kernel_clause ++ " "
     ++ "Ensure KERNEL_USERNAME is set to an appropriate value and retry the request.").

(** [RemoteProvisionerBase._enforce_authorization], on the [env] entry of
    its keyword arguments ([None] when there is none); the dictionary is
    changed in place, so the change stays when the method raises. *)
Definition _enforce_authorization (self : Attributes)
  (kwargs_env : option env_dict) : result unit * option env_dict :=
  match kwargs_env with
  | None => (Fail TypeError_item_assignment, None)
  | Some env_dict =>
      let env_dict :=
        <["EG_IMPERSONATION_ENABLED" :=
            PStr (py_str (PBool (impersonation_enabled self)))]> env_dict in
      if in_users (kernel_username self) (unauthorized_users self) then
        (Fail (_raise_authorization_error self "not authorized"),
         Some env_dict)
      else if (0 <? Z.of_nat (size (authorized_users self))) then
        if negb (in_users (kernel_username self) (authorized_users self)) then
          (Fail (_raise_authorization_error self
                   "not in the set of users authorized"),
           Some env_dict)
        else (Ok tt, Some env_dict)
      else (Ok tt, Some env_dict)
  end.

(** The end of [RemoteProvisionerBase.pre_launch], on the keyword
    arguments that [super().pre_launch] returned: the kernel user is taken
    from [env] ([getuser] stands for [getpass.getuser()]) and the launch
    is authorized.  Without an [env] entry the user is written to a
    dictionary that is dropped. *)
Definition pre_launch_authorize (getuser : string) (self : Attributes)
  (kwargs_env : option env_dict)
  : result unit * Attributes * option env_dict :=
  let env := default ∅ kwargs_env in
  let self :=
    set_kernel_username (default (PStr getuser) (env !! "KERNEL_USERNAME"))
      self in
  let env := <["KERNEL_USERNAME" := kernel_username self]> env in
  let kwargs_env := (fun _ => env) <$> kwargs_env in
  let '(r, kwargs_env) := _enforce_authorization self kwargs_env in
  (r, self, kwargs_env).

(** ** Environment of the kernel *)

(** [env_pop_list]. *)
Definition env_pop_list : list string := ["RP_REMOTE_PWD"; "LS_COLORS"].

Section Lower.

(** [str.lower]. *)
Variable lower : string -> string.

(** [RemoteProvisionerBase._finalize_env]. *)
Definition _finalize_env (self : Attributes) (env : env_dict) : env_dict :=
  let env := <["KERNEL_ID" := of_opt_str (kernel_id self)]> env in
  let kernel_language :=
    if (0 <? Z.of_nat (String.length (language self)))
    then lower (language self)
    else "unknown-kernel-language" in
  let env :=
    <["KERNEL_LANGUAGE" :=
        default (PStr kernel_language) (env !! "KERNEL_LANGUAGE")]> env in
  foldl (fun env k => delete k env) env env_pop_list.

End Lower.

(** [RemoteProvisionerBase._scrub_kwargs], for keyword arguments with
    values of any type. *)
Definition _scrub_kwargs {V} (kwargs : gmap string V) : gmap string V :=
  let keywords_to_scrub := ["extra_arguments"; "kernel_id"] in
  foldl (fun scrubbed_kwargs kw => delete kw scrubbed_kwargs)
    kwargs keywords_to_scrub.

(** ** Containers *)

Definition default_kernel_uid : string := "1000".
Definition default_kernel_gid : string := "100".

Section Globals.

(** The settings [RP_PROHIBITED_UIDS], [RP_PROHIBITED_GIDS] and
    [EG_MIRROR_WORKING_DIRS] of the process, read when the module is
    loaded. *)
Variable RP_PROHIBITED_UIDS RP_PROHIBITED_GIDS : option string.
Variable mirror_working_dirs : bool.

Definition prohibited_uids : list string :=
  Py.split (default "0" RP_PROHIBITED_UIDS) ",".
Definition prohibited_gids : list string :=
  Py.split (default "0" RP_PROHIBITED_GIDS) ",".

(** The message of a denied id; [kind] is [UID] or [GID]. *)
Definition denied (kind : string) (value : pyval) : error :=
  PermissionError
    ("Kernel's " ++ kind ++ " value of '" ++ py_str value
     ++ "' has been denied via RP_PROHIBITED_" ++ kind ++ "S!").

(** [ContainerProvisioner._enforce_prohibited_ids]. *)
Definition _enforce_prohibited_ids (kwargs_env : option env_dict)
  : result unit * option env_dict :=
  match kwargs_env with
  | None => (Fail (KeyError "env"), None)
  | Some env =>
      let kernel_uid := default (PStr default_kernel_uid) (env !! "KERNEL_UID") in
      let kernel_gid := default (PStr default_kernel_gid) (env !! "KERNEL_GID") in
      if in_ids kernel_uid prohibited_uids then
        (Fail (denied "UID" kernel_uid), Some env)
      else if in_ids kernel_gid prohibited_gids then
        (Fail (denied "GID" kernel_gid), Some env)
      else
        (Ok tt,
         Some (<["KERNEL_GID" := kernel_gid]> (<["KERNEL_UID" := kernel_uid]> env)))
  end.

(** [ContainerProvisioner.pre_launch] after [super().pre_launch]. *)
Definition pre_launch_container (self : Attributes)
  (kwargs_env : option env_dict) : result unit * option env_dict :=
  match kwargs_env with
  | None => (Fail (KeyError "env"), None)
  | Some env =>
      let env := <["KERNEL_IMAGE" := of_opt_str (image_name self)]> env in
      let env :=
        <["KERNEL_EXECUTOR_IMAGE" :=
            of_opt_str (executor_image_name self)]> env in
      let env :=
        if negb mirror_working_dirs then
          match env !! "KERNEL_WORKING_DIR" with
          | Some _ => delete "KERNEL_WORKING_DIR" env
          | None => env
          end
        else env in
      _enforce_prohibited_ids (Some env)
  end.

(** The two steps that [ContainerProvisioner.pre_launch] adds to the
    [pre_launch] of the library: the authorization of the base class, then
    the environment of the container. *)
Definition pre_launch_checks (getuser : string) (self : Attributes)
  (kwargs_env : option env_dict)
  : result unit * Attributes * option env_dict :=
  let '(r, self, kwargs_env) := pre_launch_authorize getuser self kwargs_env in
  match r with
  | Ok _ =>
      let '(r, kwargs_env) := pre_launch_container self kwargs_env in
      (r, self, kwargs_env)
  | Fail e => (Fail e, self, kwargs_env)
  end.

End Globals.

(** ** Persistence *)

(** [ContainerProvisioner.get_provisioner_info]; the base class gives an
    empty dictionary. *)
Definition get_provisioner_info (self : Attributes) : gmap string pyval :=
  let provisioner_info : gmap string pyval := ∅ in
  <["assigned_node_ip" := assigned_node_ip self]> provisioner_info.

(** [ContainerProvisioner.load_provisioner_info]. *)
Definition load_provisioner_info (self : Attributes)
  (provisioner_info : gmap string pyval) : result Attributes :=
  match provisioner_info !! "assigned_node_ip" with
  | Some v => Ok (set_assigned_node_ip v self)
  | None => Fail (KeyError "assigned_node_ip")
  end.

(** ** Substitutions in the launch command *)

(** A value of the substitution namespace: a string, [None], or an object
    of another type. *)
Inductive kwval : Type :=
| KStr (s : string)
| KNone
| KObject.

(** The characters of [[A-Za-z0-9_]]. *)
Definition is_word (c : ascii) : bool :=
  let n := nat_of_ascii c in
  ((65 <=? n)%nat && (n <=? 90)%nat) || ((97 <=? n)%nat && (n <=? 122)%nat)
  || ((48 <=? n)%nat && (n <=? 57)%nat) || (n =? 95)%nat.

(** The longest prefix of [[A-Za-z0-9_]] characters, and what follows. *)
Fixpoint word (s : string) : string * string :=
  match s with
  | String c s' =>
      if is_word c then let '(name, rest) := word s' in (String c name, rest)
      else (EmptyString, s)
  | EmptyString => (EmptyString, EmptyString)
  end.

(** A match of [{([A-Za-z0-9_]+)}] at the start of [s]: its group 1. *)
Definition match_here (s : string) : option string :=
  match s with
  | String c s' =>
      if Ascii.eqb c "{" then
        match word s' with
        | (String c1 name, String c2 _) =>
            if Ascii.eqb c2 "}" then Some (String c1 name) else None
        | _ => None
        end
      else None
  | EmptyString => None
  end.

(** [from_ns] of [pre_launch], as [re.sub] takes its result: a string is
    inserted, [None] inserts nothing, another object is a [TypeError]. *)
Definition from_ns (ns : gmap string kwval) (name : string) : result string :=
  match ns !! name with
  | Some (KStr value) => Ok value
  | Some KNone => Ok EmptyString
  | Some KObject => Fail TypeError_expected_str
  | None => Ok ("{" ++ name ++ "}")
  end.

(** [pat.sub(from_ns, arg)], scanning from the left; [skip] characters of
    a match are still to be passed over. *)
Fixpoint sub_aux (ns : gmap string kwval) (skip : nat) (s : string)
  : result string :=
  match s with
  | EmptyString => Ok EmptyString
  | String c s' =>
      match skip with
      | S k => sub_aux ns k s'
      | O =>
          match match_here s with
          | Some name =>
              match from_ns ns name with
              | Ok piece =>
                  match sub_aux ns (S (String.length name)) s' with
                  | Ok rest => Ok (piece ++ rest)
                  | Fail e => Fail e
                  end
              | Fail e => Fail e
              end
          | None =>
              match sub_aux ns O s' with
              | Ok rest => Ok (String c rest)
              | Fail e => Fail e
              end
          end
      end
  end.

Definition pat_sub (ns : gmap string kwval) (arg : string) : result string :=
  sub_aux ns O arg.

(** [[pat.sub(from_ns, arg) for arg in cmd]]. *)
Fixpoint sub_all (ns : gmap string kwval) (cmd : list string)
  : result (list string) :=
  match cmd with
  | [] => Ok []
  | arg :: cmd' =>
      match pat_sub ns arg with
      | Ok arg' =>
          match sub_all ns cmd' with
          | Ok rest => Ok (arg' :: rest)
          | Fail e => Fail e
          end
      | Fail e => Fail e
      end
  end.

(** An attribute that is neither [None] nor empty. *)
Definition is_set (attribute : option string) : bool :=
  truthy (of_opt_str attribute).

Definition put (key : string) (attribute : option string)
  (ns : gmap string kwval) : gmap string kwval :=
  match attribute with
  | Some value => if is_set attribute then <[key := KStr value]> ns else ns
  | None => ns
  end.

(** The namespace [ns] of [pre_launch]: the keyword arguments, under the
    four attributes that are set. *)
Definition namespace (self : Attributes) (s : Provisioner)
  (kwargs : gmap string kwval) : gmap string kwval :=
  let ns := kwargs in
  let ns := put "response_address" (response_address self) ns in
  let ns := put "public_key" (public_key self) ns in
  let ns := put "port_range" (Some (port_range s)) ns in
  put "kernel_id" (kernel_id self) ns.

(** The launch command of [RemoteProvisionerBase.pre_launch]:
    [kernel_spec.argv] with its substitutions. *)
Definition substitute_cmd (self : Attributes) (s : Provisioner)
  (kwargs : gmap string kwval) (argv : list string) : result (list string) :=
  if is_set (response_address self) || is_set (Some (port_range s))
     || is_set (kernel_id self) || is_set (public_key self)
  then sub_all (namespace self s kwargs) argv
  else Ok argv.

(** A string without an opening brace: no match can start in it. *)
Fixpoint plain (s : string) : bool :=
  match s with
  | EmptyString => true
  | String c s' => negb (Ascii.eqb c "{") && plain s'
  end.

(** A non-empty string of [[A-Za-z0-9_]] characters. *)
Fixpoint is_word_string (s : string) : bool :=
  match s with
  | EmptyString => true
  | String c s' => is_word c && is_word_string s'
  end.

Definition is_name (s : string) : bool :=
  match s with
  | EmptyString => false
  | _ => is_word_string s
  end.

(** Whether [pre_launch] substitutes at all. *)
Definition substitutes (self : Attributes) (s : Provisioner) : bool :=
  is_set (response_address self) || is_set (Some (port_range s))
  || is_set (kernel_id self) || is_set (public_key self).

End Launch.

(** * The launch *)

Section Abstract_launch.

(** [jupyter_client.launch_kernel(cmd, **launch_kwargs)]: the process it
    starts, or what it raises. *)
Variable popen : list string -> gmap string Launch.kwval -> M proc.
(** [process.pid]. *)
Variable pid_of : proc -> Z.
(** [local_ip], the first public ip of the host. *)
Variable local_ip : option string.
(** [confirm_remote_startup] is abstract in [RemoteProvisionerBase]. *)
Variable confirm_remote_startup : M unit.

(** [RemoteProvisionerBase.launch_kernel]. *)
Definition launch_kernel (cmd : list string)
  (kwargs : gmap string Launch.kwval) : M (gmap string pyval) :=
  let launch_kwargs := Launch._scrub_kwargs kwargs in
  process <~ popen cmd launch_kwargs ;;
  update (set_local_proc (Some process)) ;;;
  update (set_pid (pid_of process)) ;;;
  update (set_ip local_ip) ;;;
  confirm_remote_startup ;;;
  s <~ self ;;
  ret (connection_info s).

End Abstract_launch.

(** * Scenarios *)

Module Scenario.

(** A payload that also has the communication port of the launcher and
    the process id of the kernel. *)
Definition payload : gmap string pyval :=
  <["comm_port" := PStr "8877"]> (<["pid" := PStr "4242"]> Examples.payload).

(** The container is running on [node-5], and the connection information
    is there at the sixth consultation of the environment. *)
Definition arriving (tunneling : bool) : Env :=
  Examples.with_connection_info
    (fun k => if (k <? 5)%nat then inr Timeout_wait else inl payload)
    (Examples.with_container_status
       (fun _ => {| cs_status := Some "running";
                    cs_assigned := Some ("node-5", Some "10.0.0.5") |})
       (Examples.quiet tunneling)).

(** A process launcher that starts one more process, and does nothing
    else. *)
Definition popen (cmd : list string) (kwargs : gmap string Launch.kwval)
  : M proc := fresh_proc.

(** The attributes of a provisioner with a kernel id and a response
    address, for a Python kernel. *)
Definition attributes : Launch.Attributes :=
  {| Launch.kernel_id := Some "k-17";
     Launch.response_address := Some "10.0.0.1:8877";
     Launch.public_key := None;
     Launch.kernel_username := PNone;
     Launch.impersonation_enabled := false;
     Launch.unauthorized_users := {["root"]};
     Launch.authorized_users := ∅;
     Launch.display_name := Some "Python 3";
     Launch.language := "Python";
     Launch.image_name := Some "kernel-py";
     Launch.executor_image_name := Some "kernel-py";
     Launch.assigned_node_ip := PNone |}.

End Scenario.
(** * Properties *)

(** ** Python strings and port-range validation on examples *)

Example split_range : Py.split "1024..65535" ".." = ["1024"; "65535"].
Proof. reflexivity. Qed.
Example split_three_dots : Py.split "1...2" ".." = ["1"; ".2"].
Proof. reflexivity. Qed.
Example split_empty : Py.split EmptyString ".." = [EmptyString].
Proof. reflexivity. Qed.
Example int_underscore f : Py.int_of_str f " +1_000 " = Some 1000.
Proof. reflexivity. Qed.
Example int_empty f : Py.int_of_str f EmptyString = None.
Proof. reflexivity. Qed.
Example int_separator f :
  Py.int_of_str f (String (ascii_of_nat 28) "1024") = None.
Proof. reflexivity. Qed.
Example int_beyond_ascii f :
  Py.int_of_str f (String (ascii_of_nat 194) (String (ascii_of_nat 160) "1024"))
  = f (String (ascii_of_nat 194) (String (ascii_of_nat 160) "1024")).
Proof. reflexivity. Qed.
Example validate_default f : _validate_port_range f "0..0" = Return (0, 0).
Proof. reflexivity. Qed.
Example validate_narrow f :
  _validate_port_range f "2000..2500" = Raise ValueError_range_size.
Proof. reflexivity. Qed.
Example validate_low f :
  _validate_port_range f "80..8080" = Raise ValueError_invalid_port.
Proof. reflexivity. Qed.
Example validate_no_sep f :
  _validate_port_range f "8080" = Raise RuntimeError_port_range_format.
Proof. reflexivity. Qed.

(** ** Reasoning about methods *)

Lemma bind_inv {A B} (m : M A) (k : A -> M B) s w r s' w' :
  bind m k s w = (r, s', w') ->
  (exists a s1 w1, m s w = (Return a, s1, w1) /\ k a s1 w1 = (r, s', w'))
  \/ (exists e, m s w = (Raise e, s', w') /\ r = Raise e)
  \/ (m s w = (OutOfFuel, s', w') /\ r = OutOfFuel).
Proof.
  unfold bind. destruct (m s w) as [[[a|e|] s1] w1]; intros H.
  - left. eauto.
  - right; left. inversion H; subst. eauto.
  - right; right. inversion H; subst. eauto.
Qed.

Lemma bind_Return {A B} (m : M A) (k : A -> M B) s w a s1 w1 :
  m s w = (Return a, s1, w1) -> bind m k s w = k a s1 w1.
Proof. unfold bind. intros ->. reflexivity. Qed.

Lemma bind_Raise {A B} (m : M A) (k : A -> M B) s w e s1 w1 :
  m s w = (Raise e, s1, w1) -> bind m k s w = (Raise e, s1, w1).
Proof. unfold bind. intros ->. reflexivity. Qed.

Lemma bind_assoc {A B C} (m : M A) (k1 : A -> M B) (k2 : B -> M C) s w :
  bind (bind m k1) k2 s w = bind m (fun a => bind (k1 a) k2) s w.
Proof. unfold bind. destruct (m s w) as [[[a|e|] s1] w1]; reflexivity. Qed.

(** Unfold the primitive operations of the monad. *)
Ltac prim :=
  unfold bind, ret, raise, out_of_fuel, try_except, self, update, world, env,
    emit, ask, set_open, fresh_proc, sleep, get_current_time in *.

(** ** PortAllocator *)

Lemma sock_bind_spec port s w :
  exists r w', sock_bind port s w = (r, s, w') /\ w_env w' = w_env w /\
    match r with
    | Return q =>
        (q ∉ w_open w) /\ w_open w' = q :: w_open w /\ 1 <= q <= 65535 /\
        (port <> 0 -> q = port)
    | Raise _ => w_open w' = w_open w
    | OutOfFuel => False
    end.
Proof.
  unfold sock_bind.
  destruct ((port <? 0) || (port >? 65535)) eqn:Hrange.
  - prim. eauto.
  - prim. cbn.
    set (assigned := if port =? 0 then _ else port).
    destruct ((1 <=? assigned) && (assigned <=? 65535)
              && negb (e_port_busy (w_env w) (w_tick w) assigned)
              && negb (bool_decide (assigned ∈ w_open w))) eqn:Hok.
    + do 2 eexists. split; [reflexivity|]. cbn. split; [reflexivity|].
      apply andb_prop in Hok as [Hok Hfree].
      apply andb_prop in Hok as [Hok _].
      apply andb_prop in Hok as [Hlo Hhi].
      apply negb_true_iff, bool_decide_eq_false in Hfree.
      repeat split; try assumption; try lia.
      intros Hne. subst assigned.
      destruct (port =? 0) eqn:E; [lia | reflexivity].
    + do 2 eexists. split; [reflexivity|]. cbn. split; reflexivity.
Qed.

Lemma _get_candidate_port_spec s w :
  exists r w', _get_candidate_port s w = (r, s, w') /\ w_env w' = w_env w /\
    w_open w' = w_open w /\
    match r with
    | Return c =>
        if upper_port s - lower_port s =? 0 then c = 0
        else lower_port s <= c <= upper_port s
    | Raise _ => True
    | OutOfFuel => False
    end.
Proof.
  unfold _get_candidate_port, randint. prim. cbn.
  destruct (upper_port s - lower_port s =? 0) eqn:Hsz.
  - do 2 eexists. repeat split.
  - cbn. destruct (upper_port s <? lower_port s) eqn:Hlt.
    + do 2 eexists. repeat split.
    + do 2 eexists. repeat split.
      all: pose proof (Z.mod_pos_bound
             (e_entropy (w_env w) (w_tick w))
             (upper_port s - lower_port s + 1)); lia.
Qed.

(** One pass through the [try] block: a socket bound to a free port (in the
    configured range when there is one), or nothing bound. *)
Lemma try_bind_candidate_spec s w :
  exists r w', try_bind_candidate s w = (Return r, s, w') /\
    w_env w' = w_env w /\
    match r with
    | Some q =>
        (q ∉ w_open w) /\ w_open w' = q :: w_open w /\ 1 <= q <= 65535 /\
        (upper_port s - lower_port s <> 0 -> 1 <= lower_port s ->
         lower_port s <= q <= upper_port s)
    | None => w_open w' = w_open w
    end.
Proof.
  unfold try_bind_candidate, try_except.
  destruct (_get_candidate_port_spec s w) as (rc & w1 & Hc & He1 & Ho1 & Hrc).
  destruct rc as [c|e|]; [|(rewrite (bind_Raise _ _ _ _ _ _ _ Hc); cbn; eauto)|tauto].
  rewrite (bind_Return _ _ _ _ _ _ _ Hc).
  destruct (sock_bind_spec c s w1) as (rb & w2 & Hb & He2 & Hrb).
  destruct rb as [q|e|]; [| |tauto].
  - rewrite (bind_Return _ _ _ _ _ _ _ Hb). cbn.
    exists (Some q), w2. split; [reflexivity|]. split; [congruence|].
    destruct Hrb as (Hfree & Hopen & Hq & Hsame).
    rewrite Ho1 in *. repeat split; try assumption; try lia.
    all: match goal with Hsz : _ <> 0 |- _ => apply Z.eqb_neq in Hsz; rewrite Hsz in Hrc end.
    all: assert (Hc0 : c <> 0) by lia; rewrite (Hsame Hc0); lia.
  - rewrite (bind_Raise _ _ _ _ _ _ _ Hb). cbn.
    exists None, w2. split; [reflexivity|]. split; congruence.
Qed.

(** The loop of [select_socket] from any value of the counter: enough fuel
    is one iteration more than the retries that are left. *)
Lemma select_socket_loop_spec fuel : forall retries s w,
  0 <= retries ->
  (Z.to_nat (max_port_range_retries - retries) < fuel)%nat ->
  exists r w', select_socket_loop fuel retries s w = (r, s, w') /\
    w_env w' = w_env w /\
    match r with
    | Return q =>
        (q ∉ w_open w) /\ w_open w' = q :: w_open w /\ 1 <= q <= 65535 /\
        (upper_port s - lower_port s <> 0 -> 1 <= lower_port s ->
         lower_port s <= q <= upper_port s)
    | Raise e => e = RuntimeError_port_range_exhausted /\ w_open w' = w_open w
    | OutOfFuel => False
    end.
Proof.
  induction fuel as [|fuel IH]; intros retries s w Hr Hfuel; [lia|].
  cbn [select_socket_loop].
  destruct (try_bind_candidate_spec s w) as (found & w1 & Ht & He1 & Hfound).
  rewrite (bind_Return _ _ _ _ _ _ _ Ht).
  destruct found as [q|].
  - exists (Return q), w1. split; [reflexivity|]. split; assumption.
  - destruct (retries + 1 >? max_port_range_retries) eqn:Hmax.
    + exists (Raise RuntimeError_port_range_exhausted), w1.
      split; [reflexivity|]. repeat split; assumption.
    + destruct (IH (retries + 1) s w1) as (r & w2 & Hl & He2 & Hr2);
        [lia | unfold max_port_range_retries in *; lia |].
      exists r, w2. split; [exact Hl|]. split; [congruence|].
      rewrite Hfound in Hr2. exact Hr2.
Qed.

Lemma select_socket_spec s w :
  exists r w', select_socket s w = (r, s, w') /\
    w_env w' = w_env w /\
    match r with
    | Return q =>
        (q ∉ w_open w) /\ w_open w' = q :: w_open w /\ 1 <= q <= 65535 /\
        (upper_port s - lower_port s <> 0 -> 1 <= lower_port s ->
         lower_port s <= q <= upper_port s)
    | Raise e => e = RuntimeError_port_range_exhausted /\ w_open w' = w_open w
    | OutOfFuel => False
    end.
Proof.
  apply select_socket_loop_spec; [lia|].
  unfold max_port_range_retries. cbn. lia.
Qed.

(** More fuel than needed does not change the result. *)
Lemma select_socket_loop_fuel fuel : forall retries s w,
  0 <= retries ->
  (Z.to_nat (max_port_range_retries - retries) < fuel)%nat ->
  select_socket_loop (S fuel) retries s w = select_socket_loop fuel retries s w.
Proof.
  induction fuel as [|fuel IH]; intros retries s w Hr Hfuel; [lia|].
  cbn [select_socket_loop].
  destruct (try_bind_candidate_spec s w) as (found & w1 & Ht & _).
  rewrite !(bind_Return _ _ _ _ _ _ _ Ht).
  destruct found as [q|]; [reflexivity|].
  destruct (retries + 1 >? max_port_range_retries) eqn:Hmax; [reflexivity|].
  apply IH; [lia | unfold max_port_range_retries in *; lia].
Qed.

Lemma select_socket_loop_enough fuel s w :
  (6 <= fuel)%nat -> select_socket_loop fuel 0 s w = select_socket s w.
Proof.
  unfold select_socket. change (S (Z.to_nat max_port_range_retries)) with 6%nat.
  induction 1 as [|fuel Hle IH]; [reflexivity|].
  rewrite select_socket_loop_fuel; [exact IH | lia |].
  unfold max_port_range_retries. cbn. lia.
Qed.

(** The loop after [n] failed passes, the counter at [retries]. *)
Lemma select_socket_loop_failures n : forall fuel retries s w w',
  after_failures n s w = Some w' ->
  retries + Z.of_nat n <= max_port_range_retries ->
  select_socket_loop (n + fuel) retries s w
  = select_socket_loop fuel (retries + Z.of_nat n) s w'.
Proof.
  induction n as [|n IH]; intros fuel retries s w w' Hfail Hle.
  - cbn in Hfail. inversion Hfail; subst. cbn. f_equal. lia.
  - cbn [after_failures] in Hfail.
    destruct (try_bind_candidate_spec s w) as (found & w1 & Ht & _).
    rewrite Ht in Hfail. destruct found as [q|]; [discriminate|].
    cbn [Nat.add select_socket_loop].
    rewrite (bind_Return _ _ _ _ _ _ _ Ht).
    destruct (retries + 1 >? max_port_range_retries) eqn:Hmax; [lia|].
    rewrite (IH fuel (retries + 1) s w1 w' Hfail ltac:(lia)).
    f_equal. lia.
Qed.

(** The loop with exactly the iterations that are left: it raises when
    all of them fail, and returns otherwise. *)
Lemma select_socket_loop_outcome fuel : forall retries s w,
  0 <= retries ->
  fuel = Z.to_nat (max_port_range_retries + 1 - retries) ->
  (0 < fuel)%nat ->
  exists r w', select_socket_loop fuel retries s w = (r, s, w') /\
    match r with
    | Return _ => after_failures fuel s w = None
    | Raise e =>
        e = RuntimeError_port_range_exhausted /\
        after_failures fuel s w = Some w'
    | OutOfFuel => False
    end.
Proof.
  induction fuel as [|fuel IH]; intros retries s w Hr Hfuel Hpos; [lia|].
  cbn [select_socket_loop after_failures].
  destruct (try_bind_candidate_spec s w) as (found & w1 & Ht & _).
  rewrite (bind_Return _ _ _ _ _ _ _ Ht), Ht.
  destruct found as [q|].
  - exists (Return q), w1. split; reflexivity.
  - unfold max_port_range_retries in *.
    destruct (retries + 1 >? 5) eqn:Hmax.
    + exists (Raise RuntimeError_port_range_exhausted), w1.
      split; [reflexivity|]. split; [reflexivity|].
      assert (fuel = 0%nat) by lia. subst fuel. reflexivity.
    + apply (IH (retries + 1) s w1); lia.
Qed.

(** C9.  The retry loop of [select_socket] terminates: six iterations are
    enough for every provisioner and every world, whatever more fuel is
    given.  It raises the port-range-exhausted error exactly after six
    consecutive failed attempts (more than [max_port_range_retries] = 5),
    and returns the bound socket when an attempt succeeds after at most
    five failures. *)
Theorem select_socket_terminates (fuel : nat) (s : Provisioner) (w : World) :
  (6 <= fuel)%nat ->
  select_socket_loop fuel 0 s w = select_socket s w /\
  (exists r w', select_socket s w = (r, s, w') /\
     match r with
     | Return _ => after_failures 6 s w = None
     | Raise e =>
         e = RuntimeError_port_range_exhausted /\ after_failures 6 s w = Some w'
     | OutOfFuel => False
     end) /\
  (forall n w1 q w2,
     (n <= 5)%nat -> after_failures n s w = Some w1 ->
     try_bind_candidate s w1 = (Return (Some q), s, w2) ->
     select_socket s w = (Return q, s, w2)).
Proof.
  intros Hfuel. split; [apply select_socket_loop_enough; exact Hfuel|].
  split.
  - apply (select_socket_loop_outcome 6 0 s w); [lia | reflexivity | lia].
  - intros n w1 q w2 Hn Hfail Hok.
    unfold select_socket.
    change (S (Z.to_nat max_port_range_retries)) with 6%nat.
    replace 6%nat with (n + S (5 - n))%nat by lia.
    rewrite (select_socket_loop_failures n _ 0 s w w1 Hfail)
      by (unfold max_port_range_retries; lia).
    cbn [select_socket_loop].
    rewrite (bind_Return _ _ _ _ _ _ _ Hok). reflexivity.
Qed.

(** The theorem at a world where every port is taken: six failed attempts,
    then the error. *)
Lemma select_socket_terminates_witness :
  (6 <= 6)%nat /\
  select_socket_loop 6 0 (Examples.constructed "1024..2024") Examples.saturated
  = select_socket (Examples.constructed "1024..2024") Examples.saturated.
Proof.
  split; [lia|].
  apply (select_socket_terminates 6 (Examples.constructed "1024..2024")
           Examples.saturated).
  lia.
Defined.

Example select_socket_saturated :
  (select_socket (Examples.constructed "1024..2024") Examples.saturated).1.1
  = Raise RuntimeError_port_range_exhausted.
Proof. vm_compute. reflexivity. Qed.

Example select_socket_quiet :
  (select_socket (Examples.constructed "1024..2024")
     (Examples.world_of (Examples.quiet false))).1.1
  = Return 1024.
Proof. vm_compute. reflexivity. Qed.

Example select_socket_unconstrained :
  (select_socket (Examples.constructed "0..0")
     (Examples.world_of (Examples.quiet false))).1.1
  = Return 49152.
Proof. vm_compute. reflexivity. Qed.

(** *** [select_ports] *)

Lemma close_all_spec sockets : forall s w,
  exists w', close_all sockets s w = (Return tt, s, w') /\
    w_env w' = w_env w.
Proof.
  induction sockets as [|sock rest IH]; intros s w; cbn [close_all].
  - exists w. repeat split.
  - unfold sock_close. prim. cbn.
    match goal with |- context [close_all rest s ?w0] =>
      destruct (IH s w0) as (w' & -> & He) end.
    exists w'. repeat split; assumption.
Qed.

(** The first loop of [select_ports]: the ports chosen so far are those of
    sockets still bound, so the next one differs from all of them. *)
Lemma select_ports_loop_spec count : forall ports s w,
  NoDup ports -> Forall (fun p => p ∈ w_open w) ports ->
  Forall (port_ok s) ports ->
  exists r w', select_ports_loop count ports s w = (r, s, w') /\
    w_env w' = w_env w /\
    match r with
    | Return l =>
        length l = (length ports + count)%nat /\ NoDup l /\
        Forall (port_ok s) l
    | Raise e => e = RuntimeError_port_range_exhausted
    | OutOfFuel => False
    end.
Proof.
  induction count as [|count IH]; intros ports s w Hnd Hopen Hok;
    cbn [select_ports_loop].
  - exists (Return ports), w. repeat split; [lia | assumption | assumption].
  - destruct (select_socket_spec s w) as (r & w1 & Hs & He & Hr).
    destruct r as [q|e|]; [| |tauto].
    + rewrite (bind_Return _ _ _ _ _ _ _ Hs).
      destruct Hr as (Hfree & Hopen1 & Hq & Hrange).
      destruct (IH (ports ++ [q])%list s w1) as (r & w2 & Hl & He2 & Hr2).
      * apply NoDup_app. split; [assumption|]. split; [|apply NoDup_singleton].
        intros p Hp Hpq. apply list_elem_of_singleton in Hpq. subst p.
        rewrite Forall_forall in Hopen. apply Hfree, Hopen, Hp.
      * rewrite Hopen1. apply Forall_app. split.
        -- eapply Forall_impl; [exact Hopen|]. intros p Hp. now right.
        -- constructor; [now left | constructor].
      * apply Forall_app. split; [assumption|].
        constructor; [split; assumption | constructor].
      * exists r, w2. split; [exact Hl|]. split; [congruence|].
        destruct r as [l|e|]; try assumption.
        rewrite length_app in Hr2. cbn in Hr2.
        destruct Hr2 as (Hlen & Hr2). split; [lia | exact Hr2].
    + rewrite (bind_Raise _ _ _ _ _ _ _ Hs).
      exists (Raise e), w1. repeat split; tauto.
Qed.

Lemma select_ports_spec (count : nat) s w :
  exists r w', select_ports (Z.of_nat count) s w = (r, s, w') /\
    w_env w' = w_env w /\
    match r with
    | Return l => length l = count /\ NoDup l /\ Forall (port_ok s) l
    | Raise e => e = RuntimeError_port_range_exhausted
    | OutOfFuel => False
    end.
Proof.
  unfold select_ports. rewrite Nat2Z.id.
  destruct (select_ports_loop_spec count [] s w) as (r & w1 & Hl & He & Hr);
    [constructor | constructor | constructor |].
  destruct r as [l|e|]; [| |tauto].
  - rewrite (bind_Return _ _ _ _ _ _ _ Hl).
    destruct (close_all_spec l s w1) as (w2 & Hc & He2).
    rewrite (bind_Return _ _ _ _ _ _ _ Hc).
    exists (Return l), w2. split; [reflexivity|]. split; [congruence|].
    exact Hr.
  - rewrite (bind_Raise _ _ _ _ _ _ _ Hl).
    exists (Raise e), w1. repeat split; assumption.
Qed.





Example select_ports_quiet :
  (select_ports 5 (Examples.constructed "1024..2024")
     (Examples.world_of (Examples.quiet false))).1.1
  = Return [1024; 1038; 1052; 1066; 1080].
Proof. vm_compute. reflexivity. Qed.

(** ** Port-range validation at construction *)

(** The outcome of validation for a string whose first two fields parse. *)
Lemma _validate_port_range_parsed int_beyond port_range s0 s1 rest
  lower upper :
  Py.split port_range ".." = s0 :: s1 :: rest ->
  Py.int_of_str int_beyond s0 = Some lower ->
  Py.int_of_str int_beyond s1 = Some upper ->
  _validate_port_range int_beyond port_range =
    if upper - lower =? 0 then Return (lower, upper)
    else if upper - lower <? 1000 then Raise ValueError_range_size
    else if (lower <? 1024) || (lower >? 65535) then Raise ValueError_invalid_port
    else if (upper <? 1024) || (upper >? 65535) then Raise ValueError_invalid_port
    else Return (lower, upper).
Proof.
  intros Hsplit H0 H1. unfold _validate_port_range, validate_port.
  rewrite Hsplit. cbn [lookup list_lookup]. rewrite H0, H1. cbn zeta.
  unfold min_port_range_size.
  destruct (upper - lower =? 0); cbn [negb]; [reflexivity|].
  destruct (upper - lower <? 1000); [reflexivity|].
  destruct ((lower <? 1024) || (lower >? 65535)); [reflexivity|].
  destruct ((upper <? 1024) || (upper >? 65535)); reflexivity.
Qed.

Lemma init_Raise int_beyond port_range timeout e :
  _validate_port_range int_beyond port_range = Raise e ->
  __init__ int_beyond port_range timeout = Raise e.
Proof. unfold __init__. intros ->. reflexivity. Qed.

(** C6 (as amended).  For a configured range ["lower..upper"], the
    bounds being what [int] makes of the first two fields between [..]
    (the interpreter's [int], [int_beyond] on a field that is not plain
    ASCII): when the width [upper - lower] is not zero and is less than
    1000 (negative
    widths included), construction fails with the range-size [ValueError];
    when the width is at least 1000 and a bound lies outside
    [[1024, 65535]], construction fails with the invalid-port
    [ValueError]; no provisioner exists in either case, so no launch can be
    attempted.  A range of width zero is accepted as it is. *)
Theorem port_range_validated_at_construction
  (int_beyond : string -> option Z)
  (port_range s0 s1 : string) (rest : list string) (lower upper timeout : Z) :
  Py.split port_range ".." = s0 :: s1 :: rest ->
  Py.int_of_str int_beyond s0 = Some lower ->
  Py.int_of_str int_beyond s1 = Some upper ->
  (upper - lower <> 0 -> upper - lower < 1000 ->
   __init__ int_beyond port_range timeout = Raise ValueError_range_size) /\
  (1000 <= upper - lower ->
   ~ (1024 <= lower <= 65535 /\ 1024 <= upper <= 65535) ->
   __init__ int_beyond port_range timeout = Raise ValueError_invalid_port) /\
  (upper - lower = 0 ->
   exists p, __init__ int_beyond port_range timeout = Return p /\
     lower_port p = lower /\ upper_port p = upper) /\
  (forall p, __init__ int_beyond port_range timeout = Return p ->
     lower_port p = lower /\ upper_port p = upper /\
     (upper - lower = 0 \/
      (1000 <= upper - lower /\ 1024 <= lower /\ upper <= 65535))).
Proof.
  intros Hsplit H0 H1.
  pose proof (_validate_port_range_parsed _ _ _ _ _ _ _ Hsplit H0 H1) as Hv.
  repeat split.
  - intros Hne Hlt. apply init_Raise. rewrite Hv.
    destruct (Z.eqb_spec (upper - lower) 0); [contradiction|].
    destruct (Z.ltb_spec (upper - lower) 1000); [reflexivity | lia].
  - intros Hge Hout. apply init_Raise. rewrite Hv.
    destruct (Z.eqb_spec (upper - lower) 0); [lia|].
    destruct (Z.ltb_spec (upper - lower) 1000); [lia|].
    destruct ((lower <? 1024) || (lower >? 65535)) eqn:Hl; [reflexivity|].
    destruct ((upper <? 1024) || (upper >? 65535)) eqn:Hu; [reflexivity|].
    exfalso. apply Hout. lia.
  - intros Hz. unfold __init__. rewrite Hv.
    destruct (Z.eqb_spec (upper - lower) 0); [|contradiction].
    eexists. split; [reflexivity|]. split; reflexivity.
  - unfold __init__ in H. rewrite Hv in H.
    destruct (upper - lower =? 0); [inversion H; reflexivity|].
    destruct (upper - lower <? 1000); [discriminate|].
    destruct ((lower <? 1024) || (lower >? 65535)); [discriminate|].
    destruct ((upper <? 1024) || (upper >? 65535)); [discriminate|].
    inversion H; reflexivity.
  - unfold __init__ in H. rewrite Hv in H.
    destruct (upper - lower =? 0); [inversion H; reflexivity|].
    destruct (upper - lower <? 1000); [discriminate|].
    destruct ((lower <? 1024) || (lower >? 65535)); [discriminate|].
    destruct ((upper <? 1024) || (upper >? 65535)); [discriminate|].
    inversion H; reflexivity.
  - unfold __init__ in H. rewrite Hv in H.
    destruct (Z.eqb_spec (upper - lower) 0); [now left|].
    destruct (Z.ltb_spec (upper - lower) 1000); [discriminate|].
    destruct ((lower <? 1024) || (lower >? 65535)) eqn:Hl; [discriminate|].
    destruct ((upper <? 1024) || (upper >? 65535)) eqn:Hu; [discriminate|].
    right. lia.
Qed.

Lemma port_range_validated_at_construction_witness :
  Py.split "2000..2500" ".." = ["2000"; "2500"] /\
  Py.int_of_str Examples.no_int "2000" = Some 2000 /\
  Py.int_of_str Examples.no_int "2500" = Some 2500 /\
  __init__ Examples.no_int "2000..2500" 30000 = Raise ValueError_range_size.
Proof.
  split; [reflexivity|]. split; [reflexivity|]. split; [reflexivity|].
  apply (port_range_validated_at_construction Examples.no_int
           "2000..2500" "2000" "2500" [] 2000 2500 30000);
    [reflexivity | reflexivity | reflexivity | lia | lia].
Defined.

(** C6 as stated fails: the range ["5000..5000"] has width 0 < 1000 and
    construction succeeds. *)
Lemma zero_width_range_is_accepted :
  exists p,
    (forall int_beyond, __init__ int_beyond "5000..5000" 30000 = Return p) /\
    upper_port p - lower_port p < min_port_range_size /\
    lower_port p = 5000 /\ upper_port p = 5000.
Proof. eexists. split; [intros; reflexivity|]. repeat split. Qed.

Example init_wide f : exists p, __init__ f "1024..65535" 30000 = Return p.
Proof. eexists. reflexivity. Qed.
Example init_reversed f :
  __init__ f "3000..2000" 30000 = Raise ValueError_range_size.
Proof. reflexivity. Qed.
Example init_high f :
  __init__ f "60000..70000" 30000 = Raise ValueError_invalid_port.
Proof. reflexivity. Qed.

(** A separator character before the literal is not white space for
    [int]: the constructor raises its [ValueError]. *)
Example init_separator f :
  __init__ f (String (ascii_of_nat 28) "5000..5000") 30000
  = Raise ValueError_invalid_literal.
Proof. reflexivity. Qed.

(** C7 (as amended).  The zero-width form ["0..0"] passes validation:
    construction succeeds with the range (0, 0), which is unconstrained,
    since every candidate port is then 0, the port the operating system
    chooses itself. *)
Theorem default_port_range_unconstrained
  (int_beyond : string -> option Z) (timeout : Z) :
  _validate_port_range int_beyond "0..0" = Return (0, 0) /\
  exists p, __init__ int_beyond "0..0" timeout = Return p /\
    lower_port p = 0 /\ upper_port p = 0 /\
    forall w, _get_candidate_port p w = (Return 0, p, w).
Proof.
  split; [reflexivity|].
  eexists. split; [reflexivity|]. repeat split.
Qed.

(** C7 as stated fails: for the empty string [split] yields one empty
    field, [int] rejects it, and the [ValueError] leaves the constructor. *)
Lemma empty_port_range_is_rejected :
  Py.split EmptyString ".." = [EmptyString] /\
  (forall int_beyond, Py.int_of_str int_beyond EmptyString = None) /\
  (forall int_beyond,
     _validate_port_range int_beyond EmptyString
     = Raise ValueError_invalid_literal) /\
  (forall int_beyond,
     __init__ int_beyond EmptyString 30000 = Raise ValueError_invalid_literal).
Proof. repeat split. Qed.

(** ** SignalDispatcher *)

(** C4.  When [comm_port > 0] and the connection to the listener is
    refused, [send_signal] takes the signal as delivered: it returns
    normally, the provisioner is unchanged, and the only event is the
    refused listener request (nothing is sent to the process group or to
    the local process). *)
Theorem refused_listener_is_delivered (signum : Z) (s : Provisioner) (w : World) :
  comm_port s > 0 ->
  e_listener (w_env w) (w_tick w) = Some (OSError_errno ECONNREFUSED) ->
  exists w',
    _send_signal_via_listener signum s w = (Return true, s, w') /\
    send_signal signum s w = (Return PNone, s, w') /\
    w_trace w' =
      EvListenerRequest (comm_ip s) (comm_port s) (ReqSignum signum) false false
      :: w_trace w.
Proof.
  intros Hport Hrefused.
  assert (Hgt : (comm_port s >? 0) = true) by lia.
  unfold send_signal, _send_signal_via_listener, _send_listener_request.
  prim. cbn. repeat (first [rewrite Hgt | rewrite Hrefused]; cbn).
  eexists. repeat split.
Qed.

Lemma refused_listener_is_delivered_witness :
  comm_port (Examples.with_comm (Examples.constructed "0..0")) > 0 /\
  exists w',
    _send_signal_via_listener 2 (Examples.with_comm (Examples.constructed "0..0"))
      (Examples.world_of
         (Examples.with_listener (fun _ => Some (OSError_errno ECONNREFUSED))
            (Examples.quiet false)))
    = (Return true, Examples.with_comm (Examples.constructed "0..0"), w') /\
    send_signal 2 (Examples.with_comm (Examples.constructed "0..0"))
      (Examples.world_of
         (Examples.with_listener (fun _ => Some (OSError_errno ECONNREFUSED))
            (Examples.quiet false)))
    = (Return PNone, Examples.with_comm (Examples.constructed "0..0"), w') /\
    w_trace w' =
      [EvListenerRequest (PStr "10.0.0.5") 8888 (ReqSignum 2) false false].
Proof.
  split; [reflexivity|].
  apply (refused_listener_is_delivered 2
           (Examples.with_comm (Examples.constructed "0..0"))
           (Examples.world_of
              (Examples.with_listener (fun _ => Some (OSError_errno ECONNREFUSED))
                 (Examples.quiet false))));
    reflexivity.
Defined.

(** Any other failure of the listener falls through to the local process. *)
Example unreachable_listener_falls_through :
  w_trace
    (send_signal 2
       (set_local_proc (Some 3%nat)
          (Examples.with_comm (Examples.constructed "0..0")))
       (Examples.world_of
          (Examples.with_listener (fun _ => Some Timeout_wait)
             (Examples.quiet false)))).2
  = [EvProcSignal 3%nat 2;
     EvListenerRequest (PStr "10.0.0.5") 8888 (ReqSignum 2) false false].
Proof. reflexivity. Qed.

(** The base [send_signal] with a listener that answers: the request
    carries the signal number as it is. *)
Lemma send_signal_forwards signum s w :
  comm_port s > 0 ->
  e_listener (w_env w) (w_tick w) = None ->
  exists w',
    send_signal signum s w = (Return PNone, s, w') /\
    w_trace w' =
      EvListenerRequest (comm_ip s) (comm_port s) (ReqSignum signum) false true
      :: w_trace w.
Proof.
  intros Hport Hup.
  assert (Hgt : (comm_port s >? 0) = true) by lia.
  unfold send_signal, _send_signal_via_listener, _send_listener_request.
  prim. cbn. repeat (first [rewrite Hgt | rewrite Hup]; cbn).
  eexists. repeat split.
Qed.

(** C3 (as amended).  [ContainerProvisioner.send_signal] is [send_signal]
    as specified, over its own [poll] and [kill]: it is [poll] for
    signal 0 and [kill] for SIGKILL, and neither forwards a signal number;
    every other signal goes to the base [send_signal].  The base
    [send_signal] makes no such distinction: with a listener that answers,
    it forwards every signal number, 0 and SIGKILL included, in the
    request. *)
Theorem container_send_signal_redefines_0_and_kill :
  (forall signum s w,
     Container.send_signal signum s w
     = send_signal_as_specified Container.poll Container.kill send_signal
         signum s w) /\
  (forall s w, Container.send_signal 0 s w = Container.poll s w) /\
  (forall s w, Container.send_signal SIGKILL s w = Container.kill false s w) /\
  (forall signum s w, signum <> 0 -> signum <> SIGKILL ->
     Container.send_signal signum s w = send_signal signum s w) /\
  (forall signum s w, signum = 0 \/ signum = SIGKILL ->
     exists new,
       w_trace (Container.send_signal signum s w).2 = (new ++ w_trace w)%list /\
       forallb (fun ev => negb (is_raw_signal ev)) new = true) /\
  (forall signum s w,
     comm_port s > 0 -> e_listener (w_env w) (w_tick w) = None ->
     exists w',
       send_signal signum s w = (Return PNone, s, w') /\
       w_trace w' =
         EvListenerRequest (comm_ip s) (comm_port s) (ReqSignum signum)
           false true :: w_trace w).
Proof.
  split; [reflexivity|].
  split; [reflexivity|]. split; [reflexivity|]. split; [|split].
  - intros signum s w H0 Hk. unfold Container.send_signal.
    destruct (Z.eqb_spec signum 0); [contradiction|].
    destruct (Z.eqb_spec signum SIGKILL); [contradiction|]. reflexivity.
  - intros signum s w [-> | ->].
    + change (Container.send_signal 0 s w) with (Container.poll s w).
      unfold Container.poll, Container.get_container_status. prim. cbn.
      exists [EvContainerStatus None].
      destruct (cs_assigned _) as [[host aip]|]; cbn;
        destruct (cs_status _); cbn; try case_bool_decide; split; reflexivity.
    + change (Container.send_signal SIGKILL s w) with (Container.kill false s w).
      unfold Container.kill, Container.terminate_container_resources.
      prim. cbn.
      destruct (truthy (of_opt_str (container_name s))); cbn.
      * exists [EvTerminateResources false; EvKill false]. split; reflexivity.
      * exists [EvKill false]. split; reflexivity.
  - intros signum s w. apply send_signal_forwards.
Qed.

(** C3 as stated fails for the base [send_signal]: with a listener that
    answers, signal 0 and SIGKILL are sent in the request as they are, and
    the result is neither that of [poll] nor that of [kill]. *)
Lemma base_send_signal_forwards_0_and_kill :
  let s := Examples.with_comm (Examples.constructed "0..0") in
  let w := Examples.world_of (Examples.quiet false) in
  w_trace (send_signal SIGKILL s w).2
    = [EvListenerRequest (PStr "10.0.0.5") 8888 (ReqSignum 9) false true] /\
  w_trace (send_signal 0 s w).2
    = [EvListenerRequest (PStr "10.0.0.5") 8888 (ReqSignum 0) false true] /\
  send_signal SIGKILL s w <> Container.kill false s w /\
  send_signal 0 s w <> Container.poll s w /\
  send_signal SIGKILL s w
  <> send_signal_as_specified Container.poll Container.kill send_signal
       SIGKILL s w.
Proof.
  cbv zeta. split; [reflexivity|]. split; [reflexivity|].
  repeat split; intros H; apply (f_equal (fun r => w_trace r.2)) in H;
    vm_compute in H; discriminate.
Qed.

(** ** Launch failure detection *)

(** C10.  [detect_launch_failure] raises the launch-fault error exactly
    when there is a local process whose [poll] gives a strictly positive
    return code; with no local process, a running process, an exit code 0 or
    a negative code (killed by a signal) it returns and leaves the
    provisioner unchanged.  In the confirmation loop, an iteration that
    reaches it without a fault is not the last one: the loop goes on with
    the next iteration. *)
Theorem launch_fault_only_on_positive_exit (s : Provisioner) (w : World) :
  exists r s' w', detect_launch_failure s w = (r, s', w') /\
    (r = Raise RuntimeError_launch_failure <->
     exists lp rc, local_proc s = Some lp /\
       e_proc_poll (w_env w) (w_tick w) lp = Some rc /\ 0 < rc) /\
    (r <> Raise RuntimeError_launch_failure -> r = Return tt /\ s' = s) /\
    (forall fuel i s0 w0 sa wa status,
       handle_launch_timeout Container.kill s0 w0 = (Return tt, sa, wa) ->
       Container.get_container_status (Some (i + 1)) sa wa
         = (Return status, s, w) ->
       truthy (of_opt_str status) = false ->
       r = Return tt ->
       Container.confirm_loop (S fuel) i s0 w0
       = Container.confirm_loop fuel (i + 1) s' w').
Proof.
  destruct (detect_launch_failure s w) as [[r s'] w'] eqn:Hd.
  exists r, s', w'. split; [reflexivity|].
  assert (Hloop : forall fuel i s0 w0 sa wa status,
       handle_launch_timeout Container.kill s0 w0 = (Return tt, sa, wa) ->
       Container.get_container_status (Some (i + 1)) sa wa
         = (Return status, s, w) ->
       truthy (of_opt_str status) = false ->
       r = Return tt ->
       Container.confirm_loop (S fuel) i s0 w0
       = Container.confirm_loop fuel (i + 1) s' w').
  { intros fuel i s0 w0 sa wa status Ht Hs Hfalsy ->.
    cbn [Container.confirm_loop]. unfold Container.confirm_iteration.
    rewrite !bind_assoc, (bind_Return _ _ _ _ _ _ _ Ht).
    rewrite !bind_assoc, (bind_Return _ _ _ _ _ _ _ Hs). rewrite Hfalsy.
    rewrite !bind_assoc, (bind_Return _ _ _ _ _ _ _ Hd). reflexivity. }
  unfold detect_launch_failure, proc_poll, proc_wait in Hd. prim. cbn in Hd.
  destruct (local_proc s) as [lp|] eqn:Hlp; cbn in Hd.
  - destruct (e_proc_poll (w_env w) (w_tick w) lp) as [rc|] eqn:Hpoll;
      cbn in Hd.
    + destruct (negb (rc =? 0) && (rc >? 0)) eqn:Hrc; cbn in Hd;
        inversion Hd; subst; clear Hd.
      * repeat split; try congruence; try exact Hloop.
        intros _. exists lp, rc. split; [reflexivity|]. split; [exact Hpoll|].
        apply andb_prop in Hrc. lia.
      * repeat split; try congruence; try exact Hloop.
        intros (lp' & rc' & Hlp' & Hpoll' & Hpos).
        inversion Hlp'; subst lp'. rewrite Hpoll in Hpoll'.
        inversion Hpoll'; subst rc'. lia.
    + inversion Hd; subst; clear Hd.
      repeat split; try congruence; try exact Hloop.
      intros (lp' & rc' & Hlp' & Hpoll' & Hpos).
      inversion Hlp'; subst lp'. congruence.
  - inversion Hd; subst; clear Hd.
    repeat split; try congruence; try exact Hloop.
    intros (lp' & rc' & Hlp' & _). discriminate.
Qed.

Example killed_by_signal_is_no_fault :
  (detect_launch_failure (set_local_proc (Some 3%nat) (Examples.constructed "0..0"))
     (Examples.world_of
        (Examples.with_proc_poll (fun _ _ => Some (-9)) (Examples.quiet false)))).1.1
  = Return tt.
Proof. reflexivity. Qed.

Example exit_code_one_is_a_fault :
  (detect_launch_failure (set_local_proc (Some 3%nat) (Examples.constructed "0..0"))
     (Examples.world_of
        (Examples.with_proc_poll (fun _ _ => Some 1) (Examples.quiet false)))).1.1
  = Raise RuntimeError_launch_failure.
Proof. reflexivity. Qed.

(** ** Listener shutdown *)

(** C5.  In a state where the tunnel of the communication channel is
    tracked, [shutdown_listener] returns normally, whatever the listener
    answers to the shutdown request (delivered, connection refused, any
    other failure); the tracked process is terminated after the request and
    its entry is removed from [tunnel_processes]. *)
Theorem shutdown_listener_releases_comm_tunnel
  (s : Provisioner) (w : World) (h : proc) :
  comm_tunnel_inv (w_env w) s ->
  tunnel_processes s !! channel_value COMMUNICATION = Some h ->
  exists s' w',
    shutdown_listener s w = (Return tt, s', w') /\
    tunnel_processes s'
      = delete (channel_value COMMUNICATION) (tunnel_processes s) /\
    tunnel_processes s' !! channel_value COMMUNICATION = None /\
    w_trace w' =
      EvTerminateProc h
      :: EvListenerRequest (comm_ip s) (comm_port s) ReqShutdown true
           (match e_listener (w_env w) (w_tick w) with
            | None => true
            | Some _ => false
            end)
      :: w_trace w.
Proof.
  intros Hinv Hh.
  destruct (Hinv (ex_intro _ h Hh)) as [_ Hport].
  assert (Hgt : (comm_port s >? 0) = true) by lia.
  cbn [channel_value] in Hh.
  unfold shutdown_listener, _send_listener_request, proc_terminate.
  prim. cbn. repeat (rewrite Hgt; cbn).
  destruct (e_listener (w_env w) (w_tick w)) as [ex|]; cbn;
    rewrite Hh; cbn; do 2 eexists;
    (split; [reflexivity|]); cbn;
    (split; [reflexivity|]); (split; [apply lookup_delete_eq | reflexivity]).
Qed.

Lemma shutdown_listener_releases_comm_tunnel_witness :
  let s := Examples.with_comm_tunnel (Examples.constructed "0..0") in
  let w := Examples.world_of
             (Examples.with_listener
                (fun _ => Some (OSError_errno ECONNREFUSED))
                (Examples.quiet true)) in
  comm_tunnel_inv (w_env w) s /\
  tunnel_processes s !! channel_value COMMUNICATION = Some 5%nat /\
  exists s' w',
    shutdown_listener s w = (Return tt, s', w') /\
    tunnel_processes s'
      = delete (channel_value COMMUNICATION) (tunnel_processes s) /\
    tunnel_processes s' !! channel_value COMMUNICATION = None /\
    w_trace w' =
      EvTerminateProc 5%nat
      :: EvListenerRequest (comm_ip s) (comm_port s) ReqShutdown true
           (match e_listener (w_env w) (w_tick w) with
            | None => true
            | Some _ => false
            end)
      :: w_trace w.
Proof.
  cbv zeta.
  assert (Hinv : comm_tunnel_inv
            (w_env (Examples.world_of
               (Examples.with_listener
                  (fun _ => Some (OSError_errno ECONNREFUSED))
                  (Examples.quiet true))))
            (Examples.with_comm_tunnel (Examples.constructed "0..0"))).
  { intros _. split; [reflexivity | reflexivity]. }
  assert (Hh : tunnel_processes
            (Examples.with_comm_tunnel (Examples.constructed "0..0"))
            !! channel_value COMMUNICATION = Some 5%nat).
  { vm_compute. reflexivity. }
  split; [exact Hinv|]. split; [exact Hh|].
  exact (shutdown_listener_releases_comm_tunnel _ _ _ Hinv Hh).
Defined.

Example shutdown_listener_without_comm_port :
  shutdown_listener (Examples.constructed "0..0")
    (Examples.world_of (Examples.quiet true))
  = (Return tt, Examples.constructed "0..0",
     Examples.world_of (Examples.quiet true)).
Proof. reflexivity. Qed.

(** ** TunnelManager and connection information *)

(** Take apart [bind m k s w = (Return _, _, _)]. *)
Ltac inv_bind H :=
  let a := fresh "a" in
  let s1 := fresh "s" in
  let w1 := fresh "w" in
  let H1 := fresh "Hm" in
  let Hbad := fresh "Hbad" in
  apply bind_inv in H;
  destruct H as [(a & s1 & w1 & H1 & H) | [(? & _ & Hbad) | (_ & Hbad)]];
  [ | discriminate Hbad | discriminate Hbad ];
  match type of a with
  | unit => destruct a
  | _ => idtac
  end.

(** Resolve a primitive step [prim s w = (Return a, s', w')]. *)
Ltac inv_prim H :=
  unfold self, env, world, update, ret, raise, emit, ask, fresh_proc,
    getitem, index, py_int in H;
  cbn in H; inversion H; subst; clear H.

(** *** What the allocator leaves in the trace *)

(** One pass through the [try] block records the bind it made, and
    nothing else. *)
Lemma try_bind_candidate_trace s w r s' w' :
  try_bind_candidate s w = (r, s', w') ->
  w_next_proc w' = w_next_proc w /\
  w_trace w' = match r with
               | Return (Some q) => EvBind q :: w_trace w
               | _ => w_trace w
               end.
Proof.
  unfold try_bind_candidate, _get_candidate_port, randint, sock_bind.
  prim. cbn.
  repeat match goal with
    | |- context [if ?b then _ else _] =>
        lazymatch b with
        | context [if _ then _ else _] => fail
        | _ => destruct b eqn:?; cbn
        end
    end;
    intros H; inversion H; subst; cbn; split; reflexivity.
Qed.

Lemma select_socket_loop_trace fuel : forall retries s w q s' w',
  select_socket_loop fuel retries s w = (Return q, s', w') ->
  w_next_proc w' = w_next_proc w /\ w_trace w' = EvBind q :: w_trace w.
Proof.
  induction fuel as [|fuel IH]; intros retries s w q s' w' H;
    cbn [select_socket_loop] in H; [discriminate H|].
  destruct (try_bind_candidate_spec s w) as (found & w1 & Ht & _).
  rewrite (bind_Return _ _ _ _ _ _ _ Ht) in H.
  apply try_bind_candidate_trace in Ht as [Hn Htr].
  destruct found as [p|].
  - inversion H; subst. split; assumption.
  - destruct (retries + 1 >? max_port_range_retries); [discriminate H|].
    apply IH in H as [Hn' Htr']. split; congruence.
Qed.

Lemma select_ports_loop_trace count : forall ports s w l s' w',
  select_ports_loop count ports s w = (Return l, s', w') ->
  exists new,
    l = (ports ++ new)%list /\ length new = count /\
    w_next_proc w' = w_next_proc w /\
    w_trace w' = (rev (EvBind <$> new) ++ w_trace w)%list.
Proof.
  induction count as [|count IH]; intros ports s w l s' w' H;
    cbn [select_ports_loop] in H.
  - inversion H; subst. exists []. rewrite app_nil_r. repeat split.
  - apply bind_inv in H
      as [(q & s1 & w1 & Hq & H) | [(e & _ & H) | (_ & H)]];
      [|discriminate H|discriminate H].
    apply select_socket_loop_trace in Hq as [Hn Htr].
    apply IH in H as (new & -> & Hlen & Hn' & Htr').
    exists (q :: new). rewrite <- app_assoc. split; [reflexivity|].
    split; [cbn; lia|]. split; [congruence|].
    rewrite Htr', Htr. cbn [fmap list_fmap rev].
    rewrite <- app_assoc. reflexivity.
Qed.

Lemma close_all_trace sockets : forall s w r s' w',
  close_all sockets s w = (r, s', w') ->
  w_next_proc w' = w_next_proc w /\
  w_trace w' = (rev (EvClose <$> sockets) ++ w_trace w)%list.
Proof.
  induction sockets as [|sock rest IH]; intros s w r s' w' H;
    cbn [close_all] in H.
  - inversion H; subst. split; reflexivity.
  - unfold sock_close in H. prim. cbn in H.
    apply IH in H as [Hn Htr]. cbn in *. split; [exact Hn|].
    rewrite Htr. cbn [fmap list_fmap rev]. rewrite <- app_assoc. reflexivity.
Qed.

(** [select_ports] binds its ports one after the other, then closes them
    in the same order; the trace has the newest event first. *)
Lemma select_ports_trace (count : nat) s w ports s' w' :
  select_ports (Z.of_nat count) s w = (Return ports, s', w') ->
  w_env w' = w_env w /\ w_next_proc w' = w_next_proc w /\
  w_trace w'
  = (rev (EvClose <$> ports) ++ rev (EvBind <$> ports) ++ w_trace w)%list.
Proof.
  intros H.
  destruct (select_ports_spec count s w) as (r & w1 & Hs & He & _).
  rewrite Hs in H. inversion H; subst. clear H. split; [exact He|].
  unfold select_ports in Hs. rewrite Nat2Z.id in Hs.
  apply bind_inv in Hs
    as [(l & s1 & w2 & Hl & H) | [(e & _ & H) | (_ & H)]];
    [|discriminate H|discriminate H].
  apply select_ports_loop_trace in Hl as (new & -> & _ & Hn & Htr).
  apply bind_inv in H
    as [([] & s2 & w3 & Hc & H) | [(e & _ & H) | (_ & H)]];
    [|discriminate H|discriminate H].
  apply close_all_trace in Hc as [Hn' Htr'].
  inversion H; subst. split; [congruence|].
  rewrite Htr', Htr. reflexivity.
Qed.

Lemma _create_ssh_tunnel_Return kc lp rp rip server port s w s' w' :
  _create_ssh_tunnel kc lp rp rip server port s w = (Return tt, s', w') ->
  s' = set_tunnel_processes
         (<[channel_value kc := w_next_proc w]> (tunnel_processes s)) s /\
  w_next_proc w' = S (w_next_proc w) /\
  w_env w' = w_env w /\
  w_trace w'
  = EvSpawnTunnel (w_next_proc w) lp rip rp server port :: w_trace w.
Proof.
  unfold _create_ssh_tunnel, _spawn_ssh_tunnel. prim. cbn.
  destruct (e_spawn (w_env w) (w_tick w)); cbn; intros H; inversion H.
  repeat split; reflexivity.
Qed.

Lemma create_tunnels_Return p0 p1 p2 p3 p4 r0 r1 r2 r3 r4 rip server port
  s w s' w' :
  create_tunnels
    [(p0, (r0, SHELL)); (p1, (r1, IOPUB)); (p2, (r2, STDIN));
     (p3, (r3, HEARTBEAT)); (p4, (r4, CONTROL))] rip server port s w
  = (Return tt, s', w') ->
  tunnel_processes s' =
    <["CONTROL" := S (S (S (S (w_next_proc w))))]>
      (<["HB" := S (S (S (w_next_proc w)))]>
         (<["STDIN" := S (S (w_next_proc w))]>
            (<["IOPUB" := S (w_next_proc w)]>
               (<["SHELL" := w_next_proc w]> (tunnel_processes s))))) /\
  s' = set_tunnel_processes (tunnel_processes s') s /\
  w_next_proc w' = S (S (S (S (S (w_next_proc w))))) /\
  w_env w' = w_env w /\
  w_trace w' =
    EvSpawnTunnel (S (S (S (S (w_next_proc w))))) p4 rip r4 server port
    :: EvSpawnTunnel (S (S (S (w_next_proc w)))) p3 rip r3 server port
    :: EvSpawnTunnel (S (S (w_next_proc w))) p2 rip r2 server port
    :: EvSpawnTunnel (S (w_next_proc w)) p1 rip r1 server port
    :: EvSpawnTunnel (w_next_proc w) p0 rip r0 server port
    :: w_trace w.
Proof.
  intros H. cbn [create_tunnels] in H.
  inv_bind H. apply _create_ssh_tunnel_Return in Hm as (-> & Hn0 & He0 & Ht0).
  inv_bind H. apply _create_ssh_tunnel_Return in Hm as (-> & Hn1 & He1 & Ht1).
  inv_bind H. apply _create_ssh_tunnel_Return in Hm as (-> & Hn2 & He2 & Ht2).
  inv_bind H. apply _create_ssh_tunnel_Return in Hm as (-> & Hn3 & He3 & Ht3).
  inv_bind H. apply _create_ssh_tunnel_Return in Hm as (-> & Hn4 & He4 & Ht4).
  inv_prim H. cbn.
  rewrite Ht4, Ht3, Ht2, Ht1, Ht0, Hn4, He4, He3, He2, He1, He0.
  rewrite Hn3, Hn2, Hn1, Hn0. repeat split; reflexivity.
Qed.

Lemma select_ports_Return (count : nat) s w ports s' w' :
  select_ports (Z.of_nat count) s w = (Return ports, s', w') ->
  s' = s /\ length ports = count /\ NoDup ports /\ Forall (port_ok s) ports.
Proof.
  intros H.
  destruct (select_ports_spec count s w) as (r & w1 & Hs & _ & Hr).
  rewrite Hs in H. inversion H; subst. split; [reflexivity | exact Hr].
Qed.

(** [_tunnel_to_kernel], when it returns: five ports of [select_ports],
    bound in turn and closed, then one tunnel for each channel, spawned
    from the local port to the port of the payload at the payload's ip,
    through [server]; the process of each is tracked under the name of the
    channel. *)
Lemma _tunnel_to_kernel_Return cf server port s w lports s' w' :
  _tunnel_to_kernel cf server port s w = (Return lports, s', w') ->
  exists p0 p1 p2 p3 p4 r0 r1 r2 r3 r4 rip,
    let h := w_next_proc w in
    lports = [p0; p1; p2; p3; p4] /\
    NoDup lports /\ Forall (port_ok s) lports /\
    tunnel_processes s' =
      <["CONTROL" := S (S (S (S h)))]>
        (<["HB" := S (S (S h))]>
           (<["STDIN" := S (S h)]>
              (<["IOPUB" := S h]>
                 (<["SHELL" := h]> (tunnel_processes s))))) /\
    s' = set_tunnel_processes (tunnel_processes s') s /\
    cf !! "shell_port" = Some r0 /\ cf !! "iopub_port" = Some r1 /\
    cf !! "stdin_port" = Some r2 /\ cf !! "hb_port" = Some r3 /\
    cf !! "control_port" = Some r4 /\ cf !! "ip" = Some rip /\
    w_next_proc w' = S (S (S (S (S h)))) /\
    w_env w' = w_env w /\
    w_trace w' =
      EvSpawnTunnel (S (S (S (S h)))) p4 rip r4 server port
      :: EvSpawnTunnel (S (S (S h))) p3 rip r3 server port
      :: EvSpawnTunnel (S (S h)) p2 rip r2 server port
      :: EvSpawnTunnel (S h) p1 rip r1 server port
      :: EvSpawnTunnel h p0 rip r0 server port
      :: EvClose p4 :: EvClose p3 :: EvClose p2 :: EvClose p1 :: EvClose p0
      :: EvBind p4 :: EvBind p3 :: EvBind p2 :: EvBind p1 :: EvBind p0
      :: w_trace w.
Proof.
  intros H. unfold _tunnel_to_kernel in H.
  inv_bind H. change 5 with (Z.of_nat 5) in Hm.
  pose proof (select_ports_trace _ _ _ _ _ _ Hm) as (Hes & Hns & Hts).
  apply select_ports_Return in Hm as (-> & Hlen & Hnd & Hok).
  destruct a as [|p0 [|p1 [|p2 [|p3 [|p4 [|p5 rest]]]]]]; try discriminate Hlen.
  inv_bind H. unfold getitem in Hm.
  destruct (cf !! "shell_port") as [rp0|] eqn:E0; [|discriminate Hm].
  inv_prim Hm.
  inv_bind H. unfold getitem in Hm.
  destruct (cf !! "iopub_port") as [rp1|] eqn:E1; [|discriminate Hm].
  inv_prim Hm.
  inv_bind H. unfold getitem in Hm.
  destruct (cf !! "stdin_port") as [rp2|] eqn:E2; [|discriminate Hm].
  inv_prim Hm.
  inv_bind H. unfold getitem in Hm.
  destruct (cf !! "hb_port") as [rp3|] eqn:E3; [|discriminate Hm].
  inv_prim Hm.
  inv_bind H. unfold getitem in Hm.
  destruct (cf !! "control_port") as [rp4|] eqn:E4; [|discriminate Hm].
  inv_prim Hm.
  inv_bind H. unfold getitem in Hm.
  destruct (cf !! "ip") as [rip|] eqn:Eip; [|discriminate Hm].
  inv_prim Hm.
  inv_bind H. destruct server as [srv|]; [|discriminate Hm]. inv_prim Hm.
  inv_bind H. unfold try_passwordless_ssh, bind, ask, env, ret in Hm.
  cbn in Hm. inversion Hm; subst; clear Hm.
  inv_bind H.
  match type of Hm with context [if ?b then _ else _] => destruct b end;
    inv_prim Hm.
  inv_bind H. cbn [combine] in Hm.
  apply create_tunnels_Return in Hm as (HT & Hs' & Hn & He & Ht).
  inv_prim H. cbn in HT, Hn, He, Ht.
  cbn in Hts. rewrite Hts in Ht. rewrite Hns in HT, Hn, Ht.
  exists p0, p1, p2, p3, p4. do 6 eexists. cbv zeta.
  split; [reflexivity|]. split; [exact Hnd|]. split; [exact Hok|].
  split; [exact HT|]. split; [exact Hs'|].
  do 6 (split; [reflexivity|]).
  split; [exact Hn|]. split; [congruence|]. exact Ht.
Qed.

(** [_tunnel_to_port], when it returns: one port of [select_ports], bound
    and closed, then the tunnel from it to [rport] at [rip]. *)
Lemma _tunnel_to_port_Return kc rip rport server port s w local_port s' w' :
  _tunnel_to_port kc rip rport server port s w = (Return local_port, s', w') ->
  port_ok s local_port /\
  s' = set_tunnel_processes
         (<[channel_value kc := w_next_proc w]> (tunnel_processes s)) s /\
  w_env w' = w_env w /\
  w_trace w' =
    EvSpawnTunnel (w_next_proc w) local_port (of_opt_str rip) (PInt rport)
      server port
    :: EvClose local_port :: EvBind local_port :: w_trace w.
Proof.
  intros H. unfold _tunnel_to_port in H.
  inv_bind H. change 1 with (Z.of_nat 1) in Hm.
  pose proof (select_ports_trace _ _ _ _ _ _ Hm) as (Hes & Hns & Hts).
  apply select_ports_Return in Hm as (-> & Hlen & Hnd & Hok).
  destruct a as [|q [|q' rest]]; try discriminate Hlen.
  inv_bind H. inv_prim Hm.
  inv_bind H. apply _create_ssh_tunnel_Return in Hm as (-> & _ & He & Ht).
  inv_prim H. cbn in Hts. rewrite Hts, Hns in Ht. rewrite Hns.
  split; [now inversion Hok|]. split; [reflexivity|].
  split; [congruence | exact Ht].
Qed.

(** [_extract_pid_info] touches neither the tunnels, the connection
    information, the communication port nor the world, and removes only
    the two keys it pops. *)
Lemma _extract_pid_info_Return ci s w ci' s' w' :
  _extract_pid_info ci s w = (Return ci', s', w') ->
  ci' = delete "pgid" (delete "pid" ci) /\
  tunnel_processes s' = tunnel_processes s /\
  connection_info s' = connection_info s /\
  comm_port s' = comm_port s /\ w' = w.
Proof.
  intros H. unfold _extract_pid_info in H.
  set (pid_v := default PNone (ci !! "pid")) in *.
  set (pgid_v := default PNone (delete "pid" ci !! "pgid")) in *.
  inv_bind H.
  assert (Hs0 : tunnel_processes s0 = tunnel_processes s /\
                connection_info s0 = connection_info s /\
                comm_port s0 = comm_port s /\ w0 = w).
  { destruct (truthy pid_v); [|inv_prim Hm; repeat split; reflexivity].
    unfold try_except in Hm.
    destruct (py_int pid_v s w) as [[r1 s1] w1] eqn:Hint.
    assert (Hsw : s1 = s /\ w1 = w) by (destruct pid_v as [| |z|str]; cbn in Hint;
      try destruct (Py.int_of_str _ str); inv_prim Hint; split; reflexivity).
    destruct Hsw as [-> ->].
    destruct r1 as [v|e|].
    - rewrite (bind_Return _ _ _ _ _ _ _ Hint) in Hm. inv_prim Hm.
      repeat split; reflexivity.
    - rewrite (bind_Raise _ _ _ _ _ _ _ Hint) in Hm.
      destruct (is_ValueError e); inv_prim Hm. repeat split; reflexivity.
    - unfold bind in Hm. rewrite Hint in Hm. discriminate Hm. }
  inv_bind H.
  assert (Hs1 : tunnel_processes s1 = tunnel_processes s0 /\
                connection_info s1 = connection_info s0 /\
                comm_port s1 = comm_port s0 /\ w1 = w0).
  { destruct (truthy pgid_v); [|inv_prim Hm0; repeat split; reflexivity].
    unfold try_except in Hm0.
    destruct (py_int pgid_v s0 w0) as [[r1 s2] w2] eqn:Hint.
    assert (Hsw : s2 = s0 /\ w2 = w0) by (destruct pgid_v as [| |z|str];
      cbn in Hint; try destruct (Py.int_of_str _ str); inv_prim Hint;
      split; reflexivity).
    destruct Hsw as [-> ->].
    destruct r1 as [v|e|].
    - rewrite (bind_Return _ _ _ _ _ _ _ Hint) in Hm0. inv_prim Hm0.
      repeat split; reflexivity.
    - rewrite (bind_Raise _ _ _ _ _ _ _ Hint) in Hm0.
      destruct (is_ValueError e); inv_prim Hm0. repeat split; reflexivity.
    - unfold bind in Hm0. rewrite Hint in Hm0. discriminate Hm0. }
  inv_bind H.
  assert (Hs2 : tunnel_processes s2 = tunnel_processes s1 /\
                connection_info s2 = connection_info s1 /\
                comm_port s2 = comm_port s1 /\ w2 = w1).
  { destruct (truthy a || truthy a0);
      [|inv_prim Hm1; repeat split; reflexivity].
    unfold bind, self, update, env, ret in Hm1. cbn in Hm1.
    destruct (negb (e_ip_is_local (w_env w1) (assigned_ip s1)));
      inversion Hm1; subst; repeat split; reflexivity. }
  inv_prim H.
  destruct Hs0 as (Ht0 & Hc0 & Hp0 & Hw0), Hs1 as (Ht1 & Hc1 & Hp1 & Hw1),
    Hs2 as (Ht2 & Hc2 & Hp2 & Hw2).
  split; [reflexivity|]. repeat split; congruence.
Qed.

Lemma getitem_inv d k s w r s' w' :
  getitem d k s w = (r, s', w') ->
  s' = s /\ w' = w /\
  match r with
  | Return v => d !! k = Some v
  | Raise e => d !! k = None /\ e = KeyError_key k
  | OutOfFuel => False
  end.
Proof.
  unfold getitem. destruct (d !! k); intros H; inv_prim H; repeat split.
Qed.

Lemma index_inv {A} (l : list A) i s w r s' w' :
  index l i s w = (r, s', w') ->
  s' = s /\ w' = w /\
  match r with
  | Return v => l !! i = Some v
  | Raise e => l !! i = None
  | OutOfFuel => False
  end.
Proof.
  unfold index. destruct (l !! i); intros H; inv_prim H; repeat split.
Qed.

Lemma py_int_inv v s w r s' w' :
  py_int v s w = (r, s', w') -> s' = s /\ w' = w /\ r <> OutOfFuel.
Proof.
  destruct v as [|b|z|str]; cbn; try destruct (Py.int_of_str _ str);
    intros H; inv_prim H; repeat split; discriminate.
Qed.

Lemma NoDup_consecutive (h : nat) :
  NoDup [h; S h; S (S h); S (S (S h)); S (S (S (S h)))].
Proof.
  repeat (apply NoDup_cons; split;
    [rewrite ?not_elem_of_cons; repeat split; try lia; apply not_elem_of_nil|]).
  apply NoDup_nil_2.
Qed.

(** Rewrite a lookup through literal inserts and deletes. *)
Ltac lookup_literal :=
  repeat first
    [ rewrite lookup_insert_eq
    | rewrite lookup_insert_ne by discriminate
    | rewrite lookup_delete_ne by discriminate ].


(** [int] gives the same in every state of one environment. *)
Lemma py_int_same_env v s w r s' w' :
  py_int v s w = (r, s', w') ->
  forall s0 w0, w_env w0 = w_env w -> py_int v s0 w0 = (r, s0, w0).
Proof.
  intros H s0 w0 He. destruct v as [|b|z|str]; cbn in *;
    unfold bind, env in *; cbn in *; try rewrite He;
    try destruct (Py.int_of_str _ str); inv_prim H; reflexivity.
Qed.

(** C1.  With tunneling enabled, when [_setup_connection_info] has
    processed a received payload (it returned), the payload had the five
    channel ports, [connection_info] has ip ["127.0.0.1"] and, as its five
    channel ports, five pairwise distinct ports that [select_ports]
    allocated locally, and [tunnel_processes] tracks five distinct tunnel
    processes under SHELL, IOPUB, STDIN, HB and CONTROL.  These are the
    ports and the processes of five tunnels that were spawned: the ports
    were bound and closed, in turn, and then each tunnel was spawned from
    its local port to the channel's port in the payload, at the assigned
    ip and through it over the ssh port.  Nothing else was done but, for a
    payload with a communication port, one more bind, close and tunnel
    for that port. *)
Theorem tunneled_connection_info
  (payload : gmap string pyval) (s : Provisioner) (w : World)
  (s' : Provisioner) (w' : World) :
  e_tunneling_enabled (w_env w) = true ->
  _setup_connection_info payload s w = (Return tt, s', w') ->
  exists p0 p1 p2 p3 p4 h0 h1 h2 h3 h4 r0 r1 r2 r3 r4 later,
    NoDup [p0; p1; p2; p3; p4] /\
    Forall (port_ok s) [p0; p1; p2; p3; p4] /\
    connection_info s' !! "ip" = Some (PStr "127.0.0.1") /\
    connection_info s' !! "shell_port" = Some (PInt p0) /\
    connection_info s' !! "iopub_port" = Some (PInt p1) /\
    connection_info s' !! "stdin_port" = Some (PInt p2) /\
    connection_info s' !! "hb_port" = Some (PInt p3) /\
    connection_info s' !! "control_port" = Some (PInt p4) /\
    NoDup [h0; h1; h2; h3; h4] /\
    tunnel_processes s' !! channel_value SHELL = Some h0 /\
    tunnel_processes s' !! channel_value IOPUB = Some h1 /\
    tunnel_processes s' !! channel_value STDIN = Some h2 /\
    tunnel_processes s' !! channel_value HEARTBEAT = Some h3 /\
    tunnel_processes s' !! channel_value CONTROL = Some h4 /\
    is_Some (payload !! "shell_port") /\ is_Some (payload !! "iopub_port") /\
    is_Some (payload !! "stdin_port") /\ is_Some (payload !! "hb_port") /\
    is_Some (payload !! "control_port") /\
    payload !! "shell_port" = Some r0 /\ payload !! "iopub_port" = Some r1 /\
    payload !! "stdin_port" = Some r2 /\ payload !! "hb_port" = Some r3 /\
    payload !! "control_port" = Some r4 /\
    w_trace w' =
      (later ++
       [EvSpawnTunnel h4 p4 (of_opt_str (assigned_ip s)) r4
          (assigned_ip s) ssh_port;
        EvSpawnTunnel h3 p3 (of_opt_str (assigned_ip s)) r3
          (assigned_ip s) ssh_port;
        EvSpawnTunnel h2 p2 (of_opt_str (assigned_ip s)) r2
          (assigned_ip s) ssh_port;
        EvSpawnTunnel h1 p1 (of_opt_str (assigned_ip s)) r1
          (assigned_ip s) ssh_port;
        EvSpawnTunnel h0 p0 (of_opt_str (assigned_ip s)) r0
          (assigned_ip s) ssh_port;
        EvClose p4; EvClose p3; EvClose p2; EvClose p1; EvClose p0;
        EvBind p4; EvBind p3; EvBind p2; EvBind p1; EvBind p0]
       ++ w_trace w)%list /\
    match payload !! "comm_port" with
    | None => later = []
    | Some cp =>
        exists remote hc,
          py_int cp s w = (Return remote, s, w) /\
          tunnel_processes s' !! channel_value COMMUNICATION = Some hc /\
          later =
            [EvSpawnTunnel hc (comm_port s') (of_opt_str (assigned_ip s))
               (PInt remote) (assigned_ip s) ssh_port;
             EvClose (comm_port s'); EvBind (comm_port s')]
    end.
Proof.
  intros Htun H. unfold _setup_connection_info in H.
  unfold bind at 1, self at 1 in H. unfold bind at 1, env at 1 in H.
  rewrite Htun in H.
  set (ci0 := <["ip" := of_opt_str (assigned_ip s)]> payload) in *.
  inv_bind H.
  (* the tunneling branch *)
  unfold bind at 1, update at 1 in Hm.
  inv_bind Hm.
  apply _tunnel_to_kernel_Return in Hm0
    as (p0 & p1 & p2 & p3 & p4 & r0 & r1 & r2 & r3 & r4 & rip & Hk).
  cbv zeta in Hk. cbn [w_next_proc w_env w_trace] in Hk.
  destruct Hk as (-> & Hnd & Hok & HT & Hs1 & I0 & I1 & I2 & I3 & I4 & Iip
                  & Hn1 & He1 & Ht1).
  set (h := w_next_proc w) in *.
  assert (Hrip : rip = of_opt_str (assigned_ip s)).
  { subst ci0. rewrite lookup_insert_eq in Iip. congruence. }
  subst rip.
  unfold index in Hm. cbn [lookup list_lookup] in Hm.
  unfold bind at 1, ret at 1 in Hm. unfold bind at 1, ret at 1 in Hm.
  unfold bind at 1, ret at 1 in Hm. unfold bind at 1, ret at 1 in Hm.
  unfold bind at 1, ret at 1 in Hm.
  set (ci5 := <["control_port" := _]> _) in *.
  assert (Hcomm : ci5 !! "comm_port" = payload !! "comm_port").
  { subst ci5 ci0. lookup_literal. reflexivity. }
  pose proof (eq_refl : tunnel_processes (set_tunneled_connect_info (Some ci0) s)
                        = tunnel_processes s) as HT0.
  assert (Hci :
            tunnel_processes s0 !! "SHELL" = Some h /\
            tunnel_processes s0 !! "IOPUB" = Some (S h) /\
            tunnel_processes s0 !! "STDIN" = Some (S (S h)) /\
            tunnel_processes s0 !! "HB" = Some (S (S (S h))) /\
            tunnel_processes s0 !! "CONTROL" = Some (S (S (S (S h)))) /\
            (a = ci5 \/ exists q, a = <["comm_port" := PInt q]> ci5) /\
            exists later,
              w_trace w0 = (later ++ w_trace w1)%list /\
              match payload !! "comm_port" with
              | None => later = []
              | Some cp =>
                  exists remote hc,
                    py_int cp s w = (Return remote, s, w) /\
                    tunnel_processes s0 !! "EG_COMM" = Some hc /\
                    later =
                      [EvSpawnTunnel hc (comm_port s0)
                         (of_opt_str (assigned_ip s))
                         (PInt remote) (assigned_ip s) ssh_port;
                       EvClose (comm_port s0); EvBind (comm_port s0)]
              end).
  { rewrite <- Hcomm. destruct (ci5 !! "comm_port") as [cp|].
    - unfold getitem in Hm.
      destruct (ci5 !! "ip") as [ipv|]; [|discriminate Hm].
      unfold bind at 1, ret at 1 in Hm. unfold bind at 1, update at 1 in Hm.
      apply bind_inv in Hm
        as [(remote & sa & wa & Hint & Hm) | [(e & _ & Hm) | (_ & Hm)]];
        [|discriminate Hm|discriminate Hm].
      pose proof (py_int_inv _ _ _ _ _ _ Hint) as (-> & -> & _).
      apply (py_int_same_env _ _ _ _ _ _) with (s0 := s) (w0 := w) in Hint;
        [|symmetry; exact He1].
      apply bind_inv in Hm
        as [(lp & sb & wb & Hport & Hm) | [(e & _ & Hm) | (_ & Hm)]];
        [|discriminate Hm|discriminate Hm].
      apply _tunnel_to_port_Return in Hport as (_ & -> & He & Ht).
      unfold bind at 1, update at 1 in Hm. unfold ret in Hm.
      injection Hm as <- <- <-.
      cbn. rewrite HT. lookup_literal.
      repeat (split; [reflexivity|]). split; [eauto|].
      eexists. split; [rewrite Ht;
        refine (@eq_refl _ ([_; _; _] ++ w_trace w1)%list)|].
      do 2 eexists. split; [exact Hint|]. split; reflexivity.
    - unfold ret in Hm. injection Hm as <- <- <-. rewrite HT. lookup_literal.
      repeat (split; [reflexivity|]). split; [eauto|].
      exists []. split; reflexivity. }
  destruct Hci as (T0 & T1 & T2 & T3 & T4 & Ha & later & Hlater & Hcp).
  unfold _update_connection in H.
  apply bind_inv in H
    as [([] & sc & wc & Hnull & H) | [(e & _ & H) | (_ & H)]];
    [|discriminate H|discriminate H].
  destruct (bool_decide (a = ∅)); [discriminate Hnull|].
  unfold ret in Hnull. injection Hnull as <- <-.
  apply bind_inv in H
    as [(ci' & sd & wd & Hex & H) | [(e & _ & H) | (_ & H)]];
    [|discriminate H|discriminate H].
  apply _extract_pid_info_Return in Hex as (-> & HT' & HC' & HP' & ->).
  unfold update in H. injection H as <- <-. cbn. rewrite HT'.
  exists p0, p1, p2, p3, p4.
  exists h, (S h), (S (S h)), (S (S (S h))), (S (S (S (S h)))).
  exists r0, r1, r2, r3, r4, later.
  split; [exact Hnd|]. split; [exact Hok|].
  assert (Hlook : forall (m : gmap string pyval) k v,
            k <> "pid" -> k <> "pgid" -> k <> "comm_port" ->
            ci5 !! k = Some v ->
            (delete "pgid" (delete "pid" a) ∪ m) !! k = Some v).
  { intros m k v Hpid Hpgid Hcomm' Hk. apply lookup_union_Some_l.
    rewrite !lookup_delete_ne by congruence.
    destruct Ha as [-> | (q & ->)]; [exact Hk|].
    rewrite lookup_insert_ne by congruence. exact Hk. }
  repeat (split; [apply Hlook; try discriminate; subst ci5; lookup_literal;
                  reflexivity|]).
  split; [apply NoDup_consecutive|].
  repeat (split; [assumption|]).
  subst ci0.
  rewrite !lookup_insert_ne in I0, I1, I2, I3, I4 by discriminate.
  repeat (split; [solve [eauto]|]).
  split; [rewrite Hlater, Ht1; reflexivity|].
  rewrite HP'. exact Hcp.
Qed.

Example setup_connection_info_tunneled :
  let r := _setup_connection_info Examples.payload Examples.assigned
             (Examples.world_of (Examples.quiet true)) in
  r.1.1 = Return tt /\
  connection_info r.1.2 !! "ip" = Some (PStr "127.0.0.1") /\
  connection_info r.1.2 !! "shell_port" = Some (PInt 49152) /\
  connection_info r.1.2 !! "control_port" = Some (PInt 49156) /\
  tunnel_processes r.1.2 !! "HB" = Some 3%nat /\
  (tunneled_connect_info r.1.2 ≫= lookup "ip") = Some (PStr "10.0.0.5") /\
  head (w_trace r.2)
  = Some (EvSpawnTunnel 4%nat 49156 (PStr "10.0.0.5") (PInt 5)
            (Some "10.0.0.5") 22) /\
  length (w_trace r.2) = 15%nat.
Proof.
  cbv zeta. repeat match goal with |- _ /\ _ => split end;
    vm_compute; reflexivity.
Qed.

Example setup_connection_info_direct :
  let r := _setup_connection_info Examples.payload Examples.assigned
             (Examples.world_of (Examples.quiet false)) in
  r.1.1 = Return tt /\
  connection_info r.1.2 !! "ip" = Some (PStr "10.0.0.5") /\
  connection_info r.1.2 !! "shell_port" = Some (PInt 1) /\
  tunnel_processes r.1.2 !! "SHELL" = None /\
  w_trace r.2 = [].
Proof.
  cbv zeta. repeat match goal with |- _ /\ _ => split end;
    vm_compute; reflexivity.
Qed.

Lemma outcome_eta {A} (x : outcome A * Provisioner * World) a :
  x.1.1 = Return a -> x = (Return a, x.1.2, x.2).
Proof. destruct x as [[o s] w]. cbn. intros ->. reflexivity. Qed.

Lemma tunneled_connection_info_witness :
  let s := Examples.assigned in
  let w := Examples.world_of (Examples.quiet true) in
  let r := _setup_connection_info Examples.payload s w in
  e_tunneling_enabled (w_env w) = true /\
  r = (Return tt, r.1.2, r.2) /\
  exists p0 p1 p2 p3 p4 h0 h1 h2 h3 h4 r0 r1 r2 r3 r4 later,
    NoDup [p0; p1; p2; p3; p4] /\
    Forall (port_ok s) [p0; p1; p2; p3; p4] /\
    connection_info r.1.2 !! "ip" = Some (PStr "127.0.0.1") /\
    connection_info r.1.2 !! "shell_port" = Some (PInt p0) /\
    connection_info r.1.2 !! "iopub_port" = Some (PInt p1) /\
    connection_info r.1.2 !! "stdin_port" = Some (PInt p2) /\
    connection_info r.1.2 !! "hb_port" = Some (PInt p3) /\
    connection_info r.1.2 !! "control_port" = Some (PInt p4) /\
    NoDup [h0; h1; h2; h3; h4] /\
    tunnel_processes r.1.2 !! channel_value SHELL = Some h0 /\
    tunnel_processes r.1.2 !! channel_value IOPUB = Some h1 /\
    tunnel_processes r.1.2 !! channel_value STDIN = Some h2 /\
    tunnel_processes r.1.2 !! channel_value HEARTBEAT = Some h3 /\
    tunnel_processes r.1.2 !! channel_value CONTROL = Some h4 /\
    is_Some (Examples.payload !! "shell_port") /\
    is_Some (Examples.payload !! "iopub_port") /\
    is_Some (Examples.payload !! "stdin_port") /\
    is_Some (Examples.payload !! "hb_port") /\
    is_Some (Examples.payload !! "control_port") /\
    Examples.payload !! "shell_port" = Some r0 /\
    Examples.payload !! "iopub_port" = Some r1 /\
    Examples.payload !! "stdin_port" = Some r2 /\
    Examples.payload !! "hb_port" = Some r3 /\
    Examples.payload !! "control_port" = Some r4 /\
    w_trace r.2 =
      (later ++
       [EvSpawnTunnel h4 p4 (of_opt_str (assigned_ip s)) r4
          (assigned_ip s) ssh_port;
        EvSpawnTunnel h3 p3 (of_opt_str (assigned_ip s)) r3
          (assigned_ip s) ssh_port;
        EvSpawnTunnel h2 p2 (of_opt_str (assigned_ip s)) r2
          (assigned_ip s) ssh_port;
        EvSpawnTunnel h1 p1 (of_opt_str (assigned_ip s)) r1
          (assigned_ip s) ssh_port;
        EvSpawnTunnel h0 p0 (of_opt_str (assigned_ip s)) r0
          (assigned_ip s) ssh_port;
        EvClose p4; EvClose p3; EvClose p2; EvClose p1; EvClose p0;
        EvBind p4; EvBind p3; EvBind p2; EvBind p1; EvBind p0]
       ++ w_trace w)%list /\
    match Examples.payload !! "comm_port" with
    | None => later = []
    | Some cp =>
        exists remote hc,
          py_int cp s w = (Return remote, s, w) /\
          tunnel_processes r.1.2 !! channel_value COMMUNICATION = Some hc /\
          later =
            [EvSpawnTunnel hc (comm_port r.1.2) (of_opt_str (assigned_ip s))
               (PInt remote) (assigned_ip s) ssh_port;
             EvClose (comm_port r.1.2); EvBind (comm_port r.1.2)]
    end.
Proof.
  intros s w r.
  assert (Htun : e_tunneling_enabled (w_env w) = true) by reflexivity.
  assert (Hrun : r = (Return tt, r.1.2, r.2))
    by (apply outcome_eta; vm_compute; reflexivity).
  split; [exact Htun|]. split; [exact Hrun|].
  unfold r in Hrun at 1.
  exact (tunneled_connection_info Examples.payload s w r.1.2 r.2 Htun Hrun).
Defined.

(** ** The confirmation loop *)

Lemma quiet_step_trans d1 d2 w1 w2 w3 :
  quiet_step d1 w1 w2 -> quiet_step d2 w2 w3 -> quiet_step (d1 + d2) w1 w3.
Proof.
  intros (He1 & Hk1 & Ht1 & Hz1) (He2 & Hk2 & Ht2 & Hz2).
  repeat split; try congruence; try lia.
  intros Hz. rewrite Hz2, Hz1 by (rewrite ?He1; exact Hz). lia.
Qed.

Ltac solve_quiet :=
  unfold quiet_step, only_sleep_takes_time;
  cbn [w_env w_trace w_now w_tick w_open w_next_proc count_kills];
  repeat split; try lia;
  try (let Hz := fresh "Hz" in intros Hz; rewrite ?Hz; lia).

Lemma get_container_status_spec iteration s w :
  exists status s' w',
    Container.get_container_status iteration s w = (Return status, s', w') /\
    same_launch s s' /\ quiet_step 0 w w'.
Proof.
  unfold Container.get_container_status. prim. cbn.
  destruct (cs_assigned _) as [[host aip]|]; cbn;
    do 3 eexists; (split; [reflexivity|]); cbn;
    (split; [repeat split|]); solve_quiet.
Qed.

Lemma receive_connection_info_timeout s w :
  never_arrives (w_env w) ->
  exists w',
    receive_connection_info Container.kill s w = (Return false, s, w') /\
    quiet_step 0 w w'.
Proof.
  intros Hnever. destruct (Hnever (w_tick w)) as (ex & Hex & Htimeout).
  unfold receive_connection_info. prim. cbn. rewrite Hex. cbn.
  rewrite Htimeout. eexists. split; [reflexivity|]. solve_quiet.
Qed.

Lemma detect_launch_failure_no_fault s w :
  no_launch_fault (w_env w) ->
  exists w',
    detect_launch_failure s w = (Return tt, s, w') /\ quiet_step 0 w w'.
Proof.
  intros Hno. unfold detect_launch_failure, proc_poll. prim. cbn.
  destruct (local_proc s) as [lp|]; cbn.
  - destruct (e_proc_poll (w_env w) (w_tick w) lp) as [rc|] eqn:Hpoll; cbn.
    + apply Hno in Hpoll.
      replace (negb (rc =? 0) && (rc >? 0)) with false by lia.
      eexists. split; [reflexivity|]. solve_quiet.
    + eexists. split; [reflexivity|]. solve_quiet.
  - eexists. split; [reflexivity|]. solve_quiet.
Qed.

(** [handle_launch_timeout]: the sleep, then either nothing more, or one
    [kill] followed by the timeout error. *)
Lemma handle_launch_timeout_spec s w t0 :
  start_time s = Some t0 ->
  exists w1, quiet_step poll_interval w w1 /\
    if w_now w1 - t0 >? launch_timeout s then
      exists w', handle_launch_timeout Container.kill s w
                 = (Raise TimeoutError_launch, s, w') /\
        w_env w' = w_env w /\
        (w_trace w' = EvKill false :: w_trace w1 \/
         w_trace w' = EvTerminateResources false :: EvKill false :: w_trace w1) /\
        w_now w1 <= w_now w' /\
        (only_sleep_takes_time (w_env w) -> w_now w' = w_now w1)
    else handle_launch_timeout Container.kill s w = (Return tt, s, w1).
Proof.
  intros Hstart.
  unfold handle_launch_timeout, get_time_diff, Container.kill,
    Container.terminate_container_resources.
  exists (sleep poll_interval s w).2.
  prim. cbn -[Z.add Z.sub Z.gtb Z.of_nat]. rewrite Hstart.
  cbn -[Z.add Z.sub Z.gtb Z.of_nat].
  split; [solve_quiet|].
  destruct (_ >? launch_timeout s); [|reflexivity].
  destruct (truthy (of_opt_str (container_name s)));
    cbn -[Z.add Z.sub Z.gtb Z.of_nat].
  - eexists. split; [reflexivity|]. cbn [w_env w_trace w_now].
    split; [reflexivity|].
    split; [right; reflexivity|].
    split; [lia|]. intros Hz. rewrite !Hz. lia.
  - eexists. split; [reflexivity|]. cbn [w_env w_trace w_now].
    split; [reflexivity|].
    split; [left; reflexivity|].
    split; [lia|]. intros Hz. lia.
Qed.

(** One iteration of the loop when connection information does not arrive
    and the local process shows no fault: it ends in the timeout error
    when the time is up after the sleep, and otherwise asks for one more
    iteration. *)
Lemma confirm_iteration_spec i s w t0 :
  start_time s = Some t0 ->
  never_arrives (w_env w) -> no_launch_fault (w_env w) ->
  exists w1, quiet_step poll_interval w w1 /\
    if w_now w1 - t0 >? launch_timeout s then
      exists w', Container.confirm_iteration i s w
                 = (Raise TimeoutError_launch, s, w') /\
        w_env w' = w_env w /\
        (w_trace w' = EvKill false :: w_trace w1 \/
         w_trace w' = EvTerminateResources false :: EvKill false :: w_trace w1) /\
        w_now w1 <= w_now w' /\
        (only_sleep_takes_time (w_env w) -> w_now w' = w_now w1)
    else
      exists s' w', Container.confirm_iteration i s w = (Return false, s', w') /\
        same_launch s s' /\ quiet_step 0 w1 w'.
Proof.
  intros Hstart Hnever Hno.
  destruct (handle_launch_timeout_spec s w t0 Hstart) as (w1 & Hq1 & Hh).
  exists w1. split; [exact Hq1|].
  unfold Container.confirm_iteration.
  destruct (w_now w1 - t0 >? launch_timeout s).
  - destruct Hh as (w' & Hh & Hrest). exists w'.
    rewrite (bind_Raise _ _ _ _ _ _ _ Hh). split; [reflexivity | exact Hrest].
  - rewrite (bind_Return _ _ _ _ _ _ _ Hh).
    assert (He1 : w_env w1 = w_env w) by apply Hq1.
    destruct (get_container_status_spec (Some i) s w1)
      as (status & s2 & w2 & Hs & Hsame & Hq2).
    rewrite (bind_Return _ _ _ _ _ _ _ Hs).
    assert (He2 : w_env w2 = w_env w) by (destruct Hq2; congruence).
    destruct (truthy (of_opt_str status)).
    + unfold self at 1. unfold bind at 1.
      destruct (negb (String.eqb (assigned_host s2) EmptyString)).
      * destruct (receive_connection_info_timeout s2 w2) as (w3 & Hr & Hq3);
          [rewrite He2; exact Hnever|].
        rewrite (bind_Return _ _ _ _ _ _ _ Hr).
        do 2 eexists. split; [reflexivity|]. split.
        -- destruct Hsame as (? & ? & ? & ?). repeat split; assumption.
        -- replace 0 with (0 + 0) by lia. eapply quiet_step_trans; eassumption.
      * do 2 eexists. split; [reflexivity|]. split; assumption.
    + destruct (detect_launch_failure_no_fault s2 w2) as (w3 & Hd & Hq3);
        [rewrite He2; exact Hno|].
      rewrite (bind_Return _ _ _ _ _ _ _ Hd).
      do 2 eexists. split; [reflexivity|]. split; [assumption|].
      replace 0 with (0 + 0) by lia. eapply quiet_step_trans; eassumption.
Qed.

(** The loop from any iteration: [k] bounds the number of poll intervals
    that fit into the time left. *)
Lemma confirm_loop_times_out (k : nat) : forall i s w t0,
  start_time s = Some t0 ->
  never_arrives (w_env w) -> no_launch_fault (w_env w) ->
  launch_timeout s - (w_now w - t0) < poll_interval * Z.of_nat k ->
  exists n s' w',
    (forall fuel, (n <= fuel)%nat ->
       Container.confirm_loop fuel i s w = (Raise TimeoutError_launch, s', w')) /\
    (exists old,
       (w_trace w' = EvKill false :: old \/
        w_trace w' = EvTerminateResources false :: EvKill false :: old) /\
       count_kills old = count_kills (w_trace w)) /\
    launch_timeout s < w_now w' - t0 /\
    (only_sleep_takes_time (w_env w) ->
     w_now w' = w_now w + poll_interval * Z.of_nat n /\
     (w_now w - t0 <= launch_timeout s ->
      w_now w' - t0 <= launch_timeout s + poll_interval)).
Proof.
  induction k as [|k IH]; intros i s w t0 Hstart Hnever Hno Hleft;
    destruct (confirm_iteration_spec (i + 1) s w t0 Hstart Hnever Hno)
      as (w1 & Hq1 & Hit);
    pose proof Hq1 as (He1 & Hk1 & Ht1 & Hz1);
    destruct (Z.gtb_spec (w_now w1 - t0) (launch_timeout s)) as [Hup|Hnot].
  1, 3: destruct Hit as (w' & Hit & He' & Htr & Hnow & Hz');
    exists 1%nat, s, w'; split;
    [ intros [|fuel] Hfuel; [lia|]; cbn [Container.confirm_loop];
      rewrite (bind_Raise _ _ _ _ _ _ _ Hit); reflexivity
    | split;
      [ exists (w_trace w1); split; [exact Htr | exact Hk1]
      | split; [lia|]; intros Hz; rewrite (Hz' Hz), (Hz1 Hz);
        unfold poll_interval in *; split; lia ] ].
  - unfold poll_interval in *. lia.
  - destruct Hit as (s2 & w2 & Hit & Hsame & Hq2).
    pose proof Hq2 as (He2 & Hk2 & Ht2 & Hz2).
    destruct Hsame as (Hst & Hlt & _ & _).
    destruct (IH (i + 1) s2 w2 t0) as (n & s' & w' & Hloop & Htr & Hlow & Hz);
      [ congruence | rewrite He2, He1; exact Hnever
      | rewrite He2, He1; exact Hno
      | rewrite Hlt; unfold poll_interval in *; lia |].
    exists (S n), s', w'. split; [|split; [|split]].
    + intros [|fuel] Hfuel; [lia|]. cbn [Container.confirm_loop].
      rewrite (bind_Return _ _ _ _ _ _ _ Hit). apply Hloop. lia.
    + destruct Htr as (old & Htr & Hold). exists old.
      split; [exact Htr | congruence].
    + rewrite <- Hlt. exact Hlow.
    + intros Hzero.
      destruct Hz as (Hn & Hbound); [rewrite He2, He1; exact Hzero|].
      rewrite Hlt in Hbound.
      rewrite (Hz2 ltac:(rewrite He1; exact Hzero)), (Hz1 Hzero) in *.
      unfold poll_interval in *. split; [lia|]. intros _. apply Hbound. lia.
Qed.

(** C2 (as amended).  In a confirmation run where every wait for
    connection information times out and the local process shows no
    fault, the loop terminates (some number [n] of iterations is enough,
    and more fuel changes nothing) by raising the launch-timeout error at
    the first check after a sleep that finds more than [launch_timeout]
    elapsed; [kill] is entered exactly once, and its events are the last
    ones before the error.  When only the sleeps take time, the error
    comes after [n] poll intervals, at most one poll interval after
    [launch_timeout]. *)
Theorem confirmation_times_out (s : Provisioner) (w : World) :
  never_arrives (w_env w) -> no_launch_fault (w_env w) ->
  exists n s' w',
    (forall fuel, (n <= fuel)%nat ->
       Container.confirm_remote_startup fuel s w
       = (Raise TimeoutError_launch, s', w')) /\
    (exists old,
       (w_trace w' = EvKill false :: old \/
        w_trace w' = EvTerminateResources false :: EvKill false :: old) /\
       count_kills old = count_kills (w_trace w)) /\
    count_kills (w_trace w') = S (count_kills (w_trace w)) /\
    launch_timeout s < w_now w' - w_now w /\
    (only_sleep_takes_time (w_env w) -> 0 <= launch_timeout s ->
     w_now w' - w_now w = poll_interval * Z.of_nat n /\
     w_now w' - w_now w <= launch_timeout s + poll_interval).
Proof.
  intros Hnever Hno.
  destruct (confirm_loop_times_out (S (Z.to_nat (launch_timeout s))) 0
              (set_start_time (Some (w_now w)) s) w (w_now w))
    as (n & s' & w' & Hloop & Htr & Hlow & Hz);
    [ reflexivity | exact Hnever | exact Hno
    | cbn [launch_timeout set_start_time]; unfold poll_interval; lia |].
  exists n, s', w'. split; [|split; [|split; [|split]]].
  - intros fuel Hfuel. unfold Container.confirm_remote_startup.
    unfold get_current_time, update. unfold bind at 1 2.
    apply Hloop, Hfuel.
  - exact Htr.
  - destruct Htr as (old & [-> | ->] & Hold); cbn; congruence.
  - exact Hlow.
  - intros Hzero Hpos. destruct (Hz Hzero) as (Hn & Hbound).
    cbn [launch_timeout set_start_time] in Hbound. split; lia.
Qed.

Lemma confirmation_times_out_witness :
  let s := Examples.constructed "0..0" in
  let w := Examples.world_of (Examples.quiet false) in
  never_arrives (w_env w) /\ no_launch_fault (w_env w) /\
  exists n s' w',
    (forall fuel, (n <= fuel)%nat ->
       Container.confirm_remote_startup fuel s w
       = (Raise TimeoutError_launch, s', w')) /\
    (exists old,
       (w_trace w' = EvKill false :: old \/
        w_trace w' = EvTerminateResources false :: EvKill false :: old) /\
       count_kills old = count_kills (w_trace w)) /\
    count_kills (w_trace w') = S (count_kills (w_trace w)) /\
    launch_timeout s < w_now w' - w_now w /\
    (only_sleep_takes_time (w_env w) -> 0 <= launch_timeout s ->
     w_now w' - w_now w = poll_interval * Z.of_nat n /\
     w_now w' - w_now w <= launch_timeout s + poll_interval).
Proof.
  cbv zeta.
  assert (Hnever : never_arrives
            (w_env (Examples.world_of (Examples.quiet false)))).
  { intros k. exists Timeout_wait. split; reflexivity. }
  assert (Hno : no_launch_fault
            (w_env (Examples.world_of (Examples.quiet false)))).
  { intros k lp rc Hpoll. discriminate Hpoll. }
  split; [exact Hnever|]. split; [exact Hno|].
  exact (confirmation_times_out (Examples.constructed "0..0")
           (Examples.world_of (Examples.quiet false)) Hnever Hno).
Defined.

(** With the default settings the error comes at the 61st check, 30.5 s
    after the start, and [kill] was entered once. *)
Example confirmation_times_out_after_61_checks :
  let r := Container.confirm_remote_startup 61 (Examples.constructed "0..0")
             (Examples.world_of (Examples.quiet false)) in
  r.1.1 = Raise TimeoutError_launch /\ w_now r.2 = 30500 /\
  count_kills (w_trace r.2) = 1%nat /\
  (Container.confirm_remote_startup 60 (Examples.constructed "0..0")
     (Examples.world_of (Examples.quiet false))).1.1 = OutOfFuel.
Proof.
  cbv zeta. repeat match goal with |- _ /\ _ => split end;
    vm_compute; reflexivity.
Qed.

(** C2 as stated fails.  Connection information never arrives in either
    run.  In the first, the local process has exited with code 1 and no
    container status is known: the loop ends at its first iteration, after
    0.5 s of the 30 s, with the launch-failure error and without any
    [kill].  In the second, every status query takes 10 s: the timeout
    error comes 32 s after the start, more than one poll interval after
    the 30 s of [launch_timeout]. *)
Lemma confirmation_may_end_otherwise :
  let faulted := Container.confirm_remote_startup 100
       (set_local_proc (Some 3%nat) (Examples.constructed "0..0"))
       (Examples.world_of
          (Examples.with_proc_poll (fun _ _ => Some 1) (Examples.quiet false))) in
  let slow := Container.confirm_remote_startup 100
       (Examples.constructed "0..0")
       (Examples.world_of
          (Examples.with_elapsed
             (fun k => if Nat.even k then 0%nat else Z.to_nat 10000)
             (Examples.quiet false))) in
  never_arrives (Examples.quiet false) /\
  faulted.1.1 = Raise RuntimeError_launch_failure /\
  w_now faulted.2 = 500 /\
  count_kills (w_trace faulted.2) = 0%nat /\
  slow.1.1 = Raise TimeoutError_launch /\
  w_now slow.2 = 32000 /\
  launch_timeout (Examples.constructed "0..0") + poll_interval < w_now slow.2.
Proof.
  cbv zeta. split.
  { intros k. exists Timeout_wait. split; reflexivity. }
  repeat match goal with |- _ /\ _ => split end; vm_compute; reflexivity.
Qed.

(** ** The invariant behind [shutdown_listener]

    [comm_tunnel_inv] holds after the reset of [pre_launch] and is kept by
    every method of the model that writes [comm_port] or
    [tunnel_processes], however the method ends. *)

Lemma frame_refl s w : frame s w s w.
Proof. repeat split. Qed.

Lemma frame_trans s1 w1 s2 w2 s3 w3 :
  frame s1 w1 s2 w2 -> frame s2 w2 s3 w3 -> frame s1 w1 s3 w3.
Proof. intros (? & ? & ?) (? & ? & ?). repeat split; congruence. Qed.

Lemma framed_ret {A} (a : A) : framed (ret a).
Proof. intros s w. apply frame_refl. Qed.

Lemma framed_raise {A} e : framed (@raise A e).
Proof. intros s w. apply frame_refl. Qed.

Lemma framed_bind {A B} (m : M A) (k : A -> M B) :
  framed m -> (forall a, framed (k a)) -> framed (bind m k).
Proof.
  intros Hm Hk s w. specialize (Hm s w). unfold wp, bind in *.
  destruct (m s w) as [[[a|e|] s1] w1]; try exact Hm.
  specialize (Hk a s1 w1). unfold wp in Hk.
  destruct (k a s1 w1) as [[[b|e|] s2] w2]; eapply frame_trans; eassumption.
Qed.

Lemma framed_try_except {A} (m : M A) (h : exn -> M A) :
  framed m -> (forall e, framed (h e)) -> framed (try_except m h).
Proof.
  intros Hm Hh s w. specialize (Hm s w). unfold wp, try_except in *.
  destruct (m s w) as [[[a|e|] s1] w1]; try exact Hm.
  specialize (Hh e s1 w1). unfold wp in Hh.
  destruct (h e s1 w1) as [[[b|e'|] s2] w2]; eapply frame_trans; eassumption.
Qed.

Lemma framed_if {A} (b : bool) (m1 m2 : M A) :
  framed m1 -> framed m2 -> framed (if b then m1 else m2).
Proof. destruct b; auto. Qed.

Lemma framed_update (f : Provisioner -> Provisioner) :
  (forall s, comm_port (f s) = comm_port s /\
             tunnel_processes (f s) !! channel_value COMMUNICATION
             = tunnel_processes s !! channel_value COMMUNICATION) ->
  framed (update f).
Proof. intros Hf s w. destruct (Hf s). repeat split; assumption. Qed.

Lemma framed_self : framed self.
Proof. intros s w. apply frame_refl. Qed.
Lemma framed_env : framed env.
Proof. intros s w. apply frame_refl. Qed.
Lemma framed_world : framed world.
Proof. intros s w. apply frame_refl. Qed.
Lemma framed_ask : framed ask.
Proof. intros s w. repeat split. Qed.
Lemma framed_emit ev : framed (emit ev).
Proof. intros s w. repeat split. Qed.
Lemma framed_fresh_proc : framed fresh_proc.
Proof. intros s w. repeat split. Qed.

Lemma framed_getitem d k : framed (getitem d k).
Proof. unfold getitem. destruct (d !! k); [apply framed_ret | apply framed_raise]. Qed.

Lemma framed_index {A} (l : list A) i : framed (index l i).
Proof. unfold index. destruct (l !! i); [apply framed_ret | apply framed_raise]. Qed.

Lemma framed_py_int v : framed (py_int v).
Proof.
  destruct v as [|b|z|str]; cbn [py_int];
    try (apply framed_bind; [apply framed_env|];
         intros e; destruct (Py.int_of_str _ str));
    first [apply framed_ret | apply framed_raise].
Qed.

Lemma framed_select_ports (count : nat) : framed (select_ports (Z.of_nat count)).
Proof.
  intros s w. unfold wp.
  destruct (select_ports_spec count s w) as (r & w' & -> & He & Hr).
  destruct r; repeat split; assumption.
Qed.

Create HintDb framed.
#[local] Hint Resolve framed_ret framed_raise framed_bind framed_try_except
  framed_if framed_self framed_env framed_world framed_ask framed_emit
  framed_fresh_proc framed_getitem framed_index framed_py_int : framed.
#[local] Hint Extern 1 (framed (update _)) =>
  apply framed_update; intros; split; reflexivity : framed.
#[local] Hint Extern 1 (framed (match ?x with _ => _ end)) =>
  destruct x : framed.

Lemma framed_try_passwordless_ssh server port :
  framed (try_passwordless_ssh server port).
Proof. unfold try_passwordless_ssh. auto with framed. Qed.

Lemma framed__spawn_ssh_tunnel lp rp rip server port :
  framed (_spawn_ssh_tunnel lp rp rip server port).
Proof. unfold _spawn_ssh_tunnel. auto 10 with framed. Qed.

Lemma framed__create_ssh_tunnel kc lp rp rip server port :
  kc <> COMMUNICATION ->
  framed (_create_ssh_tunnel kc lp rp rip server port).
Proof.
  intros Hkc. unfold _create_ssh_tunnel.
  apply framed_try_except; [|auto with framed].
  apply framed_bind; [apply framed__spawn_ssh_tunnel|].
  intros h. apply framed_update. intros s. split; [reflexivity|].
  cbn [tunnel_processes set_tunnel_processes].
  apply lookup_insert_ne. destruct kc; cbn; congruence.
Qed.

Lemma framed_create_tunnels l rip server port :
  Forall (fun x => x.2.2 <> COMMUNICATION) l ->
  framed (create_tunnels l rip server port).
Proof.
  induction 1 as [|[lp [rp kc]] l Hkc _ IH]; cbn [create_tunnels].
  - apply framed_ret.
  - apply framed_bind; [apply framed__create_ssh_tunnel, Hkc | intros _; exact IH].
Qed.

Lemma framed__tunnel_to_kernel cf server port :
  framed (_tunnel_to_kernel cf server port).
Proof.
  unfold _tunnel_to_kernel.
  apply framed_bind; [apply (framed_select_ports 5)|]. intros lports.
  do 6 (apply framed_bind; [apply framed_getitem|]; intros ?).
  apply framed_bind; [destruct server; auto with framed|]. intros ?.
  apply framed_bind; [apply framed_try_passwordless_ssh|]. intros ?.
  apply framed_bind; [auto with framed|]. intros _.
  apply framed_bind; [|auto with framed].
  apply framed_create_tunnels.
  destruct lports as [|p0 [|p1 [|p2 [|p3 [|p4 [|p5 rest]]]]]]; cbn [combine];
    repeat (apply Forall_cons_2; [cbn; discriminate|]); apply Forall_nil_2.
Qed.

Lemma framed__extract_pid_info ci : framed (_extract_pid_info ci).
Proof. unfold _extract_pid_info. auto 20 with framed. Qed.

Lemma framed__update_connection ci : framed (_update_connection ci).
Proof.
  unfold _update_connection.
  apply framed_bind; [auto with framed|]. intros _.
  apply framed_bind; [apply framed__extract_pid_info|]. intros ?.
  auto with framed.
Qed.

(** However [_tunnel_to_port] ends for the communication channel: a
    returned port is a real one; an exception leaves the tunnels alone. *)
Lemma _tunnel_to_port_COMMUNICATION rip rport server port s w :
  wp (_tunnel_to_port COMMUNICATION rip rport server port)
    (fun local_port s' w' =>
       w_env w' = w_env w /\ 1 <= local_port /\ comm_port s' = comm_port s)
    (fun _ => frame s w) s w.
Proof.
  unfold wp, _tunnel_to_port.
  destruct (select_ports_spec 1 s w) as (r & w1 & Hs & He & Hr).
  change (Z.of_nat 1) with 1 in Hs.
  destruct r as [ports|e|]; [| |tauto].
  - rewrite (bind_Return _ _ _ _ _ _ _ Hs).
    destruct Hr as (Hlen & _ & Hok).
    destruct ports as [|q [|q' rest]]; try discriminate Hlen.
    inversion Hok as [|? ? [Hq _] _]; subst.
    unfold index. cbn [lookup list_lookup]. unfold bind at 1. unfold ret at 1.
    unfold _create_ssh_tunnel, _spawn_ssh_tunnel. prim. cbn.
    destruct (e_spawn (w_env w1) (w_tick w1)); cbn.
    + repeat split; try assumption; lia.
    + repeat split; assumption.
  - rewrite (bind_Raise _ _ _ _ _ _ _ Hs). repeat split; assumption.
Qed.

Lemma frame_keeps_inv s w s' w' : frame s w s' w' -> keeps_inv s w s' w'.
Proof.
  intros (He & Hport & Hlook). split; [exact He|].
  unfold comm_tunnel_inv. rewrite Hport, Hlook. auto.
Qed.

Lemma keeps_inv_trans s1 w1 s2 w2 s3 w3 :
  keeps_inv s1 w1 s2 w2 -> keeps_inv s2 w2 s3 w3 -> keeps_inv s1 w1 s3 w3.
Proof.
  intros (He1 & H1) (He2 & H2). split; [congruence|].
  rewrite He1 in H2. auto.
Qed.

Lemma framed_safe P {A} (m : M A) : framed m -> safe P m.
Proof.
  intros Hm s w _. specialize (Hm s w). unfold wp in *.
  destruct (m s w) as [[[a|e|] s1] w1]; apply frame_keeps_inv, Hm.
Qed.

Lemma safe_bind P {A B} (m : M A) (k : A -> M B) :
  safe P m -> (forall a, safe P (k a)) -> safe P (bind m k).
Proof.
  intros Hm Hk s w HP. specialize (Hm s w HP). unfold wp, bind in *.
  destruct (m s w) as [[[a|e|] s1] w1]; try exact Hm.
  assert (HP1 : P (w_env w1)) by (destruct Hm as [-> _]; exact HP).
  specialize (Hk a s1 w1 HP1). unfold wp in Hk.
  destruct (k a s1 w1) as [[[b|e|] s2] w2];
    eapply keeps_inv_trans; eassumption.
Qed.

(** The two places of [_setup_connection_info] that write [comm_port]. *)
Lemma safe_record_comm_port v :
  safe (fun e => e_tunneling_enabled e = false) (update (set_comm_port v)).
Proof.
  intros s w Hoff. unfold wp, update. split; [reflexivity|].
  unfold comm_tunnel_inv. cbn [tunnel_processes set_comm_port].
  intros Hinv Hsome. destruct (Hinv Hsome) as [Hon _]. congruence.
Qed.

Lemma safe_tunnel_comm_port rip rport server port (ci : gmap string pyval) :
  safe (fun e => e_tunneling_enabled e = true)
    (local_port <~ _tunnel_to_port COMMUNICATION rip rport server port ;;
     update (set_comm_port local_port) ;;;
     ret (<["comm_port" := PInt local_port]> ci)).
Proof.
  intros s w Hon.
  pose proof (_tunnel_to_port_COMMUNICATION rip rport server port s w) as Ht.
  unfold wp, bind in *.
  destruct (_tunnel_to_port COMMUNICATION rip rport server port s w)
    as [[[q|e|] s1] w1]; try (apply frame_keeps_inv; exact Ht).
  destruct Ht as (He & Hq & _). cbn. split; [exact He|].
  intros _ _. split; [exact Hon|]. cbn [comm_port set_comm_port]. lia.
Qed.

(** [_setup_connection_info] keeps the invariant, however it ends. *)
Lemma _setup_connection_info_keeps_inv payload s w :
  wp (_setup_connection_info payload)
    (fun _ => keeps_inv s w) (fun _ => keeps_inv s w) s w.
Proof.
  unfold _setup_connection_info.
  unfold wp. unfold self at 1, env at 1. unfold bind at 1 2.
  destruct (e_tunneling_enabled (w_env w)) eqn:Htun.
  - apply (safe_bind (fun e => e_tunneling_enabled e = true)); [| |exact Htun].
    + apply safe_bind; [apply framed_safe; auto with framed|]. intros _.
      apply safe_bind; [apply framed_safe, framed__tunnel_to_kernel|].
      intros tunnel_ports.
      do 5 (apply safe_bind; [apply framed_safe, framed_index|]; intros ?).
      match goal with |- context [match ?x with _ => _ end] => destruct x end;
        [|apply framed_safe, framed_ret].
      apply safe_bind; [apply framed_safe, framed_getitem|]. intros ?.
      apply safe_bind; [apply framed_safe; auto with framed|]. intros _.
      apply safe_bind; [apply framed_safe, framed_py_int|]. intros ?.
      apply safe_tunnel_comm_port.
    + intros ci. apply framed_safe, framed__update_connection.
  - apply (safe_bind (fun e => e_tunneling_enabled e = false)); [| |exact Htun].
    + match goal with |- context [match ?x with _ => _ end] => destruct x end;
        [|apply framed_safe, framed_ret].
      apply safe_bind; [apply framed_safe, framed_getitem|]. intros ?.
      apply safe_bind; [apply framed_safe; auto with framed|]. intros _.
      apply safe_bind; [apply framed_safe, framed_py_int|]. intros ?.
      apply safe_bind; [apply safe_record_comm_port|]. intros _.
      apply framed_safe, framed_ret.
    + intros ci. apply framed_safe, framed__update_connection.
Qed.

Lemma reset_launch_state_inv e s : comm_tunnel_inv e (reset_launch_state s).
Proof.
  unfold comm_tunnel_inv. cbn [tunnel_processes reset_launch_state].
  rewrite lookup_empty. intros [h Hh]. discriminate Hh.
Qed.

Lemma init_inv e int_beyond port_range timeout s :
  __init__ int_beyond port_range timeout = Return s -> comm_tunnel_inv e s.
Proof.
  unfold __init__.
  destruct (_validate_port_range int_beyond port_range) as [[lo up]|ex|];
    intros H; inversion H; subst.
  unfold comm_tunnel_inv. cbn [tunnel_processes].
  rewrite lookup_empty. intros [h Hh]. discriminate Hh.
Qed.

Lemma shutdown_listener_keeps_inv s w :
  wp shutdown_listener (fun _ => keeps_inv s w) (fun _ => keeps_inv s w) s w.
Proof.
  unfold wp. destruct (shutdown_listener s w) as [[r s'] w'] eqn:H.
  unfold shutdown_listener, _send_listener_request, proc_terminate in H.
  prim. cbn in H.
  assert (Hgone : forall T : gmap string proc,
            ~ is_Some (delete "EG_COMM" T !! "EG_COMM")).
  { intros T [h Hh]. rewrite lookup_delete_eq in Hh. discriminate Hh. }
  destruct (comm_port s >? 0) eqn:Hgt; cbn in H.
  - repeat (rewrite Hgt in H; cbn in H).
    destruct (e_listener (w_env w) (w_tick w)); cbn in H;
      destruct (tunnel_processes s !! "EG_COMM"); cbn in H;
      inversion H; subst; (split; [reflexivity|]); auto;
      intros _ Hsome; apply Hgone in Hsome; contradiction.
  - inversion H; subst. split; auto.
Qed.

Lemma safe_try_except P {A} (m : M A) (h : exn -> M A) :
  safe P m -> (forall e, safe P (h e)) -> safe P (try_except m h).
Proof.
  intros Hm Hh s w HP. specialize (Hm s w HP). unfold wp, try_except in *.
  destruct (m s w) as [[[a|e|] s1] w1]; try exact Hm.
  assert (HP1 : P (w_env w1)) by (destruct Hm as [-> _]; exact HP).
  specialize (Hh e s1 w1 HP1). unfold wp in Hh.
  destruct (h e s1 w1) as [[[b|e'|] s2] w2];
    eapply keeps_inv_trans; eassumption.
Qed.

Lemma safe__setup_connection_info ci :
  safe (fun _ => True) (_setup_connection_info ci).
Proof. intros s w _. apply _setup_connection_info_keeps_inv. Qed.

Lemma framed_sleep ms : framed (sleep ms).
Proof. intros s w. repeat split. Qed.

Lemma framed_get_current_time : framed get_current_time.
Proof. intros s w. apply frame_refl. Qed.

Lemma framed_kill restart : framed (Container.kill restart).
Proof.
  unfold Container.kill, Container.terminate_container_resources.
  auto 10 with framed.
Qed.

Lemma framed_handle_launch_timeout :
  framed (handle_launch_timeout Container.kill).
Proof.
  unfold handle_launch_timeout, get_time_diff.
  apply framed_bind; [apply framed_sleep|]. intros _.
  apply framed_bind; [apply framed_self|]. intros s.
  apply framed_bind.
  - apply framed_bind; [apply framed_get_current_time|]. intros now.
    destruct (start_time s); auto with framed.
  - intros d. apply framed_if; [|apply framed_ret].
    apply framed_bind; [apply framed_kill | auto with framed].
Qed.

Lemma framed_get_container_status iteration :
  framed (Container.get_container_status iteration).
Proof.
  unfold Container.get_container_status.
  do 3 (apply framed_bind; [auto with framed|]; intros ?).
  apply framed_bind; [|auto with framed].
  destruct (cs_assigned _) as [[host aip]|]; auto with framed.
Qed.

Lemma framed_detect_launch_failure : framed detect_launch_failure.
Proof.
  unfold detect_launch_failure, proc_poll, proc_wait. auto 20 with framed.
Qed.

Lemma safe_receive_connection_info :
  safe (fun _ => True) (receive_connection_info Container.kill).
Proof.
  unfold receive_connection_info. apply safe_try_except.
  - apply safe_bind; [apply framed_safe, framed_ask|]. intros k.
    apply safe_bind; [apply framed_safe, framed_env|]. intros e.
    destruct (e_connection_info e k) as [ci|ex].
    + apply safe_bind; [apply safe__setup_connection_info|]. intros _.
      apply framed_safe, framed_ret.
    + apply framed_safe, framed_raise.
  - intros ex. apply framed_safe. apply framed_if; [apply framed_ret|].
    apply framed_bind; [apply framed_kill | auto with framed].
Qed.

Lemma safe_confirm_iteration i :
  safe (fun _ => True) (Container.confirm_iteration i).
Proof.
  unfold Container.confirm_iteration.
  apply safe_bind; [apply framed_safe, framed_handle_launch_timeout|].
  intros _.
  apply safe_bind; [apply framed_safe, framed_get_container_status|].
  intros status.
  destruct (truthy (of_opt_str status)).
  - apply safe_bind; [apply framed_safe, framed_self|]. intros s.
    destruct (negb (String.eqb (assigned_host s) EmptyString));
      [|apply framed_safe, framed_ret].
    apply safe_bind; [apply safe_receive_connection_info|]. intros ready.
    apply framed_safe. auto with framed.
  - apply framed_safe.
    apply framed_bind; [apply framed_detect_launch_failure|].
    intros _. apply framed_ret.
Qed.

(** The whole confirmation keeps the invariant, however it ends. *)
Lemma confirm_remote_startup_keeps_inv fuel s w :
  wp (Container.confirm_remote_startup fuel)
    (fun _ => keeps_inv s w) (fun _ => keeps_inv s w) s w.
Proof.
  assert (Hloop : forall fuel i, safe (fun _ => True) (Container.confirm_loop fuel i)).
  { clear. induction fuel as [|fuel IH]; intros i; cbn [Container.confirm_loop].
    - intros s w _. split; auto.
    - apply safe_bind; [apply safe_confirm_iteration|]. intros ready.
      destruct ready; [apply framed_safe, framed_ret | apply IH]. }
  assert (Hall : safe (fun _ => True) (Container.confirm_remote_startup fuel)).
  { unfold Container.confirm_remote_startup.
    apply safe_bind; [apply framed_safe, framed_get_current_time|]. intros now.
    apply safe_bind; [apply framed_safe; auto with framed|]. intros _.
    apply Hloop. }
  apply Hall. exact I.
Qed.

(** * Further properties *)

(** ** Relations that methods respect *)

#[global] Instance steady_preorder : Preorder4 steady.
Proof.
  split.
  - intros s w. repeat split.
  - intros s1 w1 s2 w2 s3 w3 H1 H2. unfold steady in *.
    repeat match goal with H : _ /\ _ |- _ => destruct H end.
    repeat split; congruence.
Qed.

#[global] Instance untouched_preorder : Preorder4 untouched.
Proof.
  split.
  - intros s w. repeat split.
  - intros s1 w1 s2 w2 s3 w3 H1 H2. unfold untouched in *.
    repeat match goal with H : _ /\ _ |- _ => destruct H end.
    repeat split; congruence.
Qed.

Section Respects.

Context (R : Provisioner -> World -> Provisioner -> World -> Prop)
  `{!Preorder4 R} (Ex : option exn -> Prop).

Lemma respects_ret {A} (a : A) : respects R Ex (ret a).
Proof. intros s w. unfold wp; cbn. apply rel_refl. Qed.

Lemma respects_raise {A} e : Ex (Some e) -> respects R Ex (@raise A e).
Proof. intros He s w. unfold wp; cbn. split; [apply rel_refl | exact He]. Qed.

Lemma respects_out_of_fuel {A} : Ex None -> respects R Ex (@out_of_fuel A).
Proof. intros He s w. unfold wp; cbn. split; [apply rel_refl | exact He]. Qed.

Lemma respects_bind {A B} (m : M A) (k : A -> M B) :
  respects R Ex m -> (forall a, respects R Ex (k a)) ->
  respects R Ex (bind m k).
Proof.
  intros Hm Hk s w. specialize (Hm s w). unfold wp, bind in *.
  destruct (m s w) as [[[a|e|] s1] w1]; try exact Hm.
  specialize (Hk a s1 w1). unfold wp in Hk.
  destruct (k a s1 w1) as [[[b|e|] s2] w2];
    try (destruct Hk as [Hk ?]; split; [|assumption]);
    eapply rel_trans; eassumption.
Qed.

(** [try: m except Exception: h]: whatever [m] raises is handled. *)
Lemma respects_try_except {A} (m : M A) (h : exn -> M A) :
  respects R (fun oe => match oe with Some _ => True | None => Ex None end) m ->
  (forall e, respects R Ex (h e)) ->
  respects R Ex (try_except m h).
Proof.
  intros Hm Hh s w. specialize (Hm s w). unfold wp, try_except in *.
  destruct (m s w) as [[[a|e|] s1] w1]; try exact Hm.
  destruct Hm as [Hm _].
  specialize (Hh e s1 w1). unfold wp in Hh.
  destruct (h e s1 w1) as [[[b|e'|] s2] w2];
    try (destruct Hh as [Hh ?]; split; [|assumption]);
    eapply rel_trans; eassumption.
Qed.

Lemma respects_if {A} (b : bool) (m1 m2 : M A) :
  respects R Ex m1 -> respects R Ex m2 -> respects R Ex (if b then m1 else m2).
Proof. destruct b; auto. Qed.

Lemma respects_self : respects R Ex self.
Proof. intros s w. unfold wp; cbn. apply rel_refl. Qed.
Lemma respects_env : respects R Ex env.
Proof. intros s w. unfold wp; cbn. apply rel_refl. Qed.
Lemma respects_world : respects R Ex world.
Proof. intros s w. unfold wp; cbn. apply rel_refl. Qed.
Lemma respects_get_current_time : respects R Ex get_current_time.
Proof. intros s w. unfold wp; cbn. apply rel_refl. Qed.

(** A step that always returns. *)
Lemma respects_step {A} (m : M A) :
  (forall s w, exists a s' w', m s w = (Return a, s', w') /\ R s w s' w') ->
  respects R Ex m.
Proof.
  intros Hm s w. destruct (Hm s w) as (a & s' & w' & Heq & HR).
  unfold wp. rewrite Heq. exact HR.
Qed.

End Respects.

Lemma respects_weaken R (Ex Ex' : option exn -> Prop) {A} (m : M A) :
  (forall oe, Ex oe -> Ex' oe) -> respects R Ex m -> respects R Ex' m.
Proof.
  intros Himp Hm s w. specialize (Hm s w). unfold wp in *.
  destruct (m s w) as [[[a|e|] s1] w1]; try exact Hm;
    destruct Hm as [? ?]; split; auto.
Qed.

(** The same relation, with what is known otherwise of the way [m] ends. *)
Lemma respects_ends R (Ex Ex' : option exn -> Prop) {A} (m : M A) :
  respects R Ex m ->
  (forall s w, match (m s w).1.1 with
               | Return _ => True
               | Raise e => Ex' (Some e)
               | OutOfFuel => Ex' None
               end) ->
  respects R Ex' m.
Proof.
  intros Hm Hend s w. specialize (Hm s w). specialize (Hend s w).
  unfold wp in *.
  destruct (m s w) as [[[a|e|] s1] w1]; cbn in Hend; try exact Hm;
    destruct Hm as [? _]; split; assumption.
Qed.

(** [try: m except Exception as e: h e], knowing what [m] may raise. *)
Lemma respects_try_except_with R `{!Preorder4 R} (Ex1 Ex : option exn -> Prop)
  {A} (m : M A) (h : exn -> M A) :
  respects R Ex1 m ->
  (forall e, Ex1 (Some e) -> respects R Ex (h e)) ->
  (Ex1 None -> Ex None) ->
  respects R Ex (try_except m h).
Proof.
  intros Hm Hh Hfuel s w. specialize (Hm s w). unfold wp, try_except in *.
  destruct (m s w) as [[[a|e|] s1] w1]; try exact Hm.
  - destruct Hm as [Hm He].
    specialize (Hh e He s1 w1). unfold wp in Hh.
    destruct (h e s1 w1) as [[[b|e'|] s2] w2];
      try (destruct Hh as [Hh ?]; split; [|assumption]);
      eapply rel_trans; eassumption.
  - destruct Hm as [Hm He]. split; auto.
Qed.

Lemma respects_mono (R R' : Provisioner -> World -> Provisioner -> World -> Prop)
  Ex {A} (m : M A) :
  (forall s w s' w', R s w s' w' -> R' s w s' w') ->
  respects R Ex m -> respects R' Ex m.
Proof.
  intros Himp Hm s w. specialize (Hm s w). unfold wp in *.
  destruct (m s w) as [[[a|e|] s1] w1]; auto;
    destruct Hm as [? ?]; split; auto.
Qed.

Lemma untouched_steady s w s' w' : untouched s w s' w' -> steady s w s' w'.
Proof. intros (-> & He & _ & Hk & _). repeat split; assumption. Qed.

(** Discharge a side condition on the exceptions allowed. *)
Ltac solve_ex :=
  unfold any_exception, any_end; cbn;
  first [reflexivity | exact I | assumption | discriminate].

(** A primitive step that returns, for a concrete relation. *)
Ltac step_returns :=
  first [apply respects_step; [typeclasses eauto | ..] | apply respects_step];
  intros ? ?; do 3 eexists; (split; [reflexivity|]);
  unfold steady, untouched;
  cbn; repeat split; reflexivity.

(** Apply a rule of the relation, the instance found by resolution. *)
Ltac r_bind :=
  first [apply respects_bind; [typeclasses eauto | ..] | apply respects_bind].
Ltac r_raise :=
  first [apply respects_raise; [typeclasses eauto | ..] | apply respects_raise].
Ltac r_step :=
  first [apply respects_step; [typeclasses eauto | ..] | apply respects_step].
Ltac r_try Ex1 :=
  first [apply (respects_try_except_with _ Ex1); [typeclasses eauto | ..]
        | apply (respects_try_except_with _ Ex1)].

Create HintDb respects.
#[local] Hint Resolve steady_preorder untouched_preorder : respects.
#[local] Hint Resolve respects_ret respects_bind respects_if respects_self
  respects_env respects_world respects_get_current_time : respects.
#[local] Hint Extern 1 (respects _ _ (raise _)) =>
  first [apply respects_raise; [typeclasses eauto | ..] | apply respects_raise];
  solve_ex : respects.
#[local] Hint Extern 1 (respects _ _ (update _)) => step_returns : respects.
#[local] Hint Extern 1 (respects _ _ (emit _)) => step_returns : respects.
#[local] Hint Extern 1 (respects _ _ ask) => step_returns : respects.
#[local] Hint Extern 1 (respects _ _ (set_open _)) => step_returns : respects.
#[local] Hint Extern 1 (respects _ _ fresh_proc) => step_returns : respects.
#[local] Hint Extern 1 (respects _ _ (sleep _)) => step_returns : respects.
#[local] Hint Extern 1 (respects _ _ (try_except _ _)) =>
  first [apply respects_try_except; [typeclasses eauto | ..]
        | apply respects_try_except]; [|intros ?] : respects.
#[local] Hint Extern 2 (respects _ _ (match ?x with _ => _ end)) =>
  destruct x : respects.

(** *** The allocator touches nothing but sockets *)

Lemma untouched_randint Ex a b :
  Ex (Some ValueError_empty_randrange) -> respects untouched Ex (randint a b).
Proof. intros HEx. unfold randint. auto 10 with respects. Qed.

Lemma untouched_sock_bind Ex port :
  Ex (Some OverflowError_port) -> Ex (Some (OSError_errno EADDRINUSE)) ->
  respects untouched Ex (sock_bind port).
Proof. intros H1 H2. unfold sock_bind. auto 20 with respects. Qed.

Lemma untouched_close_all Ex sockets : respects untouched Ex (close_all sockets).
Proof.
  induction sockets as [|sock rest IH]; cbn [close_all]; [auto with respects|].
  unfold sock_close. auto 10 with respects.
Qed.

Lemma untouched_try_bind_candidate Ex : respects untouched Ex try_bind_candidate.
Proof.
  unfold try_bind_candidate, _get_candidate_port.
  first [apply respects_try_except; [typeclasses eauto | ..]
        | apply respects_try_except]; [|auto with respects].
  r_bind.
  - r_bind; [auto with respects|].
    intros s. apply respects_if; [auto with respects|].
    apply untouched_randint. exact I.
  - intros port. r_bind; [|auto with respects].
    apply untouched_sock_bind; exact I.
Qed.

Lemma untouched_select_socket_loop fuel : forall retries,
  respects untouched any_end (select_socket_loop fuel retries).
Proof.
  induction fuel as [|fuel IH]; intros retries; cbn [select_socket_loop].
  - first [apply respects_out_of_fuel; [typeclasses eauto | ..]
          | apply respects_out_of_fuel]; exact I.
  - r_bind; [apply untouched_try_bind_candidate|].
    intros [sock|]; [auto with respects|].
    apply respects_if; [|apply IH].
    r_raise; exact I.
Qed.

Lemma untouched_select_socket : respects untouched only_exhausted select_socket.
Proof.
  apply (respects_ends untouched any_end).
  - apply untouched_select_socket_loop.
  - intros s w. destruct (select_socket_spec s w) as (r & w' & -> & _ & Hr).
    cbn. destruct r as [q|e|]; [exact I | | contradiction].
    destruct Hr as [-> _]. reflexivity.
Qed.

Lemma untouched_select_ports_loop count : forall ports,
  respects untouched only_exhausted (select_ports_loop count ports).
Proof.
  induction count as [|count IH]; intros ports; cbn [select_ports_loop].
  - auto with respects.
  - r_bind; [apply untouched_select_socket|].
    intros sock. apply IH.
Qed.

Lemma untouched_select_ports count :
  respects untouched only_exhausted (select_ports count).
Proof.
  unfold select_ports.
  r_bind; [apply untouched_select_ports_loop|].
  intros ports.
  r_bind; [apply untouched_close_all|].
  auto with respects.
Qed.

Lemma respects_getitem R `{!Preorder4 R} Ex d k :
  Ex (Some (KeyError_key k)) -> respects R Ex (getitem d k).
Proof.
  intros HEx. unfold getitem.
  destruct (d !! k); [apply respects_ret | apply respects_raise]; assumption.
Qed.

Lemma respects_index R `{!Preorder4 R} Ex {A} (l : list A) i :
  Ex (Some IndexError_list_index) -> respects R Ex (index l i).
Proof.
  intros HEx. unfold index.
  destruct (l !! i); [apply respects_ret | apply respects_raise]; assumption.
Qed.

Lemma respects_py_int R `{!Preorder4 R} Ex v :
  Ex (Some ValueError_invalid_literal) -> Ex (Some TypeError_operand) ->
  respects R Ex (py_int v).
Proof.
  intros H1 H2. destruct v as [|b|z|str]; cbn [py_int].
  - apply respects_raise; assumption.
  - apply respects_ret; assumption.
  - apply respects_ret; assumption.
  - r_bind; [apply respects_env; assumption|].
    intros e. destruct (Py.int_of_str _ str);
      [apply respects_ret | apply respects_raise]; assumption.
Qed.

#[local] Hint Extern 1 (respects _ _ (getitem _ _)) =>
  apply respects_getitem; [auto with respects .. | solve_ex] : respects.
#[local] Hint Extern 1 (respects _ _ (index _ _)) =>
  apply respects_index; [auto with respects .. | solve_ex] : respects.
#[local] Hint Extern 1 (respects _ _ (py_int _)) =>
  apply respects_py_int; [auto with respects .. | solve_ex | solve_ex]
  : respects.

(** *** The setup of the connection keeps the launch steady *)

Lemma steady_select_ports count : respects steady no_timeout (select_ports count).
Proof.
  apply (respects_mono untouched steady); [apply untouched_steady|].
  apply (respects_weaken untouched only_exhausted);
    [|apply untouched_select_ports].
  intros oe ->. reflexivity.
Qed.

Lemma steady_try_passwordless_ssh server port :
  respects steady no_timeout (try_passwordless_ssh server port).
Proof. unfold try_passwordless_ssh. auto 10 with respects. Qed.

Lemma steady__create_ssh_tunnel kc lp rp rip server port :
  respects steady no_timeout (_create_ssh_tunnel kc lp rp rip server port).
Proof.
  unfold _create_ssh_tunnel, _spawn_ssh_tunnel.
  r_try any_exception;
    [auto 20 with respects | auto with respects | intros H; now apply H].
Qed.

Lemma steady_create_tunnels l rip server port :
  respects steady no_timeout (create_tunnels l rip server port).
Proof.
  induction l as [|[lp [rp kc]] l IH]; cbn [create_tunnels].
  - auto with respects.
  - r_bind; [apply steady__create_ssh_tunnel | intros _; exact IH].
Qed.

Lemma steady__tunnel_to_kernel cf server port :
  respects steady no_timeout (_tunnel_to_kernel cf server port).
Proof.
  unfold _tunnel_to_kernel.
  r_bind; [apply steady_select_ports|].
  intros lports.
  do 6 (r_bind; [auto with respects|]; intros ?).
  r_bind; [auto with respects|]. intros ?.
  r_bind; [apply steady_try_passwordless_ssh|]. intros ?.
  r_bind; [auto with respects|]. intros _.
  r_bind; [apply steady_create_tunnels | auto with respects].
Qed.

Lemma steady__tunnel_to_port kc rip rport server port :
  respects steady no_timeout (_tunnel_to_port kc rip rport server port).
Proof.
  unfold _tunnel_to_port.
  r_bind; [apply steady_select_ports|].
  intros ports.
  r_bind; [auto with respects|]. intros ?.
  r_bind; [apply steady__create_ssh_tunnel | auto with respects].
Qed.

Lemma steady_int_or_ignore v (f : Z -> Provisioner -> Provisioner) :
  (forall z s w, steady s w (f z s) w) ->
  respects steady no_timeout
    (try_except (z <~ py_int v ;; update (f z) ;;; ret v)
       (fun e => if is_ValueError e then ret PNone else raise e)).
Proof.
  intros Hf.
  r_try no_timeout; [| |auto].
  - r_bind; [auto with respects|]. intros z.
    r_bind; [|auto with respects].
    r_step.
    intros s w. do 3 eexists. split; [reflexivity | apply Hf].
  - intros e He. destruct (is_ValueError e); [auto with respects|].
    r_raise; exact He.
Qed.

Lemma steady__extract_pid_info ci :
  respects steady no_timeout (_extract_pid_info ci).
Proof.
  unfold _extract_pid_info.
  r_bind; [|].
  { apply respects_if; [|auto with respects].
    apply steady_int_or_ignore. intros; repeat split. }
  intros pid_v.
  r_bind; [|].
  { apply respects_if; [|auto with respects].
    apply steady_int_or_ignore. intros; repeat split. }
  intros pgid_v. auto 20 with respects.
Qed.

Lemma steady__update_connection ci :
  respects steady no_timeout (_update_connection ci).
Proof.
  unfold _update_connection.
  r_bind; [auto with respects|]. intros _.
  r_bind; [apply steady__extract_pid_info | auto with respects].
Qed.

(** However [_setup_connection_info] ends, the launch settings, the
    assignment and the count of [kill]s are as before, and what it raises
    is not a timeout. *)
Lemma steady__setup_connection_info payload :
  respects steady no_timeout (_setup_connection_info payload).
Proof.
  unfold _setup_connection_info.
  r_bind; [auto with respects|]. intros s.
  r_bind; [auto with respects|]. intros e.
  r_bind; [|intros ci; apply steady__update_connection].
  destruct (e_tunneling_enabled e).
  - r_bind; [auto with respects|]. intros _.
    r_bind; [apply steady__tunnel_to_kernel|].
    intros tunnel_ports.
    do 5 (r_bind; [auto with respects|]; intros ?).
    match goal with |- context [match ?x with _ => _ end] => destruct x end;
      [|auto with respects].
    do 3 (r_bind; [auto with respects|]; intros ?).
    r_bind; [apply steady__tunnel_to_port | auto with respects].
  - match goal with |- context [match ?x with _ => _ end] => destruct x end;
      auto 20 with respects.
Qed.

(** ** Cleanup *)

Lemma terminate_each_spec items : forall s w,
  exists w',
    terminate_each items s w = (Return tt, s, w') /\
    w_env w' = w_env w /\ w_now w' = w_now w /\ w_open w' = w_open w /\
    w_tick w' = w_tick w /\ w_next_proc w' = w_next_proc w /\
    w_trace w' =
      (rev ((fun item : string * proc => EvTerminateProc item.2) <$> items)
       ++ w_trace w)%list.
Proof.
  induction items as [|[channel process] rest IH]; intros s w;
    cbn [terminate_each].
  - exists w. repeat split.
  - unfold proc_terminate. unfold bind at 1. unfold emit at 1.
    match goal with |- context [terminate_each rest s ?w0] =>
      destruct (IH s w0) as (w' & -> & He & Hn & Ho & Ht & Hp & Htr) end.
    exists w'. cbn in *. repeat split; try assumption.
    rewrite Htr, <- app_assoc. reflexivity.
Qed.

(** X1.  [cleanup] always returns; afterwards no tunnel is tracked and
    [assigned_ip] is [None], and what it did to the outside is to
    terminate every tunnel process that was tracked, once for each
    channel, and nothing else. *)
Theorem cleanup_terminates_every_tunnel
  (restart : bool) (s : Provisioner) (w : World) :
  exists w' new,
    cleanup restart s w = (Return tt, cleaned s, w') /\
    tunnel_processes (cleaned s) = ∅ /\
    assigned_ip (cleaned s) = None /\
    w_trace w' = (new ++ w_trace w)%list /\
    new ≡ₚ terminations (tunnel_processes s) /\
    w_now w' = w_now w /\ w_open w' = w_open w.
Proof.
  unfold cleanup. unfold update at 1, self at 1. unfold bind at 1 2.
  cbn [tunnel_processes set_assigned].
  destruct (terminate_each_spec (map_to_list (tunnel_processes s))
              (set_assigned (assigned_host s) None s) w)
    as (w' & Ht & He & Hn & Ho & _ & _ & Htr).
  rewrite (bind_Return _ _ _ _ _ _ _ Ht).
  exists w', (rev (terminations (tunnel_processes s))).
  split; [reflexivity|]. split; [reflexivity|]. split; [reflexivity|].
  split; [exact Htr|]. split; [|split; assumption].
  symmetry. apply Permutation_rev.
Qed.

(** X2.  [ContainerProvisioner.cleanup] enters [kill] exactly once, before
    any tunnel is terminated, then cleans up as the base class does: it
    always returns, no tunnel stays tracked, and every tracked tunnel
    process is terminated once. *)
Theorem container_cleanup_kills_then_cleans
  (restart : bool) (s : Provisioner) (w : World) :
  exists w' new killed,
    ContainerProvisioner.cleanup restart s w = (Return tt, cleaned s, w') /\
    tunnel_processes (cleaned s) = ∅ /\
    w_trace w' = (new ++ killed ++ w_trace w)%list /\
    new ≡ₚ terminations (tunnel_processes s) /\
    (killed = [EvKill false] \/
     killed = [EvTerminateResources false; EvKill false]) /\
    count_kills (w_trace w') = S (count_kills (w_trace w)).
Proof.
  unfold ContainerProvisioner.cleanup.
  destruct (Container.kill false s w) as [[r s1] w1] eqn:Hkill.
  assert (Hk : s1 = s /\ (exists v, r = Return v) /\
               exists killed, w_trace w1 = (killed ++ w_trace w)%list /\
                 (killed = [EvKill false] \/
                  killed = [EvTerminateResources false; EvKill false])).
  { unfold Container.kill, Container.terminate_container_resources in Hkill.
    prim. cbn in Hkill.
    destruct (truthy (of_opt_str (container_name s))); cbn in Hkill;
      inversion Hkill; subst; (split; [reflexivity|]); (split; [eauto|]).
    - exists [EvTerminateResources false; EvKill false]. split; auto.
    - exists [EvKill false]. split; auto. }
  destruct Hk as (-> & [v ->] & killed & Hkilled & Hshape).
  rewrite (bind_Return _ _ _ _ _ _ _ Hkill).
  destruct (cleanup_terminates_every_tunnel restart s w1)
    as (w' & new & Hc & HT & _ & Htr & Hperm & _).
  exists w', new, killed. split; [exact Hc|]. split; [exact HT|].
  rewrite Htr, Hkilled. split; [reflexivity|]. split; [exact Hperm|].
  split; [exact Hshape|].
  assert (Hnew : forall l, Forall (fun ev => is_terminate ev = true) l ->
                   forall tr, count_kills (l ++ tr) = count_kills tr).
  { induction 1 as [|ev l Hev _ IH]; intros tr; [reflexivity|].
    destruct ev; try discriminate Hev. cbn. apply IH. }
  rewrite Hnew.
  - destruct Hshape as [-> | ->]; reflexivity.
  - eapply Permutation_Forall; [symmetry; exact Hperm|].
    unfold terminations. apply Forall_fmap, Forall_forall. intros; reflexivity.
Qed.

(** ** Waiting for the kernel to terminate *)





(** ** Signals *)

(** X4.  The base [send_signal] leaves the provisioner as it is and never
    runs out of fuel: it returns [None], or raises.  It raises only with a
    local process, and only what [os.killpg] raised that is not an
    [OSError] (tried only for a [pgid > 0] where [os.killpg] exists) or
    what the [send_signal] of the local process raised; an [OSError] of
    [os.killpg] and every failure of the listener are swallowed.  All it
    does is to pass the signal number on, unchanged, by at most three
    routes: the listener at the communication port (only when
    [comm_port > 0]), the process group (only for a local process and a
    [pgid > 0], never the group 0 of the caller), the local process; the
    route that raised is the last one taken.  With no communication port
    and no local process it does nothing at all. *)
Theorem send_signal_raises_only_from_the_local_process
  (signum : Z) (s : Provisioner) (w : World) :
  exists r w' new,
    send_signal signum s w = (r, s, w') /\
    w_trace w' = (new ++ w_trace w)%list /\
    Forall (signal_route signum s) new /\
    (length new <= 3)%nat /\
    (comm_port s <= 0 -> local_proc s = None -> w' = w) /\
    match r with
    | Return v => v = PNone
    | Raise e =>
        exists lp k,
          local_proc s = Some lp /\ (w_tick w <= k < w_tick w')%nat /\
          ((0 < pgid s /\ e_has_killpg (w_env w) = true /\
            e_killpg (w_env w) k = Killpg_raises e /\
            head new = Some (EvKillpg (pgid s) signum)) \/
           (e_proc_signal (w_env w) k = Some e /\
            head new = Some (EvProcSignal lp signum)))
    | OutOfFuel => False
    end.
Proof.
  unfold send_signal, _send_signal_via_listener, _send_listener_request,
    os_killpg, proc_send_signal.
  prim. cbn.
  destruct (comm_port s >? 0) eqn:Hport; cbn;
    repeat match goal with
      | |- context [match ?x with _ => _ end] =>
          lazymatch x with
          | context [match _ with _ => _ end] => fail
          | _ => destruct x eqn:?; cbn
          end
      end;
    eexists _, _, _; (split; [reflexivity|]); cbn;
    (split; [first [ refine (@eq_refl _ ([] ++ w_trace w)%list)
                   | refine (@eq_refl _ ([_] ++ w_trace w)%list)
                   | refine (@eq_refl _ ([_; _] ++ w_trace w)%list)
                   | refine (@eq_refl _ ([_; _; _] ++ w_trace w)%list) ]|]).
  all: split; [|split; [cbn; lia|split; [intros; try lia; try congruence|]]].
  all: try (repeat first [apply Forall_nil_2 | apply Forall_cons_2]; cbn;
    repeat split; try congruence; try lia).
  all: try reflexivity.
  all: match goal with
       | H : local_proc _ = Some ?p |- _ => exists p
       end.
  all: match goal with
       | H : e_killpg _ ?k = Killpg_raises _, Hb : _ && _ = true |- _ =>
           exists k; split; [reflexivity|]; split; [cbn; lia|]; left;
           apply andb_true_iff in Hb as [Hpg Hk];
           repeat split; try assumption; lia
       | H : e_proc_signal _ ?k = Some _ |- _ =>
           exists k; split; [reflexivity|]; split; [cbn; lia|]; right;
           split; [assumption|reflexivity]
       end.
Qed.

(** A signal number that the operating system refuses: the [OSError] of
    the local process is raised, after the group was tried in vain. *)
Example send_signal_refused_by_the_process :
  let r := send_signal 99999
             (set_pgid 7 (set_local_proc (Some 3%nat)
                            (Examples.constructed "0..0")))
             (Examples.world_of
                (Examples.with_signals (fun _ => Killpg_OSError)
                   (fun _ => Some (OSError_errno 22))
                   (Examples.quiet false))) in
  r.1.1 = Raise (OSError_errno 22) /\
  w_trace r.2 = [EvProcSignal 3%nat 99999; EvKillpg 7 99999].
Proof. split; reflexivity. Qed.

(** What [os.killpg] raises that is not an [OSError] is not caught, and
    the local process is not signalled. *)
Example send_signal_not_caught_from_killpg :
  let r := send_signal (2 ^ 40)
             (set_pgid 7 (set_local_proc (Some 3%nat)
                            (Examples.constructed "0..0")))
             (Examples.world_of
                (Examples.with_signals
                   (fun _ => Killpg_raises Exception_other)
                   (fun _ => None)
                   (Examples.quiet false))) in
  r.1.1 = Raise Exception_other /\
  w_trace r.2 = [EvKillpg 7 (2 ^ 40)].
Proof. split; reflexivity. Qed.

(** ** Processing of the payload *)


(** What [_extract_pid_info] leaves alone. *)
Lemma _extract_pid_info_total ci s w :
  exists s',
    _extract_pid_info ci s w
    = (Return (delete "pgid" (delete "pid" ci)), s', w) /\
    connection_info s' = connection_info s /\
    tunnel_processes s' = tunnel_processes s /\
    tunneled_connect_info s' = tunneled_connect_info s /\
    comm_port s' = comm_port s /\ comm_ip s' = comm_ip s /\
    assigned_ip s' = assigned_ip s.
Proof.
  unfold _extract_pid_info.
  destruct (ci !! "pid") as [[|b|z|str]|];
    destruct (delete "pid" ci !! "pgid") as [[|b'|z'|str']|];
    unfold py_int; prim; cbn;
    repeat match goal with
      | |- context [match ?x with _ => _ end] =>
          lazymatch x with
          | context [match _ with _ => _ end] => fail
          | _ => destruct x eqn:?; cbn
          end
      end;
    eexists; (split; [reflexivity|]); cbn; repeat split.
Qed.

(** X6.  Without tunneling, [_setup_connection_info] does nothing outside
    the provisioner and tracks no tunnel.  It raises only when the payload
    has a [comm_port] that [int] refuses; the check for a null payload
    cannot fail, since the ip has been put in.  When it returns,
    [connection_info] is updated with the payload, with the assigned ip as
    its [ip] and without its [pid] and [pgid]; the communication port is
    the integer of the payload's, and is left as it was when the payload
    has none. *)
Theorem _setup_connection_info_without_tunneling
  (payload : gmap string pyval) (s : Provisioner) (w : World) :
  e_tunneling_enabled (w_env w) = false ->
  exists r s',
    _setup_connection_info payload s w = (r, s', w) /\
    tunnel_processes s' = tunnel_processes s /\
    tunneled_connect_info s' = tunneled_connect_info s /\
    match r with
    | Return _ =>
        connection_info s' =
          delete "pgid"
            (delete "pid" (<["ip" := of_opt_str (assigned_ip s)]> payload))
          ∪ connection_info s /\
        connection_info s' !! "ip" = Some (of_opt_str (assigned_ip s)) /\
        match payload !! "comm_port" with
        | Some cp =>
            py_int cp s w = (Return (comm_port s'), s, w) /\
            comm_ip s' = of_opt_str (assigned_ip s)
        | None => comm_port s' = comm_port s /\ comm_ip s' = comm_ip s
        end
    | Raise e =>
        exists cp, payload !! "comm_port" = Some cp /\
                   py_int cp s w = (Raise e, s, w)
    | OutOfFuel => False
    end.
Proof.
  intros Hoff. unfold _setup_connection_info.
  unfold bind at 1, self at 1. unfold bind at 1, env at 1. rewrite Hoff.
  set (ci := <["ip" := of_opt_str (assigned_ip s)]> payload).
  assert (Hne : bool_decide (ci = ∅) = false).
  { apply bool_decide_eq_false. apply insert_non_empty. }
  assert (Hcomm : ci !! "comm_port" = payload !! "comm_port").
  { unfold ci. apply lookup_insert_ne. discriminate. }
  assert (Hip : forall old : gmap string pyval,
            (delete "pgid" (delete "pid" ci) ∪ old) !! "ip"
            = Some (of_opt_str (assigned_ip s))).
  { intros old. apply lookup_union_Some_l. unfold ci. lookup_literal.
    reflexivity. }
  rewrite Hcomm.
  destruct (payload !! "comm_port") as [cp|] eqn:Hcp.
  - unfold getitem. unfold ci at 1. rewrite lookup_insert_eq.
    destruct (py_int cp s w) as [[rc sc] wc] eqn:Hint.
    assert (Hsame : sc = s /\ wc = w /\ rc <> OutOfFuel)
      by (eapply py_int_inv; exact Hint).
    destruct Hsame as (-> & -> & Hfuel).
    assert (Hint' : forall s0, py_int cp s0 w = (rc, s0, w)).
    { intros s0. destruct cp as [|b|z|str]; cbn in *;
        try destruct (Py.int_of_str _ str); inv_prim Hint; reflexivity. }
    unfold bind at 1. unfold bind at 1, ret at 1.
    unfold bind at 1, update at 1. unfold bind at 1. rewrite Hint'.
    destruct rc as [v|e|]; [| |congruence].
    + unfold bind at 1, update at 1. unfold ret at 1.
      unfold _update_connection. rewrite Hne.
      unfold bind at 1, ret at 1.
      match goal with |- context [set_comm_port v ?x] =>
        destruct (_extract_pid_info_total ci (set_comm_port v x) w)
          as (s' & Hex & Hci & Htp & Htc & Hport & Hcip & _) end.
      rewrite (bind_Return _ _ _ _ _ _ _ Hex). unfold update.
      eexists _, _. split; [reflexivity|]. cbn in *.
      split; [exact Htp|]. split; [exact Htc|].
      rewrite Hci. split; [reflexivity|]. split; [apply Hip|].
      rewrite Hport, Hcip. auto.
    + eexists _, _. split; [reflexivity|]. cbn. eauto.
  - unfold bind at 1, ret at 1.
    unfold _update_connection. rewrite Hne.
    unfold bind at 1, ret at 1.
    destruct (_extract_pid_info_total ci s w)
      as (s' & Hex & Hci & Htp & Htc & Hport & Hcip & _).
    rewrite (bind_Return _ _ _ _ _ _ _ Hex). unfold update.
    eexists _, _. split; [reflexivity|]. cbn in *.
    split; [exact Htp|]. split; [exact Htc|].
    rewrite Hci. split; [reflexivity|]. split; [apply Hip|]. auto.
Qed.

(** ** What a method that returns has established *)

Lemma wp_ret {A} (a : A) Q E s w : Q a s w -> wp (ret a) Q E s w.
Proof. intros H. exact H. Qed.

Lemma wp_self {A} (k : Provisioner -> M A) Q E s w :
  wp (k s) Q E s w -> wp (bind self k) Q E s w.
Proof. intros H. exact H. Qed.

Lemma wp_env {A} (k : Env -> M A) Q E s w :
  wp (k (w_env w)) Q E s w -> wp (bind env k) Q E s w.
Proof. intros H. exact H. Qed.

Lemma wp_update {A} f (k : unit -> M A) Q E s w :
  wp (k tt) Q E (f s) w -> wp (bind (update f) k) Q E s w.
Proof. intros H. exact H. Qed.

Lemma wp_bind_via {A B} (m : M A) (k : A -> M B) Q1 Q s w :
  wp m Q1 anyhow s w ->
  (forall a s1 w1, Q1 a s1 w1 -> wp (k a) Q anyhow s1 w1) ->
  wp (bind m k) Q anyhow s w.
Proof.
  unfold wp at 1 3, bind. intros Hm Hk.
  destruct (m s w) as [[[a|e|] s1] w1]; [|exact I|exact I].
  apply Hk, Hm.
Qed.

Lemma wp_bind_any {A B} (m : M A) (k : A -> M B) Q s w :
  (forall a s1 w1, wp (k a) Q anyhow s1 w1) -> wp (bind m k) Q anyhow s w.
Proof.
  unfold wp at 2, bind. intros Hk.
  destruct (m s w) as [[[a|e|] s1] w1]; [|exact I|exact I]. apply Hk.
Qed.

Lemma wp_Return {A} (m : M A) Q E s w a s' w' :
  wp m Q E s w -> m s w = (Return a, s', w') -> Q a s' w'.
Proof. unfold wp. intros H Hm. rewrite Hm in H. exact H. Qed.

Lemma _update_connection_ip ci v s w :
  ci !! "ip" = Some v ->
  wp (_update_connection ci)
    (fun _ s' _ => connection_info s' !! "ip" = Some v) anyhow s w.
Proof.
  intros Hv. unfold _update_connection.
  apply wp_bind_any. intros _ s1 w1.
  destruct (_extract_pid_info_total ci s1 w1) as (s2 & Hex & _).
  unfold wp. rewrite (bind_Return _ _ _ _ _ _ _ Hex). unfold update. cbn.
  apply lookup_union_Some_l. lookup_literal. exact Hv.
Qed.

(** The [ip] entry of [connection_info] once [_setup_connection_info]
    has returned. *)
Lemma _setup_connection_info_ip payload s w :
  wp (_setup_connection_info payload)
    (fun _ s' _ => connection_info s' !! "ip" = Some (connection_ip (w_env w) s))
    anyhow s w.
Proof.
  unfold _setup_connection_info, connection_ip.
  apply wp_self, wp_env.
  apply wp_bind_via with
    (Q1 := fun ci _ _ =>
             ci !! "ip" = Some (if e_tunneling_enabled (w_env w)
                                then PStr "127.0.0.1"
                                else of_opt_str (assigned_ip s)));
    [|intros ci s1 w1 Hci; apply _update_connection_ip, Hci].
  destruct (e_tunneling_enabled (w_env w)).
  - apply wp_bind_any. intros _ s1 w1.
    do 6 (apply wp_bind_any; intros ? ? ?).
    match goal with |- context [match ?x with _ => _ end] => destruct x end.
    + do 5 (apply wp_bind_any; intros ? ? ?).
      apply wp_ret. lookup_literal. reflexivity.
    + apply wp_ret. lookup_literal. reflexivity.
  - match goal with |- context [match ?x with _ => _ end] => destruct x end.
    + do 4 (apply wp_bind_any; intros ? ? ?).
      apply wp_ret. lookup_literal. reflexivity.
    + apply wp_ret. lookup_literal. reflexivity.
Qed.

(** ** Confirmation of a launch *)

(** [kill] of a container provisioner always returns, and leaves the
    provisioner as it is. *)
Lemma container_kill_spec restart s w :
  exists r w',
    Container.kill restart s w = (Return r, s, w') /\
    w_env w' = w_env w /\
    (w_trace w' = EvKill restart :: w_trace w \/
     w_trace w' = EvTerminateResources restart :: EvKill restart :: w_trace w) /\
    count_kills (w_trace w') = S (count_kills (w_trace w)).
Proof.
  unfold Container.kill, Container.terminate_container_resources.
  prim. cbn.
  destruct (truthy (of_opt_str (container_name s))); cbn;
    eexists _, _; (split; [reflexivity|]); cbn; auto.
Qed.

(** The ways [receive_connection_info] ends. *)
Lemma receive_connection_info_spec (s : Provisioner) (w : World) :
  exists r s' w',
    receive_connection_info Container.kill s w = (r, s', w') /\
    w_env w' = w_env w /\
    assigned_host s' = assigned_host s /\ assigned_ip s' = assigned_ip s /\
    start_time s' = start_time s /\ launch_timeout s' = launch_timeout s /\
    match r with
    | Return true =>
        (exists payload,
           e_connection_info (w_env w) (w_tick w) = inl payload) /\
        count_kills (w_trace w') = count_kills (w_trace w) /\
        connection_info s' !! "ip" = Some (connection_ip (w_env w) s)
    | Return false =>
        (exists ex, e_connection_info (w_env w) (w_tick w) = inr ex /\
                    is_timeout ex = true) /\
        s' = s /\ w_trace w' = w_trace w
    | Raise e =>
        e = RuntimeError_connection_wait /\
        count_kills (w_trace w') = S (count_kills (w_trace w))
    | OutOfFuel => False
    end.
Proof.
  unfold receive_connection_info, try_except.
  unfold bind at 1, ask at 1. unfold bind at 1, env at 1.
  cbn [w_env w_tick].
  set (w1 := {| w_env := w_env w; w_tick := S (w_tick w);
                w_now := _; w_open := w_open w;
                w_next_proc := w_next_proc w; w_trace := w_trace w |}).
  destruct (e_connection_info (w_env w) (w_tick w)) as [payload|ex] eqn:Hinfo.
  - pose proof (steady__setup_connection_info payload s w1) as Hsetup.
    pose proof (_setup_connection_info_ip payload s w1) as Hip.
    unfold wp in Hsetup, Hip. unfold bind at 1.
    destruct (_setup_connection_info payload s w1) as [[[[]|e|] s2] w2].
    + destruct Hsetup as (He & Hk & Hh & Hi & Hst & Hl & _).
      exists (Return true), s2, w2. unfold ret.
      repeat (split; [first [reflexivity | assumption]|]).
      split; [eauto|]. split; [exact Hk | exact Hip].
    + destruct Hsetup as [(He & Hk & Hh & Hi & Hst & Hl & _) Hnt].
      cbn in Hnt. rewrite Hnt.
      destruct (container_kill_spec false s2 w2)
        as (r & w3 & Hkill & He3 & _ & Hk3).
      rewrite (bind_Return _ _ _ _ _ _ _ Hkill).
      exists (Raise RuntimeError_connection_wait), s2, w3. unfold raise.
      split; [reflexivity|]. split; [rewrite He3; exact He|].
      repeat (split; [assumption|]). split; [reflexivity|].
      rewrite Hk3, Hk. reflexivity.
    + destruct Hsetup as [_ []].
  - unfold raise at 1. destruct (is_timeout ex) eqn:Hto.
    + exists (Return false), s, w1. unfold ret.
      do 6 (split; [reflexivity|]). split; [eauto|]. split; reflexivity.
    + destruct (container_kill_spec false s w1)
        as (r & w3 & Hkill & He3 & _ & Hk3).
      rewrite (bind_Return _ _ _ _ _ _ _ Hkill).
      exists (Raise RuntimeError_connection_wait), s, w3. unfold raise.
      split; [reflexivity|]. split; [exact He3|].
      do 4 (split; [reflexivity|]). split; [reflexivity | exact Hk3].
Qed.

(** X7.  [receive_connection_info] of a container provisioner ends in one
    of three ways.  It returns [True] when a payload arrived and
    [_setup_connection_info] accepted it; [kill] is not entered.  It
    returns [False] only when the wait for the payload timed out, and has
    then changed nothing of the provisioner and done nothing outside.
    Every other failure, of the wait or of the processing of the payload,
    enters [kill] exactly once and is raised as the one connection-wait
    error.  The assignment and the launch settings are kept in all cases. *)
Theorem receive_connection_info_outcomes (s : Provisioner) (w : World) :
  exists r s' w',
    receive_connection_info Container.kill s w = (r, s', w') /\
    w_env w' = w_env w /\
    assigned_host s' = assigned_host s /\ assigned_ip s' = assigned_ip s /\
    start_time s' = start_time s /\ launch_timeout s' = launch_timeout s /\
    match r with
    | Return true =>
        (exists payload,
           e_connection_info (w_env w) (w_tick w) = inl payload) /\
        count_kills (w_trace w') = count_kills (w_trace w)
    | Return false =>
        (exists ex, e_connection_info (w_env w) (w_tick w) = inr ex /\
                    is_timeout ex = true) /\
        s' = s /\ w_trace w' = w_trace w
    | Raise e =>
        e = RuntimeError_connection_wait /\
        count_kills (w_trace w') = S (count_kills (w_trace w))
    | OutOfFuel => False
    end.
Proof.
  destruct (receive_connection_info_spec s w)
    as (r & s' & w' & Hrun & He & Hh & Hi & Hst & Hl & Hr).
  exists r, s', w'. do 6 (split; [assumption|]).
  destruct r as [[|]|e|]; try exact Hr.
  destruct Hr as (Hp & Hk & _). split; assumption.
Qed.

Lemma handle_launch_timeout_Return s w s' w' :
  handle_launch_timeout Container.kill s w = (Return tt, s', w') ->
  s' = s /\ w_env w' = w_env w /\
  w_trace w' = EvSleep poll_interval :: w_trace w /\
  exists t0, start_time s = Some t0 /\ w_now w' - t0 <= launch_timeout s.
Proof.
  unfold handle_launch_timeout, get_time_diff.
  unfold bind at 1, sleep at 1. unfold bind at 1, self at 1.
  unfold bind at 2, get_current_time at 1.
  cbn [w_now w_env w_tick w_trace].
  destruct (start_time s) as [t0|]; [|unfold raise, bind; discriminate].
  unfold bind at 1, ret at 1.
  destruct (_ >? launch_timeout s) eqn:Hlate.
  - intros H. apply bind_inv in H
      as [(a & s1 & w1 & _ & H) | [(e & _ & H) | (_ & H)]]; discriminate H.
  - unfold ret. intros H. inversion H; subst.
    cbn [w_env w_now w_trace] in *.
    do 3 (split; [reflexivity|]). exists t0. split; [reflexivity|]. lia.
Qed.

Lemma detect_launch_failure_Return s w s' w' :
  detect_launch_failure s w = (Return tt, s', w') ->
  s' = s /\ w_env w' = w_env w /\ w_trace w' = w_trace w.
Proof.
  unfold detect_launch_failure, proc_poll, proc_wait. prim. cbn.
  destruct (local_proc s) as [lp|]; cbn;
    [|intros H; inversion H; subst; auto].
  destruct (e_proc_poll (w_env w) (w_tick w) lp) as [rc|]; cbn;
    [destruct (negb (rc =? 0) && (rc >? 0)); cbn|];
    intros H; inversion H; subst; auto.
Qed.

(** An iteration of the confirmation loop that returns. *)
Lemma confirm_iteration_Return i s w b s' w' :
  Container.confirm_iteration i s w = (Return b, s', w') ->
  w_env w' = w_env w /\
  count_kills (w_trace w') = count_kills (w_trace w) /\
  start_time s' = start_time s /\ launch_timeout s' = launch_timeout s /\
  (b = true ->
   pid s' = 0 /\ pgid s' = 0 /\ assigned_host s' <> EmptyString /\
   connection_info s' !! "ip" = Some (connection_ip (w_env w) s') /\
   exists k payload, e_connection_info (w_env w) k = inl payload).
Proof.
  unfold Container.confirm_iteration. intros H.
  inv_bind H. apply handle_launch_timeout_Return in Hm
    as (-> & He0 & Htr0 & _).
  inv_bind H. rename Hm into Hgcs'.
  match type of Hgcs' with
  | Container.get_container_status _ _ ?wa = (_, ?sb, ?wb) =>
      rename wa into w_slept; rename sb into s_status;
      rename wb into w_status
  end.
  destruct (get_container_status_spec (Some i) s w_slept)
    as (status & s1 & w1 & Hgcs & (Hst & Hl & _) & (He1 & Hk1 & _)).
  rewrite Hgcs in Hgcs'. injection Hgcs' as Ha Hs Hw.
  subst a s_status w_status.
  assert (Hk01 : count_kills (w_trace w1) = count_kills (w_trace w))
    by (rewrite Hk1, Htr0; reflexivity).
  destruct (truthy (of_opt_str status)).
  - inv_bind H.
    match type of Hm with
    | self _ _ = (Return ?a, ?sx, ?wx) =>
        unfold self in Hm; injection Hm as Ha Hs Hw; subst a sx wx
    end.
    destruct (negb (String.eqb (assigned_host s1) EmptyString))
      eqn:Hhost.
    + inv_bind H. rename Hm into Hrun'.
      destruct (receive_connection_info_spec s1 w1)
        as (r & sr & wr & Hrun & He2 & Hh2 & Hi2 & Hst2 & Hl2 & Hr).
      rewrite Hrun in Hrun'. injection Hrun' as Hr' Hs Hw.
      match type of Hs with _ = ?x => subst x end.
      match type of Hw with _ = ?x => subst x end.
      subst r.
      inv_bind H. inv_prim Hm. inv_bind H. inv_prim Hm. inv_prim H.
      cbn. split; [congruence|].
      assert (Hk2 : count_kills (w_trace w')
                    = count_kills (w_trace w1)).
      { destruct b; [apply Hr|]. destruct Hr as (_ & _ & ->). reflexivity. }
      split; [congruence|]. split; [congruence|]. split; [congruence|].
      intros ->. destruct Hr as ((payload & Hp) & _ & Hip).
      split; [reflexivity|]. split; [reflexivity|].
      split.
      { rewrite Hh2. intros Heq. rewrite Heq in Hhost. discriminate Hhost. }
      split.
      { rewrite Hip. unfold connection_ip. cbn.
        rewrite He1, He0, Hi2. reflexivity. }
      exists (w_tick w1), payload. rewrite <- He0, <- He1. exact Hp.
    + inv_prim H. repeat split; congruence.
  - inv_bind H. apply detect_launch_failure_Return in Hm as (-> & He2 & Htr2).
    inv_prim H. repeat split; congruence.
Qed.

Lemma confirm_loop_Return fuel : forall i s w s' w',
  Container.confirm_loop fuel i s w = (Return tt, s', w') ->
  w_env w' = w_env w /\
  count_kills (w_trace w') = count_kills (w_trace w) /\
  start_time s' = start_time s /\ launch_timeout s' = launch_timeout s /\
  pid s' = 0 /\ pgid s' = 0 /\ assigned_host s' <> EmptyString /\
  connection_info s' !! "ip" = Some (connection_ip (w_env w) s') /\
  exists k payload, e_connection_info (w_env w) k = inl payload.
Proof.
  induction fuel as [|fuel IH]; intros i s w s' w' H;
    cbn [Container.confirm_loop] in H; [discriminate H|].
  inv_bind H.
  apply confirm_iteration_Return in Hm as (He & Hk & Hst & Hl & Hready).
  destruct a.
  - inv_prim H. destruct (Hready eq_refl) as (? & ? & ? & ? & ?).
    repeat split; assumption.
  - apply IH in H as (He' & Hk' & Hst' & Hl' & ? & ? & ? & Hip & Hp).
    rewrite He in Hip, Hp.
    repeat split; try assumption; congruence.
Qed.

(** X8.  When [confirm_remote_startup] of a container provisioner returns,
    a payload has arrived and has been accepted: [connection_info] has its
    [ip], which is the loopback address under tunneling and the assigned
    ip otherwise; the assigned host is not empty; [pid] and [pgid] are 0
    whatever the payload said, so that no process is ever signalled
    directly; [start_time] is the time of the call; and [kill] was not
    entered. *)
Theorem confirm_remote_startup_success
  (fuel : nat) (s : Provisioner) (w : World) (s' : Provisioner) (w' : World) :
  Container.confirm_remote_startup fuel s w = (Return tt, s', w') ->
  pid s' = 0 /\ pgid s' = 0 /\
  assigned_host s' <> EmptyString /\
  start_time s' = Some (w_now w) /\
  launch_timeout s' = launch_timeout s /\
  connection_info s' !! "ip" = Some (connection_ip (w_env w) s') /\
  count_kills (w_trace w') = count_kills (w_trace w) /\
  exists k payload, e_connection_info (w_env w) k = inl payload.
Proof.
  unfold Container.confirm_remote_startup.
  unfold bind at 1, get_current_time at 1. unfold bind at 1, update at 1.
  intros H.
  apply confirm_loop_Return in H
    as (He & Hk & Hst & Hl & Hpid & Hpgid & Hhost & Hip & Hp).
  cbn in *. repeat split; assumption.
Qed.

(** ** Shutdown *)

(** X9.  [shutdown_requested] never raises, in any state and whatever the
    listener answers.  Without a communication port it does nothing.  With
    one it sends exactly one shutdown request, terminates the tunnel of
    the communication channel if one is tracked, and forgets it; the other
    tunnels stay tracked, and [comm_port] itself is not reset. *)
Theorem shutdown_requested_never_raises
  (restart : bool) (s : Provisioner) (w : World) :
  exists s' w' new,
    shutdown_requested restart s w = (Return tt, s', w') /\
    w_trace w' = (new ++ w_trace w)%list /\
    (comm_port s <= 0 -> s' = s /\ w' = w) /\
    (0 < comm_port s ->
     count_events is_shutdown_request new = 1%nat /\
     tunnel_processes s'
     = delete (channel_value COMMUNICATION) (tunnel_processes s) /\
     forall h, In (EvTerminateProc h) new <->
               tunnel_processes s !! channel_value COMMUNICATION = Some h) /\
    comm_port s' = comm_port s /\ comm_ip s' = comm_ip s /\
    count_kills (w_trace w') = count_kills (w_trace w).
Proof.
  unfold shutdown_requested, shutdown_listener, _send_listener_request,
    proc_terminate.
  prim. cbn.
  destruct (comm_port s >? 0) eqn:Hport; cbn.
  - repeat (rewrite Hport; cbn).
    destruct (e_listener (w_env w) (w_tick w)) as [ex|]; cbn;
      destruct (tunnel_processes s !! "EG_COMM") as [h|] eqn:Htunnel; cbn;
      eexists _, _, _; (split; [reflexivity|]);
      (split; [first [ refine (@eq_refl _ ([_] ++ w_trace w)%list)
                     | refine (@eq_refl _ ([_; _] ++ w_trace w)%list) ]|]);
      (split; [intros; lia|]); cbn;
      (split; [intros _; split; [reflexivity|]; split;
                 [first [reflexivity
                        | symmetry; apply delete_id; exact Htunnel]
                 | intros h'; split;
                   [cbn; intuition congruence
                   |intros Hin; first [discriminate Hin
                                      | left; congruence]]]|]);
      repeat split.
  - exists s, w, []. split; [reflexivity|]. split; [reflexivity|].
    split; [auto|]. split; [intros; lia|]. repeat split.
Qed.

(** ** Sockets of the port selection *)

Lemma filter_all_out (P : Z -> Prop) `{!forall x, Decision (P x)} l :
  Forall (fun x => ~ P x) l -> filter P l = [].
Proof.
  induction 1 as [|x l Hx _ IH]; [reflexivity|].
  rewrite filter_cons_False by exact Hx. exact IH.
Qed.

Lemma filter_all_in (P : Z -> Prop) `{!forall x, Decision (P x)} l :
  Forall P l -> filter P l = l.
Proof.
  induction 1 as [|x l Hx _ IH]; [reflexivity|].
  rewrite filter_cons_True by exact Hx. rewrite IH. reflexivity.
Qed.

Lemma close_all_open sockets : forall s w,
  exists w',
    close_all sockets s w = (Return tt, s, w') /\
    w_open w' = filter (fun p => p ∉ sockets) (w_open w).
Proof.
  induction sockets as [|sock rest IH]; intros s w; cbn [close_all].
  - exists w. split; [reflexivity|]. symmetry. apply filter_all_in.
    apply Forall_forall. intros x _. apply not_elem_of_nil.
  - unfold sock_close. prim. cbn.
    match goal with |- context [close_all rest s ?w0] =>
      destruct (IH s w0) as (w' & -> & Hopen) end.
    exists w'. split; [reflexivity|]. rewrite Hopen. cbn.
    rewrite list_filter_filter. apply list_filter_iff. intros x.
    rewrite not_elem_of_cons. tauto.
Qed.

Lemma select_ports_loop_open count : forall ports s w l s' w',
  select_ports_loop count ports s w = (Return l, s', w') ->
  exists new,
    l = (ports ++ new)%list /\
    w_open w' = (rev new ++ w_open w)%list /\
    Forall (fun p => p ∉ w_open w) new.
Proof.
  induction count as [|count IH]; intros ports s w l s' w' H;
    cbn [select_ports_loop] in H.
  - inv_prim H. exists []. rewrite app_nil_r. repeat split. constructor.
  - apply bind_inv in H
      as [(q & s1 & w1 & Hsock & H) | [(e & _ & H) | (_ & H)]];
      [|discriminate H|discriminate H].
    destruct (select_socket_spec s w) as (r & w1' & Hs & _ & Hr).
    rewrite Hs in Hsock. injection Hsock as -> <- <-.
    destruct Hr as (Hfree & Hopen & _).
    apply IH in H as (new & -> & Hopen' & Hnew).
    exists (q :: new). rewrite <- app_assoc. split; [reflexivity|].
    split.
    + rewrite Hopen', Hopen. cbn [rev]. rewrite <- app_assoc. reflexivity.
    + constructor; [exact Hfree|].
      eapply Forall_impl; [exact Hnew|]. cbn. intros p Hp Hin.
      apply Hp. rewrite Hopen. right. exact Hin.
Qed.

(** X10.  When [select_ports] returns, it has closed every socket it
    bound: the bound ports are exactly those bound before the call, so
    none of the ports it gives is reserved any longer.  None of them was
    bound when the call began, no process was created and the provisioner
    is as it was. *)
Theorem select_ports_releases_its_sockets
  (count : nat) (s : Provisioner) (w : World)
  (ports : list Z) (s' : Provisioner) (w' : World) :
  select_ports (Z.of_nat count) s w = (Return ports, s', w') ->
  w_open w' = w_open w /\
  Forall (fun p => p ∉ w_open w) ports /\
  Forall (fun p => p ∉ w_open w') ports /\
  s' = s /\ w_next_proc w' = w_next_proc w /\
  count_events is_spawn (w_trace w') = count_events is_spawn (w_trace w).
Proof.
  intros H.
  pose proof (wp_Return _ _ _ _ _ _ _ _
                (untouched_select_ports (Z.of_nat count) s w) H)
    as (Hs & _ & Hproc & _ & Hspawn).
  unfold select_ports in H.
  apply bind_inv in H
    as [(l & s1 & w1 & Hloop & H) | [(e & _ & H) | (_ & H)]];
    [|discriminate H|discriminate H].
  apply select_ports_loop_open in Hloop as (new & -> & Hopen & Hnew).
  cbn [app] in H.
  destruct (close_all_open new s1 w1) as (w2 & Hclose & Hopen2).
  rewrite (bind_Return _ _ _ _ _ _ _ Hclose) in H. inv_prim H.
  assert (Hback : w_open w' = w_open w).
  { rewrite Hopen2, Hopen, filter_app.
    rewrite filter_all_out, filter_all_in; [reflexivity| |].
    - apply Forall_forall. intros x Hx Hin.
      rewrite Forall_forall in Hnew. exact (Hnew x Hin Hx).
    - apply Forall_forall. intros x Hx Hout. apply Hout.
      apply list_elem_of_In, in_rev, list_elem_of_In. exact Hx. }
  rewrite Hback. repeat split; assumption.
Qed.

(** ** The port range of a constructed provisioner *)

Lemma split_aux_nonempty sep s : forall skip cur,
  Py.split_aux sep skip cur s <> [].
Proof.
  induction s as [|c s IH]; intros skip cur; cbn [Py.split_aux];
    [discriminate|].
  destruct skip as [|k]; [|apply IH].
  destruct (String.prefix sep (String c s)); [discriminate | apply IH].
Qed.

(** The ways [_validate_port_range] ends. *)
Lemma _validate_port_range_cases int_beyond port_range :
  match _validate_port_range int_beyond port_range with
  | Return (lower, upper) =>
      (upper = lower \/ valid_range lower upper) /\
      exists s0 s1 rest,
        Py.split port_range ".." = s0 :: s1 :: rest /\
        Py.int_of_str int_beyond s0 = Some lower /\ Py.int_of_str int_beyond s1 = Some upper
  | Raise e =>
      (e = RuntimeError_port_range_format <->
       exists s0, Py.split port_range ".." = [s0] /\
                  is_Some (Py.int_of_str int_beyond s0)) /\
      (e = RuntimeError_port_range_format \/ e = ValueError_invalid_literal \/
       e = ValueError_range_size \/ e = ValueError_invalid_port)
  | OutOfFuel => False
  end.
Proof.
  unfold _validate_port_range.
  destruct (Py.split port_range "..") as [|s0 [|s1 rest]] eqn:Hsplit.
  - exfalso. exact (split_aux_nonempty _ _ _ _ Hsplit).
  - cbn. destruct (Py.int_of_str int_beyond s0) as [lower|] eqn:H0.
    + split; [|auto]. split; [intros _; eauto|reflexivity].
    + split; [|auto]. split; [discriminate|].
      intros (s0' & Heq & [v Hv]). congruence.
  - cbn. destruct (Py.int_of_str int_beyond s0) as [lower|] eqn:H0;
      [|split; [split; [discriminate|intros (? & ? & _); discriminate]
               |auto]].
    destruct (Py.int_of_str int_beyond s1) as [upper|] eqn:H1;
      [|split; [split; [discriminate|intros (? & ? & _); discriminate]
               |auto]].
    unfold validate_port, min_port_range_size.
    destruct (upper - lower =? 0) eqn:Hzero; cbn.
    { split; [left; lia | eauto 6]. }
    destruct (upper - lower <? 1000) eqn:Hsize;
      [split; [split; [discriminate|intros (? & ? & _); discriminate]
              |auto]|].
    destruct ((lower <? 1024) || (lower >? 65535)) eqn:Hlo;
      [split; [split; [discriminate|intros (? & ? & _); discriminate]
              |auto]|].
    destruct ((upper <? 1024) || (upper >? 65535)) eqn:Hup;
      [split; [split; [discriminate|intros (? & ? & _); discriminate]
              |auto]|].
    split; [right; unfold valid_range; lia | eauto 6].
Qed.

(** X11.  [_validate_port_range] on any string, [int] being the
    interpreter's ([int_beyond] on a field that is not plain ASCII).  It
    gives the two bounds only when [int] accepts the first two fields
    between [..], and then
    the bounds are equal or form a range of at least 1000 ports within
    [[1024, 65535]].  Otherwise it raises one of four errors; the
    [RuntimeError] of a malformed range is raised exactly when the string
    has no [..] and [int] accepts it: a string that [int] refuses, with
    or without [..], ends in the [ValueError] of [int]. *)
Theorem _validate_port_range_outcomes
  (int_beyond : string -> option Z) (port_range : string) :
  match _validate_port_range int_beyond port_range with
  | Return (lower, upper) =>
      (upper = lower \/ valid_range lower upper) /\
      exists s0 s1 rest,
        Py.split port_range ".." = s0 :: s1 :: rest /\
        Py.int_of_str int_beyond s0 = Some lower /\ Py.int_of_str int_beyond s1 = Some upper
  | Raise e =>
      (e = RuntimeError_port_range_format <->
       exists s0, Py.split port_range ".." = [s0] /\
                  is_Some (Py.int_of_str int_beyond s0)) /\
      (e = RuntimeError_port_range_format \/ e = ValueError_invalid_literal \/
       e = ValueError_range_size \/ e = ValueError_invalid_port)
  | OutOfFuel => False
  end.
Proof. exact (_validate_port_range_cases int_beyond port_range). Qed.


(** ** Failures of the tunnels to the kernel *)

Lemma create_tunnels_cases l remote_ip server port : forall s w,
  exists r s' w',
    create_tunnels l remote_ip server port s w = (r, s', w') /\
    match r with
    | Return _ => True
    | Raise e =>
        exists kc, e = RuntimeError_ssh_tunnel (channel_value kc) /\
                   In kc (map (fun item => item.2.2) l)
    | OutOfFuel => False
    end.
Proof.
  induction l as [|[lp [rp kc]] rest IH]; intros s w; cbn [create_tunnels].
  - exists (Return tt), s, w. split; [reflexivity | exact I].
  - destruct (_create_ssh_tunnel kc lp rp remote_ip server port s w)
      as [[r1 s1] w1] eqn:Hone.
    assert (Hr1 : match r1 with
                  | Return _ => True
                  | Raise e => e = RuntimeError_ssh_tunnel (channel_value kc)
                  | OutOfFuel => False
                  end).
    { revert Hone. unfold _create_ssh_tunnel, _spawn_ssh_tunnel. prim. cbn.
      destruct (e_spawn (w_env w) (w_tick w)); cbn;
        intros H; inversion H; subst; auto. }
    destruct r1 as [[]|e|]; [| |destruct Hr1].
    + rewrite (bind_Return _ _ _ _ _ _ _ Hone).
      destruct (IH s1 w1) as (r & s' & w' & Hrest & Hr).
      exists r, s', w'. split; [exact Hrest|].
      destruct r as [|e|]; [exact I| |exact Hr].
      destruct Hr as (kc' & He & Hin). exists kc'. cbn. auto.
    + rewrite (bind_Raise _ _ _ _ _ _ _ Hone).
      exists (Raise e), s1, w1. split; [reflexivity|].
      exists kc. cbn. auto.
Qed.

(** X13.  [_tunnel_to_kernel] makes all its checks before it spawns a
    tunnel.  When it fails because the port range is exhausted, because
    the payload lacks one of the five channel ports (a [KeyError] for that
    key), because no ip is assigned, or because password-less ssh is
    refused (the [PermissionError]), no process has been created and the
    provisioner is as it was.  The only other failure is that a tunnel
    could not be spawned, and the error names one of the five channels. *)
Theorem _tunnel_to_kernel_checks_before_spawning
  (cf : gmap string pyval) (server : option string) (port : Z)
  (s : Provisioner) (w : World) :
  exists r s' w',
    _tunnel_to_kernel cf server port s w = (r, s', w') /\
    match r with
    | Return _ => True
    | Raise e =>
        (exists kc, e = RuntimeError_ssh_tunnel (channel_value kc) /\
                    In kc [SHELL; IOPUB; STDIN; HEARTBEAT; CONTROL]) \/
        (untouched s w s' w' /\
         (e = RuntimeError_port_range_exhausted \/
          (exists key, e = KeyError_key key /\ cf !! key = None) \/
          (e = TypeError_operand /\ server = None) \/
          (e = PermissionError_passwordless_ssh /\
           exists k, e_passwordless_ssh (w_env w) k = false)))
    | OutOfFuel => False
    end.
Proof.
  unfold _tunnel_to_kernel.
  pose proof (untouched_select_ports 5 s w) as Hu. unfold wp in Hu.
  destruct (select_ports 5 s w) as [[[lports|e|] s1] w1] eqn:Hsel.
  2: { rewrite (bind_Raise _ _ _ _ _ _ _ Hsel).
       exists (Raise e), s1, w1. split; [reflexivity|]. right.
       destruct Hu as [Hu He]. split; [exact Hu|]. left.
       injection He as ->. reflexivity. }
  2: { destruct Hu as [_ He]. discriminate He. }
  rewrite (bind_Return _ _ _ _ _ _ _ Hsel).
  assert (Hfail : forall e,
            (e = RuntimeError_port_range_exhausted \/
             (exists key, e = KeyError_key key /\ cf !! key = None) \/
             (e = TypeError_operand /\ server = None) \/
             (e = PermissionError_passwordless_ssh /\
              exists k, e_passwordless_ssh (w_env w) k = false)) ->
            exists r s' w',
              (Raise e : outcome (list Z), s1, w1) = (r, s', w') /\
              match r with
              | Return _ => True
              | Raise e =>
                  (exists kc, e = RuntimeError_ssh_tunnel (channel_value kc) /\
                              In kc [SHELL; IOPUB; STDIN; HEARTBEAT; CONTROL]) \/
                  (untouched s w s' w' /\
                   (e = RuntimeError_port_range_exhausted \/
                    (exists key, e = KeyError_key key /\ cf !! key = None) \/
                    (e = TypeError_operand /\ server = None) \/
                    (e = PermissionError_passwordless_ssh /\
                     exists k, e_passwordless_ssh (w_env w) k = false)))
              | OutOfFuel => False
              end).
  { intros e He. exists (Raise e), s1, w1. split; [reflexivity|].
    right. split; assumption. }
  unfold getitem.
  destruct (cf !! "shell_port") as [v0|] eqn:H0;
    [|apply Hfail; right; left; eauto].
  unfold bind at 1, ret at 1.
  destruct (cf !! "iopub_port") as [v1|] eqn:H1;
    [|apply Hfail; right; left; eauto].
  unfold bind at 1, ret at 1.
  destruct (cf !! "stdin_port") as [v2|] eqn:H2;
    [|apply Hfail; right; left; eauto].
  unfold bind at 1, ret at 1.
  destruct (cf !! "hb_port") as [v3|] eqn:H3;
    [|apply Hfail; right; left; eauto].
  unfold bind at 1, ret at 1.
  destruct (cf !! "control_port") as [v4|] eqn:H4;
    [|apply Hfail; right; left; eauto].
  unfold bind at 1, ret at 1.
  destruct (cf !! "ip") as [vip|] eqn:Hip;
    [|apply Hfail; right; left; eauto].
  unfold bind at 1, ret at 1.
  destruct server as [srv|]; [|apply Hfail; right; right; left; auto].
  unfold bind at 1, ret at 1.
  unfold try_passwordless_ssh.
  unfold bind at 1. unfold bind at 1, ask at 1. unfold bind at 1, env at 1.
  unfold ret at 1. cbn [w_env w_tick].
  destruct Hu as (-> & Henv & Hproc & Hkills & Hspawn).
  destruct (e_passwordless_ssh (w_env w1) (w_tick w1)) eqn:Hssh;
    cbn [negb].
  2: { unfold bind at 1, raise at 1.
       eexists _, _, _. split; [reflexivity|]. right.
       split; [repeat split; assumption|].
       right; right; right. split; [reflexivity|].
       exists (w_tick w1). rewrite <- Henv. exact Hssh. }
  unfold bind at 1, ret at 1.
  match goal with
  | |- context [bind (create_tunnels ?l ?rip ?srv ?p) _ ?s0 ?w0] =>
    destruct (create_tunnels_cases l rip srv p s0 w0)
      as (r & s' & w' & Hct & Hr)
  end.
  destruct r as [[]|e|]; [| |destruct Hr].
  - rewrite (bind_Return _ _ _ _ _ _ _ Hct).
    eexists _, _, _. split; [reflexivity | exact I].
  - rewrite (bind_Raise _ _ _ _ _ _ _ Hct).
    eexists _, _, _. split; [reflexivity|]. left.
    destruct Hr as (kc & -> & Hin). exists kc. split; [reflexivity|].
    clear -Hin.
    destruct lports as [|? [|? [|? [|? [|? rest]]]]]; cbn in Hin; cbn;
      try (destruct rest; cbn in Hin); intuition auto.
Qed.

(** * Preparation of a launch *)

(** ** Authorization *)

(** X14.  [_enforce_authorization] lets a launch pass exactly when the
    kernel user is not in [unauthorized_users] and [authorized_users] is
    empty or has the user.  A user in both sets is refused, as not
    authorized.  Every refusal is a [PermissionError].  Passed or refused,
    the [env] of the launch has got [EG_IMPERSONATION_ENABLED], as [True]
    or [False], and nothing else of it has changed.  Without an [env] the
    method fails with a [TypeError]. *)
Theorem _enforce_authorization_decides
  (self : Launch.Attributes) (env : Launch.env_dict) :
  let user := Launch.kernel_username self in
  exists r,
    Launch._enforce_authorization self (Some env)
    = (r, Some (<["EG_IMPERSONATION_ENABLED" :=
                    PStr (if Launch.impersonation_enabled self
                          then "True" else "False")]> env)) /\
    (r = Launch.Ok tt <->
     Launch.in_users user (Launch.unauthorized_users self) = false /\
     (Launch.authorized_users self = ∅ \/
      Launch.in_users user (Launch.authorized_users self) = true)) /\
    (Launch.in_users user (Launch.unauthorized_users self) = true ->
     r = Launch.Fail (Launch._raise_authorization_error self "not authorized")) /\
    (r <> Launch.Ok tt -> exists message,
       r = Launch.Fail (Launch.PermissionError message)) /\
    Launch._enforce_authorization self None
    = (Launch.Fail Launch.TypeError_item_assignment, None).
Proof.
  cbv zeta. unfold Launch._enforce_authorization.
  assert (Hstr : Launch.py_str (PBool (Launch.impersonation_enabled self))
                 = if Launch.impersonation_enabled self
                   then "True" else "False")
    by (destruct (Launch.impersonation_enabled self); reflexivity).
  rewrite Hstr.
  assert (Hsize : (0 <? Z.of_nat (size (Launch.authorized_users self))) = false
                  <-> Launch.authorized_users self = ∅).
  { rewrite Z.ltb_ge. split.
    - intros Hz. apply leibniz_equiv, size_empty_iff. lia.
    - intros ->. rewrite size_empty. lia. }
  destruct (Launch.in_users _ (Launch.unauthorized_users self)) eqn:Hun.
  - eexists. split; [reflexivity|].
    split; [split; [discriminate | intros [? _]; discriminate]|].
    split; [reflexivity|]. split; [|reflexivity].
    intros _. unfold Launch._raise_authorization_error. eauto.
  - destruct (0 <? _) eqn:Hlen.
    + destruct (Launch.in_users _ (Launch.authorized_users self)) eqn:Hin; cbn.
      * eexists. split; [reflexivity|].
        split; [split; auto|]. split; [discriminate|].
        split; [congruence | reflexivity].
      * eexists. split; [reflexivity|].
        split.
        { split; [discriminate|]. intros [_ [Hempty | ?]]; [|discriminate].
          apply Hsize in Hempty. congruence. }
        split; [discriminate|]. split; [|reflexivity].
        intros _. unfold Launch._raise_authorization_error. eauto.
    + eexists. split; [reflexivity|].
      split; [split; [intros _; split; [reflexivity|left; apply Hsize, eq_refl]
                     |reflexivity]|].
      split; [discriminate|]. split; [congruence | reflexivity].
Qed.

(** ** Prohibited ids *)

(** X15.  [_enforce_prohibited_ids] lets a launch pass exactly when
    neither the uid nor the gid of the kernel, by default 1000 and 100, is
    one of the prohibited strings; the uid is checked first.  When it
    passes, the [env] has the two ids ([KERNEL_UID], [KERNEL_GID]), is
    otherwise unchanged, and passes again unchanged.  When it refuses, the
    [env] is as it was.  With the settings unset exactly the id ["0"] is
    prohibited, as a string: the integer 0 is not. *)
Theorem _enforce_prohibited_ids_decides
  (uids gids : option string) (env : Launch.env_dict) :
  let uid := default (PStr Launch.default_kernel_uid) (env !! "KERNEL_UID") in
  let gid := default (PStr Launch.default_kernel_gid) (env !! "KERNEL_GID") in
  exists r out,
    Launch._enforce_prohibited_ids uids gids (Some env) = (r, Some out) /\
    (r = Launch.Ok tt <->
     Launch.in_ids uid (Launch.prohibited_uids uids) = false /\
     Launch.in_ids gid (Launch.prohibited_gids gids) = false) /\
    (Launch.in_ids uid (Launch.prohibited_uids uids) = true ->
     r = Launch.Fail (Launch.denied "UID" uid)) /\
    (r = Launch.Ok tt ->
     out !! "KERNEL_UID" = Some uid /\ out !! "KERNEL_GID" = Some gid /\
     (forall key, key <> "KERNEL_UID" -> key <> "KERNEL_GID" ->
        out !! key = env !! key) /\
     Launch._enforce_prohibited_ids uids gids (Some out)
     = (Launch.Ok tt, Some out)) /\
    (r <> Launch.Ok tt -> out = env) /\
    (uids = None -> gids = None ->
     (r = Launch.Ok tt <-> uid <> PStr "0" /\ gid <> PStr "0")).
Proof.
  cbv zeta. unfold Launch._enforce_prohibited_ids, Launch.env_dict in *.
  set (uid := default (PStr Launch.default_kernel_uid) (env !! "KERNEL_UID")).
  set (gid := default (PStr Launch.default_kernel_gid) (env !! "KERNEL_GID")).
  assert (Hsplit : Py.split "0" "," = ["0"]) by reflexivity.
  assert (Hzero : forall v, Launch.in_ids v ["0"] = false <-> v <> PStr "0").
  { intros [| | |u]; cbn; try (split; [discriminate | reflexivity]).
    rewrite bool_decide_eq_false, list_elem_of_singleton.
    split; [intros Hne Heq; apply Hne; congruence
           |intros Hne Heq; apply Hne; congruence]. }
  destruct (Launch.in_ids uid (Launch.prohibited_uids uids)) eqn:Hu.
  - eexists _, _. split; [reflexivity|].
    split; [split; [discriminate | intros [? _]; discriminate]|].
    split; [reflexivity|]. split; [discriminate|]. split; [reflexivity|].
    intros -> ->. split; [discriminate|]. intros [Hne _].
    apply Hzero in Hne. unfold Launch.prohibited_uids in Hu.
    cbn [default] in Hu. rewrite Hsplit in Hu. congruence.
  - destruct (Launch.in_ids gid (Launch.prohibited_gids gids)) eqn:Hg.
    + eexists _, _. split; [reflexivity|].
      split; [split; [discriminate | intros [_ ?]; discriminate]|].
      split; [discriminate|]. split; [discriminate|]. split; [reflexivity|].
      intros -> ->. split; [discriminate|]. intros [_ Hne].
      apply Hzero in Hne. unfold Launch.prohibited_gids in Hg.
      cbn [default] in Hg. rewrite Hsplit in Hg. congruence.
    + eexists _, _. split; [reflexivity|].
      split; [split; auto|]. split; [discriminate|].
      split; [|split; [congruence|]].
      * intros _.
        assert (H1 : (<["KERNEL_GID":=gid]> (<["KERNEL_UID":=uid]> env)
                        : gmap string pyval) !! "KERNEL_UID" = Some uid).
        { rewrite lookup_insert_ne by discriminate.
          apply lookup_insert_eq. }
        assert (H2 : (<["KERNEL_GID":=gid]> (<["KERNEL_UID":=uid]> env)
                        : gmap string pyval) !! "KERNEL_GID" = Some gid)
          by apply lookup_insert_eq.
        rewrite H1, H2.
        split; [reflexivity|]. split; [reflexivity|].
        split; [intros key Hk1 Hk2; rewrite !lookup_insert_ne by congruence;
                reflexivity|].
        cbn [default from_option id]. rewrite Hu, Hg.
        rewrite (insert_id _ "KERNEL_UID" uid) by exact H1.
        rewrite (insert_id _ "KERNEL_GID" gid) by exact H2.
        reflexivity.
      * intros -> ->. split; [|reflexivity]. intros _.
        unfold Launch.prohibited_uids in Hu.
        unfold Launch.prohibited_gids in Hg. cbn [default] in Hu, Hg.
        rewrite Hsplit in Hu, Hg. split; apply Hzero; assumption.
Qed.

(** ** The checks of a container launch *)

Lemma authorized_users_empty (users : gset string) :
  (0 <? Z.of_nat (size users)) = false <-> users = ∅.
Proof.
  rewrite Z.ltb_ge. split.
  - intros Hz. apply leibniz_equiv, size_empty_iff. lia.
  - intros ->. rewrite size_empty. lia.
Qed.

(** X16.  The checks that the [pre_launch] of a container provisioner adds
    to the library's.  The kernel user is the [KERNEL_USERNAME] of the
    [env], or else the current user, and is written back to the [env].
    The launch passes exactly when that user is authorized and neither id
    is prohibited.  Authorization comes first: when it refuses, the error
    is its own and the container settings have not been written.  When
    the launch passes, the [env] has the user, the impersonation flag, the
    two images and the two ids, and, unless working directories are
    mirrored, no [KERNEL_WORKING_DIR]. *)
Theorem pre_launch_checks_in_order
  (uids gids : option string) (mirror : bool) (getuser : string)
  (self : Launch.Attributes) (env : Launch.env_dict) :
  let user := default (PStr getuser) (env !! "KERNEL_USERNAME") in
  let self' := Launch.set_kernel_username user self in
  let uid := default (PStr Launch.default_kernel_uid) (env !! "KERNEL_UID") in
  let gid := default (PStr Launch.default_kernel_gid) (env !! "KERNEL_GID") in
  let authorized :=
    Launch.in_users user (Launch.unauthorized_users self) = false /\
    (Launch.authorized_users self = ∅ \/
     Launch.in_users user (Launch.authorized_users self) = true) in
  exists r out,
    Launch.pre_launch_checks uids gids mirror getuser self (Some env)
    = (r, self', Some out) /\
    out !! "KERNEL_USERNAME" = Some user /\
    is_Some (out !! "EG_IMPERSONATION_ENABLED") /\
    (r = Launch.Ok tt <->
     authorized /\
     Launch.in_ids uid (Launch.prohibited_uids uids) = false /\
     Launch.in_ids gid (Launch.prohibited_gids gids) = false) /\
    (~ authorized ->
     (exists clause,
        r = Launch.Fail (Launch._raise_authorization_error self' clause)) /\
     out !! "KERNEL_IMAGE" = env !! "KERNEL_IMAGE" /\
     out !! "KERNEL_EXECUTOR_IMAGE" = env !! "KERNEL_EXECUTOR_IMAGE") /\
    (r = Launch.Ok tt ->
     out !! "KERNEL_IMAGE" = Some (of_opt_str (Launch.image_name self)) /\
     out !! "KERNEL_EXECUTOR_IMAGE"
     = Some (of_opt_str (Launch.executor_image_name self)) /\
     out !! "KERNEL_UID" = Some uid /\ out !! "KERNEL_GID" = Some gid /\
     out !! "KERNEL_WORKING_DIR"
     = if mirror then env !! "KERNEL_WORKING_DIR" else None).
Proof.
  cbv zeta.
  unfold Launch.pre_launch_checks, Launch.pre_launch_authorize,
    Launch._enforce_authorization, Launch.pre_launch_container,
    Launch._enforce_prohibited_ids, Launch.env_dict in *.
  cbn [fmap option_fmap option_map default from_option id
       Launch.kernel_username Launch.unauthorized_users
       Launch.authorized_users Launch.impersonation_enabled
       Launch.image_name Launch.executor_image_name
       Launch.set_kernel_username].
  set (user := default (PStr getuser) (env !! "KERNEL_USERNAME")).
  set (uid := default (PStr Launch.default_kernel_uid) (env !! "KERNEL_UID")).
  set (gid := default (PStr Launch.default_kernel_gid) (env !! "KERNEL_GID")).
  set (flag := PStr (Launch.py_str (PBool (Launch.impersonation_enabled self)))).
  pose proof (authorized_users_empty (Launch.authorized_users self)) as Hsize.
  assert (Hpass : forall env0 : gmap string pyval,
            env0 !! "KERNEL_UID" = env !! "KERNEL_UID" ->
            env0 !! "KERNEL_GID" = env !! "KERNEL_GID" ->
            default (PStr Launch.default_kernel_uid) (env0 !! "KERNEL_UID") = uid /\
            default (PStr Launch.default_kernel_gid) (env0 !! "KERNEL_GID") = gid).
  { intros env0 -> ->. split; reflexivity. }
  destruct (Launch.in_users user (Launch.unauthorized_users self)) eqn:Hun.
  { eexists _, _. split; [reflexivity|]. lookup_literal.
    split; [reflexivity|]. split; [eauto|].
    split; [split; [discriminate | intros [[? _] _]; discriminate]|].
    split; [intros _; split; [eauto|split; reflexivity]|discriminate]. }
  assert (Hcontainer :
    forall base : gmap string pyval,
      base !! "KERNEL_USERNAME" = Some user ->
      is_Some (base !! "EG_IMPERSONATION_ENABLED") ->
      (forall key, key <> "KERNEL_USERNAME" ->
                   key <> "EG_IMPERSONATION_ENABLED" ->
                   base !! key = env !! key) ->
      exists r out,
        (let '(r, kwargs_env) :=
           (let env0 := <["KERNEL_IMAGE" := of_opt_str (Launch.image_name self)]> base in
            let env1 := <["KERNEL_EXECUTOR_IMAGE" :=
                            of_opt_str (Launch.executor_image_name self)]> env0 in
            let env2 := if negb mirror
                        then match env1 !! "KERNEL_WORKING_DIR" with
                             | Some _ => delete "KERNEL_WORKING_DIR" env1
                             | None => env1
                             end
                        else env1 in
            let kernel_uid := default (PStr Launch.default_kernel_uid)
                                (env2 !! "KERNEL_UID") in
            let kernel_gid := default (PStr Launch.default_kernel_gid)
                                (env2 !! "KERNEL_GID") in
            if Launch.in_ids kernel_uid (Launch.prohibited_uids uids)
            then (Launch.Fail (Launch.denied "UID" kernel_uid), Some env2)
            else if Launch.in_ids kernel_gid (Launch.prohibited_gids gids)
                 then (Launch.Fail (Launch.denied "GID" kernel_gid), Some env2)
                 else (Launch.Ok tt,
                       Some (<["KERNEL_GID" := kernel_gid]>
                               (<["KERNEL_UID" := kernel_uid]> env2))))
         in (r, Launch.set_kernel_username user self, kwargs_env))
        = (r, Launch.set_kernel_username user self, Some out) /\
        out !! "KERNEL_USERNAME" = Some user /\
        is_Some (out !! "EG_IMPERSONATION_ENABLED") /\
        (r = Launch.Ok tt <->
         Launch.in_ids uid (Launch.prohibited_uids uids) = false /\
         Launch.in_ids gid (Launch.prohibited_gids gids) = false) /\
        (r = Launch.Ok tt ->
         out !! "KERNEL_IMAGE" = Some (of_opt_str (Launch.image_name self)) /\
         out !! "KERNEL_EXECUTOR_IMAGE"
         = Some (of_opt_str (Launch.executor_image_name self)) /\
         out !! "KERNEL_UID" = Some uid /\ out !! "KERNEL_GID" = Some gid /\
         out !! "KERNEL_WORKING_DIR"
         = if mirror then env !! "KERNEL_WORKING_DIR" else None)).
  { intros base Huser Hflag Hother. cbv zeta.
    set (env1 := <["KERNEL_EXECUTOR_IMAGE" := _]> (<["KERNEL_IMAGE" := _]> base)).
    set (env2 := if negb mirror then _ else env1).
    assert (Henv2 : forall key, key <> "KERNEL_WORKING_DIR" ->
                      env2 !! key = env1 !! key).
    { intros key Hkey. unfold env2. destruct mirror; cbn; [reflexivity|].
      destruct (env1 !! "KERNEL_WORKING_DIR");
        [apply lookup_delete_ne; congruence | reflexivity]. }
    assert (Hwd : env2 !! "KERNEL_WORKING_DIR"
                  = if mirror then env !! "KERNEL_WORKING_DIR" else None).
    { unfold env2. destruct mirror; cbn.
      - unfold env1. lookup_literal. apply Hother; discriminate.
      - destruct (env1 !! "KERNEL_WORKING_DIR") eqn:Hw;
          [apply lookup_delete_eq | exact Hw]. }
    assert (Huid : env2 !! "KERNEL_UID" = env !! "KERNEL_UID").
    { rewrite Henv2 by discriminate. unfold env1. lookup_literal.
      apply Hother; discriminate. }
    assert (Hgid : env2 !! "KERNEL_GID" = env !! "KERNEL_GID").
    { rewrite Henv2 by discriminate. unfold env1. lookup_literal.
      apply Hother; discriminate. }
    rewrite Huid, Hgid. fold uid gid.
    assert (Hu2 : env2 !! "KERNEL_USERNAME" = Some user).
    { rewrite Henv2 by discriminate. unfold env1. lookup_literal.
      exact Huser. }
    assert (Hf2 : is_Some (env2 !! "EG_IMPERSONATION_ENABLED")).
    { rewrite Henv2 by discriminate. unfold env1. lookup_literal.
      exact Hflag. }
    destruct (Launch.in_ids uid (Launch.prohibited_uids uids)) eqn:Hu.
    { eexists _, _. split; [reflexivity|]. split; [exact Hu2|].
      split; [exact Hf2|].
      split; [split; [discriminate | intros [? _]; discriminate]|].
      discriminate. }
    destruct (Launch.in_ids gid (Launch.prohibited_gids gids)) eqn:Hg.
    { eexists _, _. split; [reflexivity|]. split; [exact Hu2|].
      split; [exact Hf2|].
      split; [split; [discriminate | intros [_ ?]; discriminate]|].
      discriminate. }
    eexists _, _. split; [reflexivity|]. lookup_literal.
    split; [exact Hu2|]. split; [exact Hf2|]. split; [split; auto|].
    intros _. rewrite !Henv2 by discriminate. unfold env1. lookup_literal.
    repeat split; try reflexivity. exact Hwd. }
  assert (Hbase :
    let base := <["EG_IMPERSONATION_ENABLED" := flag]>
                  (<["KERNEL_USERNAME" := user]> env) in
    base !! "KERNEL_USERNAME" = Some user /\
    is_Some (base !! "EG_IMPERSONATION_ENABLED") /\
    (forall key, key <> "KERNEL_USERNAME" ->
                 key <> "EG_IMPERSONATION_ENABLED" ->
                 base !! key = env !! key)).
  { cbv zeta. lookup_literal. split; [reflexivity|]. split; [eauto|].
    intros key H1 H2. rewrite !lookup_insert_ne by congruence. reflexivity. }
  destruct Hbase as (Hb1 & Hb2 & Hb3).
  destruct (0 <? Z.of_nat (size (Launch.authorized_users self))) eqn:Hlen.
  - destruct (Launch.in_users user (Launch.authorized_users self)) eqn:Hin;
      cbn [negb].
    + destruct (Hcontainer _ Hb1 Hb2 Hb3) as (r & out & Hrun & Ho1 & Ho2 & Hiff & Hok).
      exists r, out. split; [exact Hrun|]. split; [exact Ho1|].
      split; [exact Ho2|].
      split; [rewrite Hiff; tauto|].
      split; [intros Hnot; exfalso; apply Hnot; auto | exact Hok].
    + eexists _, _. split; [reflexivity|]. lookup_literal.
      split; [reflexivity|]. split; [eauto|].
      assert (Hnot : ~ (false = false /\
                        (Launch.authorized_users self = ∅ \/ false = true))).
      { intros [_ [Hempty | ?]]; [|discriminate].
        apply Hsize in Hempty. congruence. }
      split; [split; [discriminate | intros [? _]; tauto]|].
      split; [intros _; split; [eauto|split; reflexivity]|discriminate].
  - destruct (Hcontainer _ Hb1 Hb2 Hb3) as (r & out & Hrun & Ho1 & Ho2 & Hiff & Hok).
    exists r, out. split; [exact Hrun|]. split; [exact Ho1|].
    split; [exact Ho2|].
    assert (Hempty : Launch.authorized_users self = ∅) by (apply Hsize, eq_refl).
    split; [rewrite Hiff; tauto|].
    split; [intros Hnot; exfalso; apply Hnot; auto | exact Hok].
Qed.

(** ** The environment of the kernel *)

(** X17.  [_finalize_env], whatever [str.lower] is.  The result never has
    [RP_REMOTE_PWD] or [LS_COLORS]; [KERNEL_ID] is the kernel id, whatever
    the [env] said; a [KERNEL_LANGUAGE] of the [env] is kept, and is
    otherwise the lowered language of the kernel specification, or
    [unknown-kernel-language] when that is empty; every other entry is as
    it was.  Finalizing twice is finalizing once. *)
Theorem _finalize_env_settles
  (lower : string -> string) (self : Launch.Attributes)
  (env : Launch.env_dict) :
  let env' := Launch._finalize_env lower self env in
  env' !! "RP_REMOTE_PWD" = None /\ env' !! "LS_COLORS" = None /\
  env' !! "KERNEL_ID" = Some (of_opt_str (Launch.kernel_id self)) /\
  env' !! "KERNEL_LANGUAGE"
  = Some (match env !! "KERNEL_LANGUAGE" with
          | Some v => v
          | None =>
              PStr (match Launch.language self with
                    | EmptyString => "unknown-kernel-language"
                    | _ => lower (Launch.language self)
                    end)
          end) /\
  (forall key,
     key <> "RP_REMOTE_PWD" -> key <> "LS_COLORS" -> key <> "KERNEL_ID" ->
     key <> "KERNEL_LANGUAGE" -> env' !! key = env !! key) /\
  Launch._finalize_env lower self env' = env'.
Proof.
  cbv zeta. unfold Launch._finalize_env, Launch.env_pop_list, Launch.env_dict in *.
  cbn [foldl].
  set (kernel_language := if 0 <? Z.of_nat (String.length (Launch.language self))
                          then lower (Launch.language self)
                          else "unknown-kernel-language").
  assert (Hlang : kernel_language
                  = match Launch.language self with
                    | EmptyString => "unknown-kernel-language"
                    | _ => lower (Launch.language self)
                    end).
  { unfold kernel_language. destruct (Launch.language self); reflexivity. }
  rewrite <- Hlang. clearbody kernel_language.
  rewrite (lookup_insert_ne env "KERNEL_ID" "KERNEL_LANGUAGE") by discriminate.
  set (lang := default (PStr kernel_language) (env !! "KERNEL_LANGUAGE")).
  assert (Hdefault : lang = match env !! "KERNEL_LANGUAGE" with
                            | Some v => v
                            | None => PStr kernel_language
                            end)
    by (unfold lang; destruct (env !! "KERNEL_LANGUAGE"); reflexivity).
  rewrite <- Hdefault.
  set (env' := delete "LS_COLORS" (delete "RP_REMOTE_PWD" _)).
  assert (H1 : env' !! "RP_REMOTE_PWD" = None).
  { unfold env'. rewrite lookup_delete_ne by discriminate.
    apply lookup_delete_eq. }
  assert (H2 : env' !! "LS_COLORS" = None) by apply lookup_delete_eq.
  assert (H3 : env' !! "KERNEL_ID" = Some (of_opt_str (Launch.kernel_id self))).
  { unfold env'. lookup_literal. reflexivity. }
  assert (H4 : env' !! "KERNEL_LANGUAGE" = Some lang).
  { unfold env'. lookup_literal. reflexivity. }
  do 4 (split; [assumption|]). split.
  - intros key Ha Hb Hc Hd. unfold env'.
    rewrite !lookup_delete_ne by congruence.
    rewrite !lookup_insert_ne by congruence. reflexivity.
  - rewrite (lookup_insert_ne env' "KERNEL_ID" "KERNEL_LANGUAGE") by discriminate.
    rewrite H4. cbn [default from_option id].
    rewrite (insert_id env' "KERNEL_ID") by exact H3.
    rewrite (insert_id env' "KERNEL_LANGUAGE") by exact H4.
    rewrite (delete_id env' "RP_REMOTE_PWD") by exact H1.
    apply delete_id. exact H2.
Qed.

(** X18.  [_scrub_kwargs] gives the keyword arguments without
    [extra_arguments] and [kernel_id], and with every other one as it
    was; scrubbing what is scrubbed changes nothing. *)
Theorem _scrub_kwargs_removes_two {V} (kwargs : gmap string V) :
  Launch._scrub_kwargs kwargs !! "extra_arguments" = None /\
  Launch._scrub_kwargs kwargs !! "kernel_id" = None /\
  (forall key, key <> "extra_arguments" -> key <> "kernel_id" ->
     Launch._scrub_kwargs kwargs !! key = kwargs !! key) /\
  Launch._scrub_kwargs (Launch._scrub_kwargs kwargs)
  = Launch._scrub_kwargs kwargs.
Proof.
  unfold Launch._scrub_kwargs. cbn [foldl].
  assert (H1 : delete "kernel_id" (delete "extra_arguments" kwargs)
               !! "extra_arguments" = None).
  { rewrite lookup_delete_ne by discriminate. apply lookup_delete_eq. }
  assert (H2 : delete "kernel_id" (delete "extra_arguments" kwargs)
               !! "kernel_id" = None) by apply lookup_delete_eq.
  split; [exact H1|]. split; [exact H2|]. split.
  - intros key Ha Hb. rewrite !lookup_delete_ne by congruence. reflexivity.
  - rewrite (delete_id _ "extra_arguments") by exact H1.
    apply delete_id. exact H2.
Qed.

(** ** Persistence *)

(** X19.  The provisioner information of a container provisioner loads
    back: [load_provisioner_info] of what [get_provisioner_info] gave
    restores [assigned_node_ip] and touches no other attribute, whatever
    provisioner loads it.  Loading fails, with a [KeyError], exactly when
    the information has no [assigned_node_ip]; other entries are
    ignored. *)
Theorem provisioner_info_round_trip
  (self other : Launch.Attributes) (info : gmap string pyval) :
  Launch.load_provisioner_info self (Launch.get_provisioner_info self)
  = Launch.Ok self /\
  Launch.load_provisioner_info other (Launch.get_provisioner_info self)
  = Launch.Ok (Launch.set_assigned_node_ip (Launch.assigned_node_ip self) other) /\
  (Launch.load_provisioner_info other info
   = Launch.Fail (Launch.KeyError "assigned_node_ip")
   <-> info !! "assigned_node_ip" = None) /\
  (forall v, info !! "assigned_node_ip" = Some v ->
     Launch.load_provisioner_info other info
     = Launch.Ok (Launch.set_assigned_node_ip v other)).
Proof.
  unfold Launch.load_provisioner_info, Launch.get_provisioner_info.
  rewrite lookup_insert_eq.
  split; [destruct self; reflexivity|]. split; [reflexivity|].
  split.
  - destruct (info !! "assigned_node_ip"); split; congruence.
  - intros v ->. reflexivity.
Qed.

(** ** Substitutions in the launch command *)

Lemma append_nil (s : string) : (EmptyString ++ s)%string = s.
Proof. reflexivity. Qed.

Lemma append_cons c (s1 s2 : string) :
  (String c s1 ++ s2)%string = String c (s1 ++ s2)%string.
Proof. reflexivity. Qed.

Lemma append_assoc_string (s1 s2 s3 : string) :
  ((s1 ++ s2) ++ s3)%string = (s1 ++ (s2 ++ s3))%string.
Proof.
  induction s1 as [|c s1 IH]; [reflexivity|].
  rewrite !append_cons, IH. reflexivity.
Qed.

Lemma word_of_name name : forall rest,
  Launch.is_word_string name = true ->
  Launch.word (name ++ String "}" rest) = (name, String "}" rest).
Proof.
  induction name as [|c name IH]; intros rest Hname; simpl in *.
  - reflexivity.
  - apply andb_true_iff in Hname as [Hc Hname]. rewrite Hc.
    rewrite (IH rest Hname). reflexivity.
Qed.

Lemma match_here_placeholder name rest :
  Launch.is_name name = true ->
  Launch.match_here (String "{" (name ++ String "}" rest)) = Some name.
Proof.
  intros Hname. unfold Launch.match_here.
  rewrite Ascii.eqb_refl.
  destruct name as [|c name]; [discriminate Hname|].
  rewrite (word_of_name (String c name) rest Hname).
  rewrite Ascii.eqb_refl. reflexivity.
Qed.

Lemma sub_aux_skip ns p : forall s,
  Launch.sub_aux ns (String.length p) (p ++ s) = Launch.sub_aux ns 0 s.
Proof.
  induction p as [|c p IH]; intros s; simpl.
  - reflexivity.
  - apply IH.
Qed.

Lemma sub_aux_plain ns pre : forall s,
  Launch.plain pre = true ->
  Launch.sub_aux ns 0 (pre ++ s)
  = match Launch.sub_aux ns 0 s with
    | Launch.Ok rest => Launch.Ok (pre ++ rest)
    | Launch.Fail e => Launch.Fail e
    end.
Proof.
  induction pre as [|c pre IH]; intros s Hplain.
  - rewrite append_nil.
    destruct (Launch.sub_aux ns 0 s); [rewrite append_nil|]; reflexivity.
  - cbn [Launch.plain] in Hplain.
    apply andb_true_iff in Hplain as [Hc Hplain].
    rewrite append_cons.
    cbn [Launch.sub_aux Launch.match_here].
    apply negb_true_iff in Hc. rewrite Hc.
    rewrite (IH s Hplain).
    destruct (Launch.sub_aux ns 0 s); [rewrite append_cons|]; reflexivity.
Qed.

Lemma sub_aux_placeholder ns name rest :
  Launch.is_name name = true ->
  Launch.sub_aux ns 0 (String "{" (name ++ String "}" rest))
  = match Launch.from_ns ns name with
    | Launch.Ok piece =>
        match Launch.sub_aux ns 0 rest with
        | Launch.Ok rest' => Launch.Ok (piece ++ rest')
        | Launch.Fail e => Launch.Fail e
        end
    | Launch.Fail e => Launch.Fail e
    end.
Proof.
  intros Hname. cbn [Launch.sub_aux].
  rewrite (match_here_placeholder name rest Hname).
  destruct (Launch.from_ns ns name) as [piece|e]; [|reflexivity].
  assert (Hskip : Launch.sub_aux ns (S (String.length name))
                    (name ++ String "}" rest)
                  = Launch.sub_aux ns 0 rest).
  { clear. revert rest. induction name as [|c name IH]; intros rest.
    - reflexivity.
    - simpl. apply IH. }
  rewrite Hskip. reflexivity.
Qed.

Lemma pat_sub_plain ns arg :
  Launch.plain arg = true -> Launch.pat_sub ns arg = Launch.Ok arg.
Proof.
  intros Hplain. unfold Launch.pat_sub.
  pose proof (sub_aux_plain ns arg EmptyString Hplain) as H.
  assert (Hnil : forall s : string, (s ++ EmptyString)%string = s).
  { induction s as [|c s IH]; [reflexivity|].
    rewrite append_cons, IH. reflexivity. }
  rewrite Hnil in H. cbn [Launch.sub_aux] in H. rewrite Hnil in H. exact H.
Qed.

Lemma sub_all_plain ns argv :
  Forall (fun arg => Launch.plain arg = true) argv ->
  Launch.sub_all ns argv = Launch.Ok argv.
Proof.
  induction 1 as [|arg argv Harg _ IH]; cbn [Launch.sub_all]; [reflexivity|].
  rewrite (pat_sub_plain ns arg Harg), IH. reflexivity.
Qed.

(** X20.  The launch command is left as it is when none of
    [response_address], [port_range], [kernel_id] and [public_key] is set,
    whatever the keyword arguments and the command are, and when no
    argument of the command has an opening brace. *)
Theorem substitute_cmd_leaves_plain_commands
  (self : Launch.Attributes) (s : Provisioner)
  (kwargs : gmap string Launch.kwval) (argv : list string) :
  Launch.substitutes self s = false \/
  Forall (fun arg => Launch.plain arg = true) argv ->
  Launch.substitute_cmd self s kwargs argv = Launch.Ok argv.
Proof.
  unfold Launch.substitute_cmd, Launch.substitutes.
  intros [-> | Hplain]; [reflexivity|].
  destruct (_ || _); [|reflexivity].
  apply sub_all_plain, Hplain.
Qed.

(** X21.  A placeholder [{name}] between two texts without an opening
    brace, when [pre_launch] substitutes.  A name that the namespace does
    not have is left in place, braces included.  A string value replaces
    the placeholder as it is: it is not searched for placeholders.  The
    value [None] removes the placeholder.  A value of another type fails
    with a [TypeError]. *)
Theorem substitute_cmd_placeholder
  (self : Launch.Attributes) (s : Provisioner)
  (kwargs : gmap string Launch.kwval) (pre name post : string) :
  Launch.substitutes self s = true ->
  Launch.plain pre = true -> Launch.is_name name = true ->
  Launch.plain post = true ->
  Launch.substitute_cmd self s kwargs
    [(pre ++ String "{" (name ++ String "}" post))%string]
  = match Launch.namespace self s kwargs !! name with
    | Some (Launch.KStr value) => Launch.Ok [(pre ++ value ++ post)%string]
    | Some Launch.KNone => Launch.Ok [(pre ++ post)%string]
    | Some Launch.KObject => Launch.Fail Launch.TypeError_expected_str
    | None =>
        Launch.Ok [(pre ++ String "{" (name ++ String "}" post))%string]
    end.
Proof.
  intros Hsub Hpre Hname Hpost.
  unfold Launch.substitute_cmd. unfold Launch.substitutes in Hsub.
  rewrite Hsub. cbn [Launch.sub_all]. unfold Launch.pat_sub.
  rewrite (sub_aux_plain _ pre _ Hpre).
  rewrite (sub_aux_placeholder _ name post Hname).
  pose proof (pat_sub_plain (Launch.namespace self s kwargs) post Hpost)
    as Hrest.
  unfold Launch.pat_sub in Hrest. rewrite Hrest.
  unfold Launch.from_ns.
  destruct (Launch.namespace self s kwargs !! name) as [[value| |]|];
    try reflexivity.
  change ("{" ++ name ++ "}")%string with (String "{" (name ++ "}")%string).
  rewrite append_cons, append_assoc_string. reflexivity.
Qed.

(** X22.  In the namespace of the substitutions an attribute that is set
    comes before a keyword argument of its name: [kernel_id],
    [response_address], [public_key] and [port_range] are those of the
    provisioner when it has them, and those of the keyword arguments
    when it has not.  Every other name is a keyword argument. *)
Theorem namespace_prefers_attributes
  (self : Launch.Attributes) (s : Provisioner)
  (kwargs : gmap string Launch.kwval) :
  let ns := Launch.namespace self s kwargs in
  let attribute (a : option string) (key : string) :=
    if Launch.is_set a then Launch.KStr <$> a else kwargs !! key in
  ns !! "kernel_id" = attribute (Launch.kernel_id self) "kernel_id" /\
  ns !! "response_address"
  = attribute (Launch.response_address self) "response_address" /\
  ns !! "public_key" = attribute (Launch.public_key self) "public_key" /\
  ns !! "port_range" = attribute (Some (port_range s)) "port_range" /\
  (forall key,
     key <> "kernel_id" -> key <> "response_address" ->
     key <> "public_key" -> key <> "port_range" ->
     ns !! key = kwargs !! key).
Proof.
  cbv zeta. unfold Launch.namespace, Launch.put.
  destruct (Launch.kernel_id self) as [kid|];
    destruct (Launch.response_address self) as [addr|];
    destruct (Launch.public_key self) as [key|];
    repeat match goal with
      | |- context [Launch.is_set ?a] => destruct (Launch.is_set a) eqn:?
      end;
    cbn [fmap option_fmap option_map];
    lookup_literal;
    repeat split; try reflexivity;
    try (intros k H1 H2 H3 H4; rewrite ?lookup_insert_ne by congruence;
         reflexivity);
    try match goal with
        | H : Launch.is_set None = true |- _ => discriminate H
        end.
Qed.

(** ** The tunnel of the communication port *)

(** X23.  With tunneling enabled and a payload that has a [comm_port],
    when [_setup_connection_info] returns the communication port is
    tunneled: [comm_port] is a port that [select_ports] allocated locally
    and [comm_ip] is the loopback address; [connection_info] has that
    local port; the tunnel process is tracked under [EG_COMM]; and the
    payload as it came, with the assigned ip, is kept in
    [tunneled_connect_info], remote communication port included.  The
    tunnel was spawned: the last three things done are the bind and the
    close of the local port and the spawn of the tracked process, a new
    one, from the local port to the payload's communication port at the
    assigned ip, through it over the ssh port; the fifteen events before
    are those of the kernel channels. *)
Theorem tunneled_communication_port
  (payload : gmap string pyval) (cp : pyval) (s : Provisioner) (w : World)
  (s' : Provisioner) (w' : World) :
  e_tunneling_enabled (w_env w) = true ->
  payload !! "comm_port" = Some cp ->
  _setup_connection_info payload s w = (Return tt, s', w') ->
  exists remote h earlier,
    py_int cp s w = (Return remote, s, w) /\
    comm_ip s' = PStr "127.0.0.1" /\
    port_ok s (comm_port s') /\ 0 < comm_port s' /\
    connection_info s' !! "comm_port" = Some (PInt (comm_port s')) /\
    tunnel_processes s' !! channel_value COMMUNICATION = Some h /\
    tunneled_connect_info s'
    = Some (<["ip" := of_opt_str (assigned_ip s)]> payload) /\
    (tunneled_connect_info s' ≫= lookup "comm_port") = Some cp /\
    h = (5 + w_next_proc w)%nat /\
    w_trace w' =
      ([EvSpawnTunnel h (comm_port s') (of_opt_str (assigned_ip s))
          (PInt remote) (assigned_ip s) ssh_port;
        EvClose (comm_port s'); EvBind (comm_port s')]
       ++ earlier ++ w_trace w)%list /\
    length earlier = 15%nat /\
    Forall (fun ev => match ev with
                      | EvSpawnTunnel h' _ _ _ _ _ => h' <> h
                      | EvBind _ | EvClose _ => True
                      | _ => False
                      end) earlier.
Proof.
  intros Htun Hcp H. unfold _setup_connection_info in H.
  unfold bind at 1, self at 1 in H. unfold bind at 1, env at 1 in H.
  rewrite Htun in H.
  set (ci0 := <["ip" := of_opt_str (assigned_ip s)]> payload) in *.
  inv_bind H.
  unfold bind at 1, update at 1 in Hm.
  inv_bind Hm.
  apply _tunnel_to_kernel_Return in Hm0
    as (p0 & p1 & p2 & p3 & p4 & r0 & r1 & r2 & r3 & r4 & rip & Hk).
  cbv zeta in Hk. cbn [w_next_proc w_env w_trace] in Hk.
  destruct Hk as (-> & Hnd & Hok & HT & Hs1 & _ & _ & _ & _ & _ & _
                  & Hn1 & He1 & Ht1).
  unfold index in Hm. cbn [lookup list_lookup] in Hm.
  unfold bind at 1, ret at 1 in Hm. unfold bind at 1, ret at 1 in Hm.
  unfold bind at 1, ret at 1 in Hm. unfold bind at 1, ret at 1 in Hm.
  unfold bind at 1, ret at 1 in Hm.
  set (ci5 := <["control_port" := _]> _) in *.
  assert (Hcomm : ci5 !! "comm_port" = Some cp).
  { subst ci5 ci0. lookup_literal. exact Hcp. }
  assert (Hip : ci5 !! "ip" = Some (PStr "127.0.0.1")).
  { subst ci5. lookup_literal. reflexivity. }
  rewrite Hcomm in Hm. unfold getitem in Hm. rewrite Hip in Hm.
  unfold bind at 1, ret at 1 in Hm. unfold bind at 1, update at 1 in Hm.
  apply bind_inv in Hm
    as [(remote & sa & wa & Hint & Hm) | [(e & _ & Hm) | (_ & Hm)]];
    [|discriminate Hm|discriminate Hm].
  pose proof (py_int_inv _ _ _ _ _ _ Hint) as (-> & -> & _).
  apply (py_int_same_env _ _ _ _ _ _) with (s0 := s) (w0 := w) in Hint;
    [|symmetry; exact He1].
  apply bind_inv in Hm
    as [(lp & sb & wb & Hport & Hm) | [(e & _ & Hm) | (_ & Hm)]];
    [|discriminate Hm|discriminate Hm].
  apply _tunnel_to_port_Return in Hport as ((Hreal & Hrange) & -> & He & Ht).
  unfold bind at 1, update at 1 in Hm. unfold ret in Hm.
  injection Hm as <- <- <-.
  unfold _update_connection in H.
  apply bind_inv in H
    as [([] & sc & wc & Hnull & H) | [(e & _ & H) | (_ & H)]];
    [|discriminate H|discriminate H].
  match type of Hnull with
  | context [bool_decide ?P] => destruct (bool_decide P)
  end; [discriminate Hnull|].
  unfold ret in Hnull. injection Hnull as <- <-.
  apply bind_inv in H
    as [(ci' & sd & wd & Hex0 & H) | [(e & _ & H) | (_ & H)]];
    [|discriminate H|discriminate H].
  match type of Hex0 with
  | _extract_pid_info ?ci ?sx ?wx = _ =>
      destruct (_extract_pid_info_total ci sx wx)
        as (sy & Hex & Hci & Htp & Htc & Hport & Hcip & _);
      rewrite Hex in Hex0; injection Hex0 as <- <- <-
  end.
  unfold update in H. injection H as <- <-. cbn in *.
  rewrite Hs1 in Htc. cbn in Htc.
  assert (Hsame : lower_port s1 = lower_port s /\ upper_port s1 = upper_port s)
    by (rewrite Hs1; split; reflexivity).
  destruct Hsame as [Hlo Hup]. rewrite Hlo, Hup in Hrange.
  exists remote, (w_next_proc w1).
  eexists. split; [exact Hint|].
  split; [exact Hcip|].
  rewrite Hport. split; [split; assumption|]. split; [lia|].
  split.
  { apply lookup_union_Some_l. lookup_literal. reflexivity. }
  split; [rewrite Htp; lookup_literal; reflexivity|].
  rewrite Htc. split; [reflexivity|].
  split; [cbn; subst ci0; lookup_literal; exact Hcp|].
  split; [rewrite Hn1; reflexivity|].
  split.
  { rewrite Ht, Ht1.
    match goal with
    | |- ?a :: ?b :: ?c :: ?l = _ =>
        refine (@eq_refl _ ([a; b; c]
                  ++ [_; _; _; _; _; _; _; _; _; _; _; _; _; _; _]
                  ++ w_trace w)%list)
    end. }
  split; [reflexivity|].
  rewrite Hn1.
  repeat (apply Forall_cons_2; [first [exact I | lia]|]). apply Forall_nil_2.
Qed.

(** ** The launch of a container kernel *)

(** X24.  [launch_kernel] over the confirmation of a container
    provisioner, for a process launcher that leaves the environment and
    the count of [kill]s alone.  When it returns, what it gives is the
    [connection_info] of the provisioner, with the [ip] of the
    connection; [pid] and [pgid] are 0, not the ids of the launching
    process; the assigned host is known; and [kill] was not entered. *)
Theorem launch_kernel_of_container
  (popen : list string -> gmap string Launch.kwval -> M proc)
  (pid_of : proc -> Z) (local_ip : option string) (fuel : nat)
  (cmd : list string) (kwargs : gmap string Launch.kwval)
  (s : Provisioner) (w : World)
  (ci : gmap string pyval) (s' : Provisioner) (w' : World) :
  (forall c kw s0 w0 r s1 w1,
     popen c kw s0 w0 = (r, s1, w1) ->
     w_env w1 = w_env w0 /\
     count_kills (w_trace w1) = count_kills (w_trace w0)) ->
  launch_kernel popen pid_of local_ip (Container.confirm_remote_startup fuel)
    cmd kwargs s w
  = (Return ci, s', w') ->
  ci = connection_info s' /\
  ci !! "ip" = Some (connection_ip (w_env w) s') /\
  pid s' = 0 /\ pgid s' = 0 /\
  assigned_host s' <> EmptyString /\
  count_kills (w_trace w') = count_kills (w_trace w).
Proof.
  intros Hpopen H. unfold launch_kernel in H.
  apply bind_inv in H
    as [(process & s1 & w1 & Hstart & H) | [(e & _ & H) | (_ & H)]];
    [|discriminate H|discriminate H].
  apply Hpopen in Hstart as [He1 Hk1].
  unfold bind at 1, update at 1 in H. unfold bind at 1, update at 1 in H.
  unfold bind at 1, update at 1 in H.
  apply bind_inv in H
    as [([] & s2 & w2 & Hconfirm & H) | [(e & _ & H) | (_ & H)]];
    [|discriminate H|discriminate H].
  unfold Container.confirm_remote_startup in Hconfirm.
  unfold bind at 1, get_current_time at 1 in Hconfirm.
  unfold bind at 1, update at 1 in Hconfirm.
  apply confirm_loop_Return in Hconfirm
    as (He & Hk & _ & _ & Hpid & Hpgid & Hhost & Hip & _).
  inv_prim H.
  split; [reflexivity|]. split; [rewrite Hip, He1; reflexivity|].
  repeat (split; [assumption|]). rewrite Hk, Hk1. reflexivity.
Qed.

(** * The properties on the scenarios *)

Lemma _setup_connection_info_without_tunneling_witness :
  e_tunneling_enabled (w_env (Examples.world_of (Examples.quiet false))) = false /\
  exists r s',
    _setup_connection_info Scenario.payload Examples.assigned
      (Examples.world_of (Examples.quiet false))
    = (r, s', Examples.world_of (Examples.quiet false)) /\
    tunnel_processes s' = tunnel_processes Examples.assigned /\
    tunneled_connect_info s' = tunneled_connect_info Examples.assigned /\
    match r with
    | Return _ =>
        connection_info s' =
          delete "pgid"
            (delete "pid"
               (<["ip" := of_opt_str (assigned_ip Examples.assigned)]>
                  Scenario.payload))
          ∪ connection_info Examples.assigned /\
        connection_info s' !! "ip"
        = Some (of_opt_str (assigned_ip Examples.assigned)) /\
        match Scenario.payload !! "comm_port" with
        | Some cp =>
            py_int cp Examples.assigned
              (Examples.world_of (Examples.quiet false))
            = (Return (comm_port s'), Examples.assigned,
               Examples.world_of (Examples.quiet false)) /\
            comm_ip s' = of_opt_str (assigned_ip Examples.assigned)
        | None => comm_port s' = comm_port Examples.assigned /\
                  comm_ip s' = comm_ip Examples.assigned
        end
    | Raise e =>
        exists cp, Scenario.payload !! "comm_port" = Some cp /\
                   py_int cp Examples.assigned
                     (Examples.world_of (Examples.quiet false))
                   = (Raise e, Examples.assigned,
                      Examples.world_of (Examples.quiet false))
    | OutOfFuel => False
    end.
Proof.
  split; [reflexivity|].
  exact (_setup_connection_info_without_tunneling Scenario.payload
           Examples.assigned (Examples.world_of (Examples.quiet false))
           eq_refl).
Defined.

Lemma confirm_remote_startup_success_witness :
  let s := Examples.constructed "0..0" in
  let w := Examples.world_of (Scenario.arriving false) in
  let r := Container.confirm_remote_startup 5 s w in
  r = (Return tt, r.1.2, r.2) /\
  pid r.1.2 = 0 /\ pgid r.1.2 = 0 /\
  assigned_host r.1.2 <> EmptyString /\
  start_time r.1.2 = Some (w_now w) /\
  launch_timeout r.1.2 = launch_timeout s /\
  connection_info r.1.2 !! "ip" = Some (connection_ip (w_env w) r.1.2) /\
  count_kills (w_trace r.2) = count_kills (w_trace w) /\
  exists k payload, e_connection_info (w_env w) k = inl payload.
Proof.
  intros s w r.
  assert (Hrun : r = (Return tt, r.1.2, r.2))
    by (apply outcome_eta; vm_compute; reflexivity).
  split; [exact Hrun|]. unfold r in Hrun at 1.
  exact (confirm_remote_startup_success 5 s w r.1.2 r.2 Hrun).
Defined.

Lemma select_ports_releases_its_sockets_witness :
  let s := Examples.constructed "1024..2024" in
  let w := Examples.world_of (Examples.quiet false) in
  let r := select_ports (Z.of_nat 3) s w in
  let ports := match r.1.1 with Return l => l | _ => [] end in
  r = (Return ports, r.1.2, r.2) /\
  w_open r.2 = w_open w /\
  Forall (fun p => p ∉ w_open w) ports /\
  Forall (fun p => p ∉ w_open r.2) ports /\
  r.1.2 = s /\ w_next_proc r.2 = w_next_proc w /\
  count_events is_spawn (w_trace r.2) = count_events is_spawn (w_trace w).
Proof.
  intros s w r ports.
  assert (Hrun : r = (Return ports, r.1.2, r.2))
    by (apply outcome_eta; vm_compute; reflexivity).
  split; [exact Hrun|]. unfold r in Hrun at 1.
  exact (select_ports_releases_its_sockets 3 s w ports r.1.2 r.2 Hrun).
Defined.


Lemma substitute_cmd_leaves_plain_commands_witness :
  let s := Examples.constructed "0..0" in
  let argv := ["python"; "-m"; "kernel"] in
  (Launch.substitutes Scenario.attributes s = false \/
   Forall (fun arg => Launch.plain arg = true) argv) /\
  Launch.substitute_cmd Scenario.attributes s ∅ argv = Launch.Ok argv.
Proof.
  intros s argv.
  assert (Hplain : Launch.substitutes Scenario.attributes s = false \/
                   Forall (fun arg => Launch.plain arg = true) argv).
  { right. repeat (apply Forall_cons_2; [reflexivity|]). apply Forall_nil_2. }
  split; [exact Hplain|].
  exact (substitute_cmd_leaves_plain_commands Scenario.attributes s ∅ argv
           Hplain).
Defined.

Lemma substitute_cmd_placeholder_witness :
  let s := Examples.constructed "0..0" in
  let kwargs : gmap string Launch.kwval := <["kernel_id" := Launch.KObject]> ∅ in
  Launch.substitutes Scenario.attributes s = true /\
  Launch.plain "--id=" = true /\ Launch.is_name "kernel_id" = true /\
  Launch.plain ".json" = true /\
  Launch.substitute_cmd Scenario.attributes s kwargs
    [("--id=" ++ String "{" ("kernel_id" ++ String "}" ".json"))%string]
  = match Launch.namespace Scenario.attributes s kwargs !! "kernel_id" with
    | Some (Launch.KStr value) =>
        Launch.Ok [("--id=" ++ value ++ ".json")%string]
    | Some Launch.KNone => Launch.Ok [("--id=" ++ ".json")%string]
    | Some Launch.KObject => Launch.Fail Launch.TypeError_expected_str
    | None =>
        Launch.Ok
          [("--id=" ++ String "{" ("kernel_id" ++ String "}" ".json"))%string]
    end.
Proof.
  intros s kwargs.
  assert (Hsub : Launch.substitutes Scenario.attributes s = true)
    by reflexivity.
  split; [exact Hsub|]. do 3 (split; [reflexivity|]).
  exact (substitute_cmd_placeholder Scenario.attributes s kwargs
           "--id=" "kernel_id" ".json" Hsub eq_refl eq_refl eq_refl).
Defined.

(** The placeholder of the kernel id is replaced by the attribute, also
    when the keyword arguments have an object under that name. *)
Example substitute_cmd_kernel_id :
  Launch.substitute_cmd Scenario.attributes (Examples.constructed "0..0")
    (<["kernel_id" := Launch.KObject]> ∅) ["--id={kernel_id}.json"]
  = Launch.Ok ["--id=k-17.json"].
Proof. vm_compute. reflexivity. Qed.

Lemma tunneled_communication_port_witness :
  let s := Examples.assigned in
  let w := Examples.world_of (Examples.quiet true) in
  let r := _setup_connection_info Scenario.payload s w in
  e_tunneling_enabled (w_env w) = true /\
  Scenario.payload !! "comm_port" = Some (PStr "8877") /\
  r = (Return tt, r.1.2, r.2) /\
  exists remote h earlier,
    py_int (PStr "8877") s w = (Return remote, s, w) /\
    comm_ip r.1.2 = PStr "127.0.0.1" /\
    port_ok s (comm_port r.1.2) /\ 0 < comm_port r.1.2 /\
    connection_info r.1.2 !! "comm_port" = Some (PInt (comm_port r.1.2)) /\
    tunnel_processes r.1.2 !! channel_value COMMUNICATION = Some h /\
    tunneled_connect_info r.1.2
    = Some (<["ip" := of_opt_str (assigned_ip s)]> Scenario.payload) /\
    (tunneled_connect_info r.1.2 ≫= lookup "comm_port") = Some (PStr "8877") /\
    h = (5 + w_next_proc w)%nat /\
    w_trace r.2 =
      ([EvSpawnTunnel h (comm_port r.1.2) (of_opt_str (assigned_ip s))
          (PInt remote) (assigned_ip s) ssh_port;
        EvClose (comm_port r.1.2); EvBind (comm_port r.1.2)]
       ++ earlier ++ w_trace w)%list /\
    length earlier = 15%nat /\
    Forall (fun ev => match ev with
                      | EvSpawnTunnel h' _ _ _ _ _ => h' <> h
                      | EvBind _ | EvClose _ => True
                      | _ => False
                      end) earlier.
Proof.
  intros s w r.
  assert (Htun : e_tunneling_enabled (w_env w) = true) by reflexivity.
  assert (Hcp : Scenario.payload !! "comm_port" = Some (PStr "8877"))
    by (vm_compute; reflexivity).
  assert (Hrun : r = (Return tt, r.1.2, r.2))
    by (apply outcome_eta; vm_compute; reflexivity).
  split; [exact Htun|]. split; [exact Hcp|]. split; [exact Hrun|].
  unfold r in Hrun at 1.
  exact (tunneled_communication_port Scenario.payload (PStr "8877") s w
           r.1.2 r.2 Htun Hcp Hrun).
Defined.

Lemma launch_kernel_of_container_witness :
  let s := Examples.constructed "0..0" in
  let w := Examples.world_of (Scenario.arriving false) in
  let r := launch_kernel Scenario.popen Z.of_nat (Some "192.168.0.2")
             (Container.confirm_remote_startup 5) ["python"] ∅ s w in
  let ci := match r.1.1 with Return ci => ci | _ => ∅ end in
  (forall c kw s0 w0 r0 s1 w1,
     Scenario.popen c kw s0 w0 = (r0, s1, w1) ->
     w_env w1 = w_env w0 /\
     count_kills (w_trace w1) = count_kills (w_trace w0)) /\
  r = (Return ci, r.1.2, r.2) /\
  ci = connection_info r.1.2 /\
  ci !! "ip" = Some (connection_ip (w_env w) r.1.2) /\
  pid r.1.2 = 0 /\ pgid r.1.2 = 0 /\
  assigned_host r.1.2 <> EmptyString /\
  count_kills (w_trace r.2) = count_kills (w_trace w).
Proof.
  intros s w r ci.
  assert (Hpopen : forall c kw s0 w0 r0 s1 w1,
            Scenario.popen c kw s0 w0 = (r0, s1, w1) ->
            w_env w1 = w_env w0 /\
            count_kills (w_trace w1) = count_kills (w_trace w0)).
  { intros c kw s0 w0 r0 s1 w1 H. unfold Scenario.popen, fresh_proc in H.
    inversion H. split; reflexivity. }
  assert (Hrun : r = (Return ci, r.1.2, r.2))
    by (apply outcome_eta; vm_compute; reflexivity).
  split; [exact Hpopen|]. split; [exact Hrun|]. unfold r in Hrun at 1.
  exact (launch_kernel_of_container Scenario.popen Z.of_nat
           (Some "192.168.0.2") 5 ["python"] ∅ s w ci r.1.2 r.2
           Hpopen Hrun).
Defined.
